(** * Genieverse: the tolerant response parser, the query router and the
      chart column resolution, embedded from
      [robust_json_parser.py], [api_client.py], [config.py] and
      [chart_utils.py]; with them the chart builder, the API client,
      the tests of [response_processor.py] on an answer, two functions
      of [utils.py] and the query parser of [dashboard_manager.py].

    Conventions of the embedding.

    - A Python [str] is a Rocq [string]; a character is one of the first
      256 code points, and the character predicates of Python
      ([str.isspace], [str.lower], the classes [\s], [\w], [\d] of [re])
      are the ones Python uses on that range.  A JSON escape that names
      a character beyond that range is outside the model: the scanner
      refuses it, and every statement on what [json.loads] refuses is
      made on texts without such an escape ([Json.names_wide_char]).
    - A Python value is a [pyval]; a [dict] is an association list in
      insertion order with distinct keys.
    - A Python [float] is the decimal that was read: a decimal that
      rounds to an infinity or to zero is that infinity or zero
      ([float_of_decimal]), any other is kept as it was read, without
      the rounding to 53 bits, which no program here observes (floats
      are tested for truth and type, never compared or printed).
      Interpreter resource limits (recursion depth, integer digit
      limit) are not part of the model.
    - A raised exception is the left summand of the monad [M]; every
      [try]/[except] of the source is a [catch] on it, or a [match] on
      the outcome where the handler returns.
    - Logging is left out, except where the logged expression can raise.
    - The functions that recur on what a previous step left ([split],
      [replace], the repetition and the successive matches of [re], the
      JSON scanner) take fuel; the first part of the properties shows
      that the fuel they are given is never used up.
    - String literals of the source that hold double quotes are written
      with [js], where an apostrophe stands for the double quote. *)

From Stdlib Require Import String Ascii List ZArith NArith Bool Lia.
From Stdlib Require Import DecimalString.
Import ListNotations.
Open Scope string_scope.
#[local] Set Warnings "-register-all".

(* ================================================================= *)
(** ** Python strings *)

Module PyStr.

Definition dquote : ascii := ascii_of_nat 34.
Definition squote : ascii := ascii_of_nat 39.
Definition newline : ascii := ascii_of_nat 10.

Fixpoint map_chars (f : ascii -> ascii) (s : string) : string :=
  match s with
  | EmptyString => EmptyString
  | String c s' => String (f c) (map_chars f s')
  end.

(** [js "{'a': 1}"] is the text [{"a": 1}]. *)
Definition js (s : string) : string :=
  map_chars (fun c => if Ascii.eqb c squote then dquote else c) s.

Definition code (c : ascii) : N := N_of_ascii c.

Definition in_range (lo hi : N) (c : ascii) : bool :=
  (N.leb lo (code c) && N.leb (code c) hi)%bool.

(** [str.isspace] and the class [\s]. *)
Definition isspace (c : ascii) : bool :=
  (in_range 9 13 c || in_range 28 32 c
   || N.eqb (code c) 133 || N.eqb (code c) 160)%bool.

(** The class [\d]. *)
Definition isdigit (c : ascii) : bool := in_range 48 57 c.

(** The class [\w]. *)
Definition isword (c : ascii) : bool :=
  (in_range 48 57 c || in_range 65 90 c || in_range 97 122 c
   || N.eqb (code c) 95
   || N.eqb (code c) 170 || in_range 178 179 c || N.eqb (code c) 181
   || in_range 185 186 c || in_range 188 190 c
   || in_range 192 214 c || in_range 216 246 c || in_range 248 255 c)%bool.

Definition lower_char (c : ascii) : ascii :=
  if (in_range 65 90 c || in_range 192 214 c || in_range 216 222 c)%bool
  then ascii_of_N (code c + 32) else c.

(** [s.lower()] *)
Definition lower (s : string) : string := map_chars lower_char s.

(** [s.startswith(p)] *)
Fixpoint startswith (p s : string) : bool :=
  match p, s with
  | EmptyString, _ => true
  | String a p', String b s' => (Ascii.eqb a b && startswith p' s')%bool
  | String _ _, EmptyString => false
  end.

(** [t in s] *)
Fixpoint contains (t s : string) : bool :=
  if startswith t s then true
  else match s with
       | EmptyString => false
       | String _ s' => contains t s'
       end.

Fixpoint find_from (t s : string) (i : Z) : Z :=
  if startswith t s then i
  else match s with
       | EmptyString => (-1)%Z
       | String _ s' => find_from t s' (i + 1)%Z
       end.

(** [s.find(t)]: the first index, or [-1]. *)
Definition find (t s : string) : Z := find_from t s 0%Z.

(** [s[:n]] and [s[n:]] for [n >= 0]. *)
Fixpoint take (n : nat) (s : string) : string :=
  match n, s with
  | S n', String c s' => String c (take n' s')
  | _, _ => EmptyString
  end.

Fixpoint drop (n : nat) (s : string) : string :=
  match n, s with
  | S n', String _ s' => drop n' s'
  | _, _ => s
  end.

Fixpoint lstrip (s : string) : string :=
  match s with
  | EmptyString => EmptyString
  | String c s' => if isspace c then lstrip s' else s
  end.

Fixpoint rstrip (s : string) : string :=
  match s with
  | EmptyString => EmptyString
  | String c s' =>
      match rstrip s' with
      | EmptyString => if isspace c then EmptyString else String c EmptyString
      | r => String c r
      end
  end.

(** [s.strip()] *)
Definition strip (s : string) : string := rstrip (lstrip s).

(** The text before the first occurrence of [sep] (all of [s] when
    there is none), and the text after it. *)
Fixpoint before (sep s : string) : string :=
  if startswith sep s then EmptyString
  else match s with
       | EmptyString => EmptyString
       | String c s' => String c (before sep s')
       end.

Fixpoint after (sep s : string) : option string :=
  if startswith sep s then Some (drop (String.length sep) s)
  else match s with
       | EmptyString => None
       | String _ s' => after sep s'
       end.

(** [s.split(sep)] for a non-empty [sep]; every step consumes a
    character, so [length s] steps are enough. *)
Fixpoint split_fuel (n : nat) (sep s : string) : list string :=
  match n with
  | O => [s]
  | S n' =>
      match after sep s with
      | None => [s]
      | Some rest => before sep s :: split_fuel n' sep rest
      end
  end.

Definition split (sep s : string) : list string :=
  split_fuel (String.length s) sep s.

(** [s.replace(old, new)] for a non-empty [old]. *)
Fixpoint replace_fuel (n : nat) (old new s : string) : string :=
  match n with
  | O => s
  | S n' =>
      if startswith old s
      then new ++ replace_fuel n' old new (drop (String.length old) s)
      else match s with
           | EmptyString => EmptyString
           | String c s' => String c (replace_fuel n' old new s')
           end
  end.

Definition replace (old new s : string) : string :=
  replace_fuel (S (String.length s)) old new s.

(** [sep.join(l)] *)
Fixpoint join (sep : string) (l : list string) : string :=
  match l with
  | [] => EmptyString
  | [x] => x
  | x :: rest => x ++ sep ++ join sep rest
  end.

(** Membership of a string in a list of strings. *)
Definition mem (x : string) (l : list string) : bool :=
  existsb (String.eqb x) l.

(** [s.endswith(t)] *)
Fixpoint endswith (t s : string) : bool :=
  if String.eqb t s then true
  else match s with
       | EmptyString => false
       | String _ s' => endswith t s'
       end.

(** [s.split()]: the maximal runs of characters that are not white
    space, in order. *)
Fixpoint split_ws (s : string) : list string :=
  match s with
  | EmptyString => []
  | String c s' =>
      if isspace c then split_ws s'
      else
        match s' with
        | EmptyString => [String c EmptyString]
        | String c' _ =>
            if isspace c' then String c EmptyString :: split_ws s'
            else
              match split_ws s' with
              | w :: rest => String c w :: rest
              | [] => [String c EmptyString]
              end
        end
  end.

(** The title case of one character.  The sharp s becomes [Ss]; the
    title case of the micro sign and of y with diaeresis is a character
    beyond the alphabet, and the answer is [None]. *)
Definition title_char (c : ascii) : option string :=
  if (in_range 97 122 c || in_range 224 246 c || in_range 248 254 c)%bool
  then Some (String (ascii_of_N (code c - 32)) EmptyString)
  else if N.eqb (code c) 223 then Some "Ss"
  else if (N.eqb (code c) 181 || N.eqb (code c) 255)%bool then None
  else Some (String c EmptyString).

(** [s.capitalize()]: the first character in title case, the others in
    lower case. *)
Definition capitalize (s : string) : option string :=
  match s with
  | EmptyString => Some EmptyString
  | String c s' =>
      match title_char c with
      | Some t => Some (t ++ lower s')
      | None => None
      end
  end.

(** [[w.capitalize() for w in l]] *)
Fixpoint capitalize_all (l : list string) : option (list string) :=
  match l with
  | [] => Some []
  | w :: rest =>
      match capitalize w, capitalize_all rest with
      | Some w', Some rest' => Some (w' :: rest')
      | _, _ => None
      end
  end.

(** Whether a character is cased: a letter with an upper and a lower
    case, or one of the two ordinal indicators. *)
Definition iscased (c : ascii) : bool :=
  (in_range 65 90 c || in_range 97 122 c
   || N.eqb (code c) 170 || N.eqb (code c) 181 || N.eqb (code c) 186
   || in_range 192 214 c || in_range 216 246 c || in_range 248 255 c)%bool.

(** The loop of [s.title()]: a character that follows a cased one is
    lowered, any other is put in title case. *)
Fixpoint title_from (previous_is_cased : bool) (s : string) : option string :=
  match s with
  | EmptyString => Some EmptyString
  | String c s' =>
      match (if previous_is_cased
             then Some (String (lower_char c) EmptyString)
             else title_char c),
            title_from (iscased c) s' with
      | Some t, Some rest => Some (t ++ rest)
      | _, _ => None
      end
  end.

(** [s.title()]; [None] when the title case of a character lies beyond
    the alphabet. *)
Definition title (s : string) : option string := title_from false s.

End PyStr.
Import PyStr.

(* ================================================================= *)
(** ** Python values, exceptions and the operations the sources apply
       to values of unknown type *)

Module Py.

(** A float: the decimal [mant * 10 ^ exp10] as read, or one of the
    three literals [NaN], [Infinity], [-Infinity]. *)
Inductive pyfloat : Type :=
| FDec (mant exp10 : Z)
| FNaN
| FInf (negative : bool).

(** [float] of the decimal [mant * 10 ^ exp10], as rounding to the
    nearest double decides it: a decimal of size [2^1024 - 2^970] or
    more (half a unit above the largest double) is an infinity, one of
    size [2^-1075] or less (half the smallest double) is zero. *)
Definition decimal_overflows (mant exp10 : Z) : bool :=
  let bound := (2 ^ 1024 - 2 ^ 970)%Z in
  if (0 <=? exp10)%Z then (bound <=? Z.abs mant * 10 ^ exp10)%Z
  else (bound * 10 ^ (- exp10) <=? Z.abs mant)%Z.

Definition decimal_underflows (mant exp10 : Z) : bool :=
  if (0 <=? exp10)%Z then (mant =? 0)%Z
  else (Z.abs mant * 2 ^ 1075 <=? 10 ^ (- exp10))%Z.

Definition float_of_decimal (mant exp10 : Z) : pyfloat :=
  if decimal_overflows mant exp10 then FInf (mant <? 0)%Z
  else if decimal_underflows mant exp10 then FDec 0 0
  else FDec mant exp10.

Inductive pyval : Type :=
| PNone
| PBool (b : bool)
| PInt (z : Z)
| PFloat (f : pyfloat)
| PStr (s : string)
| PList (l : list pyval)
| PDict (d : list (string * pyval)).

Definition dict := list (string * pyval).

Inductive pyexn : Type :=
| JSONDecodeError | ValueError | TypeError | AttributeError | KeyError
| IndexError.

(** Computations that may raise. *)
Definition M (A : Type) : Type := (pyexn + A)%type.
Definition ret {A} (a : A) : M A := inr a.
Definition raise {A} (e : pyexn) : M A := inl e.
Definition bind {A B} (m : M A) (k : A -> M B) : M B :=
  match m with
  | inl e => inl e
  | inr a => k a
  end.

(** [try: body except <handled>: handler] *)
Definition catch {A} (body : M A) (handled : pyexn -> bool) (handler : M A)
  : M A :=
  match body with
  | inl e => if handled e then handler else inl e
  | inr a => inr a
  end.

Definition is_JSONDecodeError (e : pyexn) : bool :=
  match e with JSONDecodeError => true | _ => false end.

(** [json.JSONDecodeError] is a subclass of [ValueError]. *)
Definition is_ValueError (e : pyexn) : bool :=
  match e with JSONDecodeError | ValueError => true | _ => false end.

(** *** dict *)

Fixpoint dict_get (k : string) (d : dict) : option pyval :=
  match d with
  | [] => None
  | (k', v) :: d' => if String.eqb k k' then Some v else dict_get k d'
  end.

(** [k in d] *)
Definition dict_has (k : string) (d : dict) : bool :=
  match dict_get k d with Some _ => true | None => false end.

(** [d[k] = v]: in place when the key is there, else at the end. *)
Fixpoint dict_set (k : string) (v : pyval) (d : dict) : dict :=
  match d with
  | [] => [(k, v)]
  | (k', v') :: d' =>
      if String.eqb k k' then (k', v) :: d' else (k', v') :: dict_set k v d'
  end.

(** [d.get(k, default)] *)
Definition dict_get_default (k : string) (default : pyval) (d : dict)
  : pyval :=
  match dict_get k d with Some v => v | None => default end.

(** [list(d.keys())] *)
Definition dict_keys (d : dict) : list string := map fst d.

(** *** truth value, [isinstance], [==] with a string *)

Definition truthy (v : pyval) : bool :=
  match v with
  | PNone => false
  | PBool b => b
  | PInt z => negb (Z.eqb z 0)
  | PFloat (FDec m _) => negb (Z.eqb m 0)
  | PFloat _ => true
  | PStr s => negb (String.eqb s "")
  | PList l => match l with [] => false | _ => true end
  | PDict d => match d with [] => false | _ => true end
  end.

Definition isinstance_dict (v : pyval) : bool :=
  match v with PDict _ => true | _ => false end.

Definition isinstance_list (v : pyval) : bool :=
  match v with PList _ => true | _ => false end.

(** [isinstance(v, (int, float))]; [bool] is a subclass of [int]. *)
Definition isinstance_int_float (v : pyval) : bool :=
  match v with
  | PBool _ | PInt _ | PFloat _ => true
  | _ => false
  end.

(** [v == s] for a string [s]. *)
Definition eq_str (v : pyval) (s : string) : bool :=
  match v with PStr s' => String.eqb s' s | _ => false end.

(** [s in v] for a string [s]: substring of a string, element of a
    list, key of a dict; [TypeError] on anything else. *)
Definition py_in (s : string) (v : pyval) : M bool :=
  match v with
  | PStr t => ret (contains s t)
  | PList l => ret (existsb (fun x => eq_str x s) l)
  | PDict d => ret (dict_has s d)
  | _ => raise TypeError
  end.

(** [v[0]] *)
Definition getitem0 (v : pyval) : M pyval :=
  match v with
  | PList (x :: _) => ret x
  | PList [] => raise IndexError
  | PStr (String c _) => ret (PStr (String c EmptyString))
  | PStr EmptyString => raise IndexError
  | PDict _ => raise KeyError
  | _ => raise TypeError
  end.

(** [v[k]] for a string [k] *)
Definition getitem_str (k : string) (v : pyval) : M pyval :=
  match v with
  | PDict d => match dict_get k d with Some x => ret x | None => raise KeyError end
  | _ => raise TypeError
  end.

(** [list(v.keys())], [v.items()], [v.get(k, default)] *)
Definition py_keys (v : pyval) : M (list string) :=
  match v with
  | PDict d => ret (dict_keys d)
  | _ => raise AttributeError
  end.

Definition py_items (v : pyval) : M dict :=
  match v with
  | PDict d => ret d
  | _ => raise AttributeError
  end.

Definition py_get (k : string) (default : pyval) (v : pyval) : M pyval :=
  match v with
  | PDict d => ret (dict_get_default k default d)
  | _ => raise AttributeError
  end.

(** [len(v)] *)
Definition py_len (v : pyval) : M Z :=
  match v with
  | PStr s => ret (Z.of_nat (String.length s))
  | PList l => ret (Z.of_nat (List.length l))
  | PDict d => ret (Z.of_nat (List.length d))
  | _ => raise TypeError
  end.

(** [v.strip()] and [v.split(sep)]: methods of [str] only. *)
Definition py_strip (v : pyval) : M string :=
  match v with
  | PStr s => ret (strip s)
  | _ => raise AttributeError
  end.

Definition py_split (sep : string) (v : pyval) : M (list string) :=
  match v with
  | PStr s => ret (split sep s)
  | _ => raise AttributeError
  end.

Definition PStrs (l : list string) : pyval := PList (map PStr l).

(** [v.lower()] and [v.replace(old, new)]: methods of [str] only. *)
Definition py_lower (v : pyval) : M string :=
  match v with
  | PStr s => ret (lower s)
  | _ => raise AttributeError
  end.

Definition py_replace (old new : string) (v : pyval) : M string :=
  match v with
  | PStr s => ret (replace old new s)
  | _ => raise AttributeError
  end.

End Py.
Import Py.

Declare Scope py_scope.
Notation "x <- c ;; k" := (bind c (fun x => k))
  (at level 61, c at next level, right associativity) : py_scope.
Notation "' pat <- c ;; k" := (bind c (fun x => let 'pat := x in k))
  (at level 61, pat pattern, c at next level, right associativity) : py_scope.
Open Scope py_scope.

(* ================================================================= *)
(** ** The subset of [re] the patterns of the parser use: a
       backtracking matcher, greedy repetition, numbered groups *)

Module Re.

Inductive regex : Type :=
| Eps
| Lit (c : ascii)
| Cls (f : ascii -> bool)
| Seq (a b : regex)
| Star (r : regex)
| Opt (r : regex)
| Grp (i : nat) (r : regex)
| Eos.

Definition Plus (r : regex) : regex := Seq r (Star r).

Fixpoint Str (s : string) : regex :=
  match s with
  | EmptyString => Eps
  | String c s' => Seq (Lit c) (Str s')
  end.

Definition groups := list (nat * string).

(** The rounds of a greedy repetition of [body]: one more round first,
    when it consumes something and the rest of the match succeeds; else
    the rest of the match from here.  A round has to consume a
    character, so the [S (length s)] rounds [run] allows are never used
    up ([star_fuel_adequate] below). *)
Fixpoint star_loop {R : Type}
  (body : string -> groups -> (string -> groups -> option R) -> option R)
  (n : nat) (s : string) (g : groups) (k : string -> groups -> option R)
  {struct n} : option R :=
  match n with
  | O => k s g
  | S n' =>
      match body s g
              (fun s1 g1 =>
                 if Nat.ltb (String.length s1) (String.length s)
                 then star_loop body n' s1 g1 k else None) with
      | Some x => Some x
      | None => k s g
      end
  end.

(** [run r s g k]: match [r] at the head of [s], then continue with
    [k] on what is left; the alternatives are tried in the order of
    [re] (longest repetition first). *)
Fixpoint run {R : Type} (r : regex) (s : string) (g : groups)
  (k : string -> groups -> option R) {struct r} : option R :=
  match r with
  | Eps => k s g
  | Lit c =>
      match s with
      | String a s' => if Ascii.eqb a c then k s' g else None
      | EmptyString => None
      end
  | Cls f =>
      match s with
      | String a s' => if f a then k s' g else None
      | EmptyString => None
      end
  | Seq a b => run a s g (fun s1 g1 => run b s1 g1 k)
  | Opt a =>
      match run a s g k with
      | Some x => Some x
      | None => k s g
      end
  | Star a => star_loop (run a) (S (String.length s)) s g k
  | Grp i a =>
      run a s g
        (fun s1 g1 =>
           k s1 ((i, take (String.length s - String.length s1) s) :: g1))
  | Eos =>
      match s with
      | EmptyString => k s g
      | String c EmptyString => if Ascii.eqb c newline then k s g else None
      | _ => None
      end
  end.

(** A match: where it starts (counted from the start of the text that
    was searched), the text matched, the text after it, the groups. *)
Record match_obj : Type := {
  m_start : nat;
  m_group0 : string;
  m_rest : string;
  m_groups : groups
}.

Fixpoint lookup_group (i : nat) (g : groups) : string :=
  match g with
  | [] => EmptyString
  | (j, t) :: g' => if Nat.eqb i j then t else lookup_group i g'
  end.

(** [m.group(i)] for [i >= 1] *)
Definition group (i : nat) (m : match_obj) : string :=
  lookup_group i (m_groups m).

Fixpoint search_from (r : regex) (s : string) (i : nat) : option match_obj :=
  match run r s [] (fun s' g => Some (s', g)) with
  | Some (s', g) =>
      Some {| m_start := i;
              m_group0 := take (String.length s - String.length s') s;
              m_rest := s';
              m_groups := g |}
  | None =>
      match s with
      | EmptyString => None
      | String _ s' => search_from r s' (S i)
      end
  end.

(** [re.search(r, s)] *)
Definition search (r : regex) (s : string) : option match_obj :=
  search_from r s 0.

(** [re.finditer(r, s)]: successive matches, each searched in what the
    previous one left ([m_start] is relative to that).  After an empty
    match the search moves one character on, and it stops at the end of
    the text; every round but the last consumes a character, so
    [S (length s)] rounds suffice. *)
Fixpoint finditer_fuel (n : nat) (r : regex) (s : string) : list match_obj :=
  match n with
  | O => []
  | S n' =>
      match search r s with
      | None => []
      | Some m =>
          match m_group0 m, m_rest m with
          | EmptyString, EmptyString => [m]
          | EmptyString, String _ rest => m :: finditer_fuel n' r rest
          | String _ _, rest => m :: finditer_fuel n' r rest
          end
      end
  end.

Definition finditer (r : regex) (s : string) : list match_obj :=
  finditer_fuel (S (String.length s)) r s.

(** [re.findall(r, s)] for a pattern without groups, and for one with
    two groups. *)
Definition findall0 (r : regex) (s : string) : list string :=
  map m_group0 (finditer r s).

Definition findall2 (r : regex) (s : string) : list (string * string) :=
  map (fun m => (group 1 m, group 2 m)) (finditer r s).

End Re.

(* ================================================================= *)
(** ** [json.loads], as CPython's scanner reads a [str]

    [None] stands for [json.JSONDecodeError].  An escape [\uXXXX] above
    [U+00FF] names a character outside the alphabet of the embedding:
    a text that holds one ([names_wide_char]) is outside the model, and
    the scanner refuses it where [json.loads] may not. *)

Module Json.

(** The JSON white space: space, tab, line feed, carriage return. *)
Definition is_ws (c : ascii) : bool :=
  (N.eqb (code c) 32 || N.eqb (code c) 9
   || N.eqb (code c) 10 || N.eqb (code c) 13)%bool.

Fixpoint skip_ws (s : string) : string :=
  match s with
  | String c s' => if is_ws c then skip_ws s' else s
  | EmptyString => s
  end.

(** The longest prefix of digits [0-9], and the rest. *)
Fixpoint span_digits (s : string) : string * string :=
  match s with
  | String c s' =>
      if isdigit c
      then let (d, r) := span_digits s' in (String c d, r)
      else (EmptyString, s)
  | EmptyString => (EmptyString, EmptyString)
  end.

Definition digit_val (c : ascii) : Z := Z.of_N (code c - 48).

Fixpoint Z_of_digits_acc (acc : Z) (s : string) : Z :=
  match s with
  | EmptyString => acc
  | String c s' => Z_of_digits_acc (10 * acc + digit_val c) s'
  end.

Definition Z_of_digits (s : string) : Z := Z_of_digits_acc 0 s.

Definition hex_val (c : ascii) : option N :=
  if in_range 48 57 c then Some (code c - 48)%N
  else if in_range 97 102 c then Some (code c - 87)%N
  else if in_range 65 70 c then Some (code c - 55)%N
  else None.

Definition hex4 (a b c d : ascii) : option N :=
  match hex_val a, hex_val b, hex_val c, hex_val d with
  | Some x, Some y, Some z, Some w => Some (((x * 16 + y) * 16 + z) * 16 + w)%N
  | _, _, _, _ => None
  end.

Definition unescape (c : ascii) : option ascii :=
  if Ascii.eqb c dquote then Some dquote
  else if Ascii.eqb c "\" then Some "\"%char
  else if Ascii.eqb c "/" then Some "/"%char
  else if Ascii.eqb c "b" then Some (ascii_of_nat 8)
  else if Ascii.eqb c "f" then Some (ascii_of_nat 12)
  else if Ascii.eqb c "n" then Some (ascii_of_nat 10)
  else if Ascii.eqb c "r" then Some (ascii_of_nat 13)
  else if Ascii.eqb c "t" then Some (ascii_of_nat 9)
  else None.

(** [eat c s]: what follows the character [c] at the head of [s]. *)
Definition eat (c : ascii) (s : string) : option string :=
  match s with
  | String a r => if Ascii.eqb a c then Some r else None
  | EmptyString => None
  end.

(** The body of a string after its opening quote, up to the closing
    one: the decoded text and what follows the closing quote.  Strict
    mode: a raw control character ends the scan with an error. *)
Fixpoint scan_string (s : string) : option (string * string) :=
  match s with
  | EmptyString => None
  | String c s' =>
      if Ascii.eqb c dquote then Some (EmptyString, s')
      else if Ascii.eqb c "\" then
        match s' with
        | String e s'' =>
            if Ascii.eqb e "u" then
              match s'' with
              | String h1 (String h2 (String h3 (String h4 s4))) =>
                  match hex4 h1 h2 h3 h4 with
                  | Some n =>
                      if N.leb n 255 then
                        match scan_string s4 with
                        | Some (t, r) => Some (String (ascii_of_N n) t, r)
                        | None => None
                        end
                      else None
                  | None => None
                  end
              | _ => None
              end
            else
              match unescape e with
              | Some a =>
                  match scan_string s'' with
                  | Some (t, r) => Some (String a t, r)
                  | None => None
                  end
              | None => None
              end
        | EmptyString => None
        end
      else if N.ltb (code c) 32 then None
      else
        match scan_string s' with
        | Some (t, r) => Some (String c t, r)
        | None => None
        end
  end.

(** Whether a text names, in a [\u] escape, a character beyond the
    alphabet.  [scan_string] refuses such an escape where [json.loads]
    decodes it, into a [str] this model has no value for: on a text
    that names none the scanner never has to. *)
Fixpoint names_wide_char (s : string) : bool :=
  match s with
  | EmptyString => false
  | String c s' =>
      (Ascii.eqb c "\"
       && match s' with
          | String u (String h1 (String h2 (String h3 (String h4 _)))) =>
              Ascii.eqb u "u"
              && match hex4 h1 h2 h3 h4 with
                 | Some n => negb (N.leb n 255)
                 | None => false
                 end
          | _ => false
          end)
      || names_wide_char s'
  end.

(** A number at the head of [s]: an optional minus sign; a zero, or a
    digit from 1 to 9 and any digits; optionally a point and one digit
    or more; optionally [e] or [E], an optional sign and one digit or
    more.  It is an [int] when it has neither fraction nor exponent,
    and else the [float] of its digits. *)

(** The digits of the integer part, and the rest. *)
Definition scan_int_part (s : string) : option (string * string) :=
  match s with
  | String c r =>
      if Ascii.eqb c "0" then Some ("0", r)
      else if in_range 49 57 c then Some (span_digits s)
      else None
  | EmptyString => None
  end.

(** The digits of the fraction, if there is one, and the rest. *)
Definition scan_frac (s : string) : option string * string :=
  match eat "." s with
  | Some (String d r) =>
      if isdigit d
      then let (fs, r') := span_digits (String d r) in (Some fs, r')
      else (None, s)
  | _ => (None, s)
  end.

(** The exponent, if there is one, and the rest. *)
Definition scan_exp (s : string) : option Z * string :=
  match s with
  | String e r =>
      if (Ascii.eqb e "e" || Ascii.eqb e "E")%bool then
        let (eneg, r1) :=
          match eat "-" r, eat "+" r with
          | Some r', _ => (true, r')
          | None, Some r' => (false, r')
          | None, None => (false, r)
          end in
        match r1 with
        | String d _ =>
            if isdigit d
            then let (es, r2) := span_digits r1 in
                 (Some (if eneg : bool then (- Z_of_digits es)%Z
                        else Z_of_digits es), r2)
            else (None, s)
        | EmptyString => (None, s)
        end
      else (None, s)
  | EmptyString => (None, s)
  end.

Definition scan_number (s : string) : option (pyval * string) :=
  let (neg, s1) :=
    match eat "-" s with
    | Some r => (true, r)
    | None => (false, s)
    end in
  match scan_int_part s1 with
  | None => None
  | Some (ds, s2) =>
      let (frac, s3) := scan_frac s2 in
      let (ex, s4) := scan_exp s3 in
      let sign (z : Z) : Z := if neg : bool then (- z)%Z else z in
      match frac, ex with
      | None, None => Some (PInt (sign (Z_of_digits ds)), s4)
      | _, _ =>
          let fs := match frac with Some f => f | None => EmptyString end in
          let e := match ex with Some e => e | None => 0%Z end in
          Some (PFloat (float_of_decimal (sign (Z_of_digits (ds ++ fs)))
                          (e - Z.of_nat (String.length fs))%Z), s4)
      end
  end.

(** One value at the head of [s] (no leading white space), the members
    of an object where a key is due, the elements of an array where a
    value is due.  Every call either fails or consumes a character
    before the next one, and a call of [scan_elements] is followed by
    one of [scan_value] at the same place: [2 * length s + 2] units of
    fuel are never used up ([scan_fuel_stable] below). *)
Fixpoint scan_value (fuel : nat) (s : string) {struct fuel}
  : option (pyval * string) :=
  match fuel with
  | O => None
  | S fuel' =>
      match s with
      | EmptyString => None
      | String c s' =>
          if Ascii.eqb c dquote then
            match scan_string s' with
            | Some (t, r) => Some (PStr t, r)
            | None => None
            end
          else if Ascii.eqb c "{" then
            match eat "}" (skip_ws s') with
            | Some r => Some (PDict [], r)
            | None =>
                match scan_members fuel' (skip_ws s') [] with
                | Some (d, r) => Some (PDict d, r)
                | None => None
                end
            end
          else if Ascii.eqb c "[" then
            match eat "]" (skip_ws s') with
            | Some r => Some (PList [], r)
            | None =>
                match scan_elements fuel' (skip_ws s') with
                | Some (l, r) => Some (PList l, r)
                | None => None
                end
            end
          else if startswith "null" s then Some (PNone, drop 4 s)
          else if startswith "true" s then Some (PBool true, drop 4 s)
          else if startswith "false" s then Some (PBool false, drop 5 s)
          else if startswith "NaN" s then Some (PFloat FNaN, drop 3 s)
          else if startswith "Infinity" s
               then Some (PFloat (FInf false), drop 8 s)
          else if startswith "-Infinity" s
               then Some (PFloat (FInf true), drop 9 s)
          else scan_number s
      end
  end

with scan_members (fuel : nat) (s : string) (acc : dict) {struct fuel}
  : option (dict * string) :=
  match fuel with
  | O => None
  | S fuel' =>
      match eat dquote s with
      | Some s1 =>
          match scan_string s1 with
          | Some (key, s2) =>
              match eat ":" (skip_ws s2) with
              | Some s3 =>
                  match scan_value fuel' (skip_ws s3) with
                  | Some (v, s4) =>
                      let acc' := dict_set key v acc in
                      match eat "}" (skip_ws s4), eat "," (skip_ws s4) with
                      | Some r, _ => Some (acc', r)
                      | None, Some s5 => scan_members fuel' (skip_ws s5) acc'
                      | None, None => None
                      end
                  | None => None
                  end
              | None => None
              end
          | None => None
          end
      | None => None
      end
  end

with scan_elements (fuel : nat) (s : string) {struct fuel}
  : option (list pyval * string) :=
  match fuel with
  | O => None
  | S fuel' =>
      match scan_value fuel' s with
      | Some (v, s1) =>
          match eat "]" (skip_ws s1), eat "," (skip_ws s1) with
          | Some r, _ => Some ([v], r)
          | None, Some s2 =>
              match scan_elements fuel' (skip_ws s2) with
              | Some (l, r) => Some (v :: l, r)
              | None => None
              end
          | None, None => None
          end
      | None => None
      end
  end.

(** [json.loads(s)]: white space, one value, white space, the end. *)
Definition loads (s : string) : M pyval :=
  match scan_value (2 * String.length s + 2) (skip_ws s) with
  | Some (v, r) =>
      match skip_ws r with
      | EmptyString => ret v
      | _ => raise JSONDecodeError
      end
  | None => raise JSONDecodeError
  end.

End Json.
Import Re.

(* ================================================================= *)
(** ** [robust_json_parser.py]: class [RobustJSONParser] *)

Module RobustJSONParser.

Definition ws : regex := Star (Cls isspace).
Definition not_quote : regex := Cls (fun c => negb (Ascii.eqb c dquote)).
Definition not_brace : regex :=
  Cls (fun c => negb (Ascii.eqb c "{" || Ascii.eqb c "}")).

Fixpoint cat (l : list regex) : regex :=
  match l with
  | [] => Eps
  | [r] => r
  | r :: l' => Seq r (cat l')
  end.

(** The keys of [self.chart_patterns]. *)
Record patterns : Type := {
  status_success : regex;
  chart_type : regex;
  data_array_start : regex;
  record_pattern : regex;
  date_field : regex;
  numeric_field : regex
}.

(** The attributes of an instance. *)
Record RobustJSONParser : Type := {
  chart_patterns : patterns;
  supported_chart_types : list string
}.

(** The pattern of a record ([record_pattern] in the source): an
    opening brace, characters other than braces, any number of inner
    brace pairs (holding no brace) each followed by characters other
    than braces, a closing brace; every repetition is greedy. *)
Definition balanced_braces : regex :=
  cat [Lit "{"; Star not_brace;
       Star (cat [Lit "{"; Star not_brace; Lit "}"; Star not_brace]);
       Lit "}"].

Definition __init__ : RobustJSONParser :=
  {| chart_patterns :=
       {| status_success :=
            cat [Str (js "'status'"); ws; Lit ":"; ws; Str (js "'success'")];
          chart_type :=
            cat [Str (js "'chart_type'"); ws; Lit ":"; ws; Lit dquote;
                 Grp 1 (Plus not_quote); Lit dquote];
          data_array_start :=
            cat [Str (js "'data'"); ws; Lit ":"; ws; Lit "["];
          record_pattern := balanced_braces;
          date_field :=
            cat [Str (js "'Date'"); ws; Lit ":"; ws; Lit dquote;
                 Grp 1 (Plus not_quote); Lit dquote];
          numeric_field :=
            cat [Lit dquote; Grp 1 (Plus (Cls isword)); Lit dquote; ws;
                 Lit ":"; ws;
                 Grp 2 (cat [Plus (Cls isdigit);
                             Opt (cat [Lit "."; Plus (Cls isdigit)])])] |};
     supported_chart_types := ["candlestick"; "scatter"; "line"; "bar"; "pie"]
  |}.

(** [after_data_pattern] of [_clean_truncated_response], in the
    source (with an apostrophe for the double quote)
    ["\]\s*,\s*('[\w':\s,]+)\s*\}?\s*$"]. *)
Definition after_data_pattern : regex :=
  cat [Lit "]"; ws; Lit ","; ws;
       Grp 1 (cat [Lit dquote;
                   Plus (Cls (fun c => isword c || Ascii.eqb c dquote
                                       || Ascii.eqb c ":" || isspace c
                                       || Ascii.eqb c ","))]);
       ws; Opt (Lit "}"); ws; Eos].

Definition loads_ok (record_text : string) : bool :=
  match Json.loads record_text with
  | inr _ => true
  | inl _ => false
  end.

(** [json.loads] raises nothing but [JSONDecodeError] on a [str], so
    the loop keeps exactly the matches that load. *)
Definition _clean_truncated_response (self : RobustJSONParser)
  (response_text : string) : string :=
  let cleaned_text := strip response_text in
  let data_start := find (js "'data': [") cleaned_text in
  if Z.eqb data_start (-1) then cleaned_text
  else
    let records_section := drop (Z.to_nat data_start) cleaned_text in
    let record_pattern := balanced_braces in
    let matches := finditer record_pattern records_section in
    let complete_records := filter loads_ok (map m_group0 matches) in
    match complete_records with
    | _ :: _ =>
        let before_data := take (Z.to_nat data_start) cleaned_text in
        let records_json := join ", " complete_records in
        let after_data_match := search after_data_pattern cleaned_text in
        let after_data :=
          match after_data_match with
          | Some m => ", " ++ group 1 m
          | None => ""
          end in
        before_data ++ js "'data': [" ++ records_json ++ "]"
          ++ after_data ++ "}"
    | [] => cleaned_text
    end.

Definition error_indicators : list string :=
  [js "'error':"; "TABLE_OR_VIEW_NOT_FOUND"; "SQLSTATE";
   "error"; "ERROR"; "Exception"; "Failed"; "cannot be found"].

Definition _is_error_response (self : RobustJSONParser)
  (response_text : string) : bool :=
  existsb (fun indicator => contains indicator response_text)
    error_indicators.

Definition msg_tcs : string :=
  "TCS stock data not found in database. Please check if the data exists for the requested time period.".
Definition msg_table : string :=
  "Requested stock data table not found in database.".
Definition msg_source : string :=
  "The requested data source cannot be found. Please verify the stock symbol and date range.".
Definition msg_default : string :=
  "An error occurred while processing the request.".
Definition msg_parser_failed : string := "Failed to parse error response".

(** The argument is whatever [parsed['error']] holds, or the response
    text. *)
Definition _clean_error_message (self : RobustJSONParser)
  (error_text : pyval) : M string :=
  has_table <- py_in "TABLE_OR_VIEW_NOT_FOUND" error_text ;;
  if has_table : bool then
    has_tcs <- py_in "TCS_stock" error_text ;;
    if has_tcs : bool then ret msg_tcs else ret msg_table
  else
    has_sqlstate <- py_in "SQLSTATE" error_text ;;
    before_sqlstate <-
      (if has_sqlstate : bool then
         parts <- py_split "SQLSTATE" error_text ;;
         match parts with
         | part0 :: _ =>
             let main_error := strip part0 in
             let main_error :=
               strip (replace "[TABLE_OR_VIEW_NOT_FOUND]" "" main_error) in
             if negb (String.eqb main_error "")
             then ret (Some main_error) else ret None
         | [] => ret None
         end
       else ret None) ;;
    match before_sqlstate with
    | Some main_error => ret main_error
    | None =>
        not_found <- py_in "cannot be found" error_text ;;
        if not_found : bool then ret msg_source
        else
          failed_to <- py_in "Failed to" error_text ;;
          first_line <-
            (if failed_to : bool then ret true
             else py_in "Error:" error_text) ;;
          if first_line : bool then
            lines <- py_split (String newline "") error_text ;;
            match lines with
            | line0 :: _ => ret line0
            | [] => raise IndexError
            end
          else
            clean_msg <- py_strip error_text ;;
            let clean_msg :=
              if Nat.ltb 200 (String.length clean_msg)
              then take 200 clean_msg ++ "..." else clean_msg in
            ret (if String.eqb clean_msg "" then msg_default else clean_msg)
    end.

Definition error_result (clean_msg error_type : string) : dict :=
  [("status", PStr "error"); ("error", PStr clean_msg);
   ("error_type", PStr error_type); ("chart_data", PNone)].

Definition _extract_error_message (self : RobustJSONParser)
  (response_text : string) : dict :=
  let body : M dict :=
    from_json <-
      (if startswith "{" (strip response_text) then
         catch
           (parsed <- Json.loads response_text ;;
            has_error <-
              (if isinstance_dict parsed then py_in "error" parsed
               else ret false) ;;
            if has_error : bool then
              error_msg <- getitem_str "error" parsed ;;
              clean_msg <- _clean_error_message self error_msg ;;
              ret (Some (error_result clean_msg "database"))
            else ret None)
           is_JSONDecodeError
           (ret None)
       else ret None) ;;
    match from_json with
    | Some result => ret result
    | None =>
        clean_msg <- _clean_error_message self (PStr response_text) ;;
        ret (error_result clean_msg "general")
    end in
  match body with
  | inr result => result
  | inl _ => error_result msg_parser_failed "parser"
  end.

Definition OHLC : list string := ["Open"; "High"; "Low"; "Close"].

Definition _detect_chart_type_from_data (self : RobustJSONParser)
  (data_records : pyval) : M string :=
  if negb (truthy data_records) then ret "line"
  else
    first_record <- getitem0 data_records ;;
    columns <- py_keys first_record ;;
    if forallb (fun col => mem col columns) OHLC then ret "candlestick"
    else
      numeric_cols <-
        (items <- py_items first_record ;;
         ret (filter
                (fun col =>
                   isinstance_int_float (dict_get_default col PNone items))
                columns)) ;;
      if Nat.leb 2 (List.length numeric_cols) then ret "scatter"
      else ret "line".

Definition _get_required_fields (self : RobustJSONParser)
  (chart_type : string) : list string :=
  if String.eqb chart_type "candlestick"
  then ["Date"; "Open"; "High"; "Low"; "Close"]
  else if String.eqb chart_type "scatter" then ["Date"]
  else if String.eqb chart_type "line" then ["Date"]
  else if String.eqb chart_type "bar" then []
  else if String.eqb chart_type "pie" then []
  else ["Date"].

Definition _validate_record (self : RobustJSONParser) (record : pyval)
  (chart_type : string) : bool :=
  match record with
  | PDict d =>
      let required_fields := _get_required_fields self chart_type in
      forallb (fun field => dict_has field d) required_fields
  | _ => false
  end.

(** [float(field_value)] on a text of digits with an optional
    fraction, the only texts group 2 of [numeric_field] matches. *)
Definition py_float (field_value : string) : M pyval :=
  match Json.span_digits field_value with
  | (EmptyString, _) => raise ValueError
  | (ds, EmptyString) =>
      ret (PFloat (float_of_decimal (Json.Z_of_digits ds) 0))
  | (ds, String "." fs) =>
      match Json.span_digits fs with
      | (String c fs', EmptyString) =>
          ret (PFloat (float_of_decimal
                         (Json.Z_of_digits (ds ++ String c fs'))
                         (- Z.of_nat (String.length (String c fs')))))
      | _ => raise ValueError
      end
  | _ => raise ValueError
  end.

(** The loop over the numeric matches: a field whose value [float]
    refuses is skipped. *)
Fixpoint set_numeric_fields (numeric_matches : list (string * string))
  (record : dict) : M dict :=
  match numeric_matches with
  | [] => ret record
  | (field_name, field_value) :: rest =>
      if negb (String.eqb field_name "Date") then
        record <-
          catch (v <- py_float field_value ;;
                 ret (dict_set field_name v record))
            is_ValueError
            (ret record) ;;
        set_numeric_fields rest record
      else set_numeric_fields rest record
  end.

Definition _extract_fields_manually (self : RobustJSONParser)
  (record_text : string) : option dict :=
  let body : M (option dict) :=
    let record : dict := [] in
    let date_match := search (date_field (chart_patterns self)) record_text in
    let record :=
      match date_match with
      | Some m => dict_set "Date" (PStr (group 1 m)) record
      | None => record
      end in
    let numeric_matches :=
      findall2 (numeric_field (chart_patterns self)) record_text in
    record <- set_numeric_fields numeric_matches record ;;
    ret (if Nat.ltb 1 (List.length record) then Some record else None) in
  match body with
  | inr r => r
  | inl _ => None
  end.

Definition _extract_chart_metadata (self : RobustJSONParser)
  (text : string) : option dict :=
  match search (status_success (chart_patterns self)) text with
  | None => None
  | Some _ =>
      match search (chart_type (chart_patterns self)) text with
      | None => None
      | Some chart_type_match =>
          let chart_type := group 1 chart_type_match in
          if negb (mem chart_type (supported_chart_types self)) then None
          else Some [("chart_type", PStr chart_type)]
      end
  end.

(** One round of the loop of [_extract_data_records]: the record a
    match contributes, if any. *)
Definition record_of_match (self : RobustJSONParser) (chart_type : string)
  (record_text : string) : option pyval :=
  match Json.loads record_text with
  | inr record =>
      if _validate_record self record chart_type then Some record else None
  | inl _ =>
      match _extract_fields_manually self record_text with
      | Some record =>
          if _validate_record self (PDict record) chart_type
          then Some (PDict record) else None
      | None => None
      end
  end.

Fixpoint collect {A B} (f : A -> option B) (l : list A) : list B :=
  match l with
  | [] => []
  | a :: l' =>
      match f a with
      | Some b => b :: collect f l'
      | None => collect f l'
      end
  end.

Definition _extract_data_records (self : RobustJSONParser) (text : string)
  (chart_type : string) : list pyval :=
  match search (data_array_start (chart_patterns self)) text with
  | None => []
  | Some data_start_match =>
      let data_section := m_rest data_start_match in
      let record_matches :=
        findall0 (record_pattern (chart_patterns self)) data_section in
      collect (record_of_match self chart_type) record_matches
  end.

Definition x_candidates : list string :=
  ["Date"; "date"; "time"; "Time"; "timestamp"; "Timestamp"].

Fixpoint first_candidate_in (candidates : list string) (v : pyval)
  : M (option string) :=
  match candidates with
  | [] => ret None
  | candidate :: rest =>
      found <- py_in candidate v ;;
      if found : bool then ret (Some candidate)
      else first_candidate_in rest v
  end.

Definition _detect_x_column (self : RobustJSONParser) (records : pyval)
  : M string :=
  if negb (truthy records) then ret "Date"
  else
    sample_record <- getitem0 records ;;
    hit <- first_candidate_in x_candidates sample_record ;;
    match hit with
    | Some candidate => ret candidate
    | None =>
        if truthy sample_record then
          keys <- py_keys sample_record ;;
          match keys with
          | k :: _ => ret k
          | [] => raise IndexError
          end
        else ret "Date"
    end.

Definition _detect_y_columns (self : RobustJSONParser) (records : pyval)
  (chart_type : pyval) : M (list string) :=
  if negb (truthy records) then ret []
  else
    sample_record <- getitem0 records ;;
    items <- py_items sample_record ;;
    let numeric_fields :=
      map fst
        (filter
           (fun '(k, v) =>
              isinstance_int_float v && negb (mem k ["Date"; "date"]))
           items) in
    if eq_str chart_type "candlestick" then ret OHLC
    else if eq_str chart_type "scatter" then
      ret (if Nat.leb 2 (List.length numeric_fields)
           then firstn 2 numeric_fields else numeric_fields)
    else if eq_str chart_type "line" || eq_str chart_type "bar" then
      ret (match numeric_fields with
           | _ :: _ => firstn 1 numeric_fields
           | [] => []
           end)
    else ret numeric_fields.

Definition parser_info : pyval :=
  PDict [("method", PStr "robust_parser_v2"); ("version", PStr "2.0");
         ("features",
          PStrs ["truncation_handling"; "auto_detection"; "data_cleaning"])].

Definition _enhance_chart_data (self : RobustJSONParser) (chart_data : dict)
  : M dict :=
  let enhanced_data := chart_data in
  let enhanced_data :=
    if negb (dict_has "status" enhanced_data)
    then dict_set "status" (PStr "success") enhanced_data
    else enhanced_data in
  let data := dict_get_default "data" PNone enhanced_data in
  enhanced_data <-
    (if negb (dict_has "chart_type" enhanced_data)
        && dict_has "data" enhanced_data then
       detected <- _detect_chart_type_from_data self data ;;
       ret (dict_set "chart_type" (PStr detected) enhanced_data)
     else ret enhanced_data) ;;
  enhanced_data <-
    (if dict_has "data" enhanced_data && truthy data then
       enhanced_data <-
         (if negb (dict_has "x" enhanced_data) then
            x <- _detect_x_column self data ;;
            ret (dict_set "x" (PStr x) enhanced_data)
          else ret enhanced_data) ;;
       if negb (dict_has "y" enhanced_data) then
         y <- _detect_y_columns self data
                (dict_get_default "chart_type" (PStr "line") enhanced_data) ;;
         ret (dict_set "y" (PStrs y) enhanced_data)
       else ret enhanced_data
     else ret enhanced_data) ;;
  enhanced_data <-
    (if dict_has "data" enhanced_data then
       data_count <- py_len data ;;
       ret (dict_set "data_complete" (PBool true)
              (dict_set "data_count" (PInt data_count) enhanced_data))
     else ret enhanced_data) ;;
  ret (dict_set "parser_info" parser_info enhanced_data).

(** Lines 188-196 of [parse_response]: the direct parse of the cleaned
    response.  [Some] is a value returned to the caller, [None] falls
    through to the pattern-based extraction. *)
Definition direct_parse (self : RobustJSONParser) (cleaned_response : string)
  : M (option dict) :=
  if startswith "{" (strip cleaned_response) then
    catch
      (parsed_json <- Json.loads cleaned_response ;;
       match parsed_json with
       | PDict d =>
           if eq_str (dict_get_default "status" PNone d) "success" then
             enhanced <- _enhance_chart_data self d ;;
             ret (Some enhanced)
           else ret None
       | _ => ret None
       end)
      is_JSONDecodeError
      (ret None)
  else ret None.

(** Lines 198-220 of [parse_response]: the pattern-based extraction. *)
Definition pattern_parse (self : RobustJSONParser) (response_text : string)
  : M (option dict) :=
  match _extract_chart_metadata self response_text with
  | None => ret None
  | Some chart_info =>
      chart_type <- getitem_str "chart_type" (PDict chart_info) ;;
      match chart_type with
      | PStr chart_type =>
          let data_records :=
            _extract_data_records self response_text chart_type in
          match data_records with
          | [] => ret None
          | _ :: _ =>
              default_x <- _detect_x_column self (PList data_records) ;;
              default_y <- _detect_y_columns self (PList data_records)
                             (PStr chart_type) ;;
              ret (Some
                     [("status", PStr "success");
                      ("chart_type", PStr chart_type);
                      ("data", PList data_records);
                      ("x", dict_get_default "x_column" (PStr default_x)
                              chart_info);
                      ("y", dict_get_default "y_columns" (PStrs default_y)
                              chart_info)])
          end
      | _ => raise TypeError
      end
  end.

(** [parse_response]: [None] is Python's [None]. *)
Definition parse_response (self : RobustJSONParser) (response_text : string)
  : option dict :=
  let body : M (option dict) :=
    if _is_error_response self response_text then
      ret (Some (_extract_error_message self response_text))
    else
      let cleaned_response := _clean_truncated_response self response_text in
      direct <- direct_parse self cleaned_response ;;
      match direct with
      | Some enhanced => ret (Some enhanced)
      | None => pattern_parse self response_text
      end in
  match body with
  | inr result => result
  | inl _ => None
  end.

(** [get_parsing_stats]: [parsed_data] is [None] or a dict; [chart] is
    that dict where the source tests [if parsed_data]. *)
Definition get_parsing_stats (self : RobustJSONParser)
  (original_response : string) (parsed_data : option dict) : M dict :=
  let chart :=
    match parsed_data with
    | Some d => if truthy (PDict d) then Some d else None
    | None => None
    end in
  records_extracted <-
    match chart with
    | Some d => py_len (dict_get_default "data" (PList []) d)
    | None => ret 0%Z
    end ;;
  let stats : dict :=
    [("original_length", PInt (Z.of_nat (String.length original_response)));
     ("parsing_successful",
      PBool match parsed_data with Some _ => true | None => false end);
     ("records_extracted", PInt records_extracted);
     ("chart_type",
      match chart with
      | Some d => dict_get_default "chart_type" (PStr "unknown") d
      | None => PStr "unknown"
      end);
     ("truncated_response",
      PBool (negb (endswith "}" (strip original_response))))] in
  match chart with
  | Some d =>
      data <- getitem_str "data" (PDict d) ;;
      data_columns <-
        (if truthy data then
           first_record <- getitem0 data ;;
           py_keys first_record
         else ret []) ;;
      let stats := dict_set "data_columns" (PStrs data_columns) stats in
      let stats :=
        dict_set "x_column" (dict_get_default "x" (PStr "unknown") d) stats in
      ret (dict_set "y_columns" (dict_get_default "y" (PList []) d) stats)
  | None => ret stats
  end.

(** The fields of an API answer that may hold the response text. *)
Definition text_fields : list string :=
  ["response"; "message"; "content"; "data"; "result"].

(** The loop over [text_fields]: the first field that holds a [str]. *)
Fixpoint first_text_field (fields : list string) (api_response : dict)
  : option string :=
  match fields with
  | [] => None
  | field :: rest =>
      match dict_get field api_response with
      | Some (PStr response_text) => Some response_text
      | _ => first_text_field rest api_response
      end
  end.

(** [extract_chart_data_robust], the function
    [enhance_main_app_with_robust_parsing] returns. *)
Definition extract_chart_data_robust (api_response : pyval) : option dict :=
  let body : M (option dict) :=
    let well_formed :=
      match api_response with
      | PDict d =>
          dict_has "status" d
          && eq_str (dict_get_default "status" PNone d) "success"
          && dict_has "data" d
          && truthy (dict_get_default "data" PNone d)
      | _ => false
      end in
    if well_formed then ret (Some [("json_generator_data", api_response)])
    else
      let parser := __init__ in
      let response_text :=
        match api_response with
        | PStr s => Some s
        | PDict d => first_text_field text_fields d
        | _ => None
        end in
      match response_text with
      | None | Some EmptyString => ret None
      | Some response_text =>
          match parse_response parser response_text with
          | Some parsed_data =>
              if truthy (PDict parsed_data) then
                stats <- get_parsing_stats parser response_text
                           (Some parsed_data) ;;
                ret (Some [("json_generator_data", PDict parsed_data)])
              else ret None
          | None => ret None
          end
      end in
  match body with
  | inr result => result
  | inl _ => None
  end.

End RobustJSONParser.

(* ================================================================= *)
(** ** [chart_utils.py]: [ChartGenerator._process_chart_data] *)

Module ChartGenerator.

(** [json.loads(v)]: [TypeError] unless [v] is a [str]. *)
Definition py_json_loads (v : pyval) : M pyval :=
  match v with
  | PStr s => Json.loads s
  | _ => raise TypeError
  end.

Definition candlestick_cols : list string := ["Open"; "High"; "Low"; "Close"].

(** Lines 165-179: [data], [x_col], [y_col] as the input gives them.
    The log line of the first branch evaluates [len(data)]. *)
Definition read_chart_data (chart_data : pyval)
  : M (pyval * pyval * pyval) :=
  let nothing := (PNone, PStr "", PStr "") in
  match chart_data with
  | PDict d =>
      if dict_has "data" d && truthy (dict_get_default "data" PNone d) then
        let data := dict_get_default "data" PNone d in
        let x_col := dict_get_default "x" (PStr "") d in
        let y_col := dict_get_default "y" (PStr "") d in
        logged_len <- py_len data ;;
        ret (data, x_col, y_col)
      else if dict_has "response" d then
        catch
          (parsed <- py_json_loads (dict_get_default "response" PNone d) ;;
           has_data <- py_in "data" parsed ;;
           if has_data : bool then
             data <- getitem_str "data" parsed ;;
             x_col <- py_get "x" (PStr "") parsed ;;
             y_col <- py_get "y" (PStr "") parsed ;;
             ret (data, x_col, y_col)
           else ret nothing)
          is_JSONDecodeError
          (ret nothing)
      else ret nothing
  | _ => ret nothing
  end.

(** Lines 194-222: the columns of the first record, the candlestick
    check, the defaults.  [None] is the [return None] of the check. *)
Definition resolve_columns (data x_col y_col : pyval)
  : M (option (pyval * pyval)) :=
  data0 <- getitem0 data ;;
  columns <-
    (if truthy data0 && isinstance_dict data0 then py_keys data0
     else ret []) ;;
  let is_candlestick :=
    match y_col with
    | PList l => Nat.leb 4 (List.length l)
    | _ => false
    end in
  let missing_cols :=
    filter (fun col => negb (mem col columns)) candlestick_cols in
  match is_candlestick, missing_cols with
  | true, _ :: _ => ret None
  | _, _ =>
      let y_col := if is_candlestick then PStr "Close" else y_col in
      let x_col :=
        match columns with
        | c0 :: _ => if negb (truthy x_col) then PStr c0 else x_col
        | [] => x_col
        end in
      let y_col :=
        if negb (truthy y_col) && Nat.ltb 1 (List.length columns)
        then PStr (nth 1 columns "")
        else
          match columns with
          | c0 :: _ => if negb (truthy y_col) then PStr c0 else y_col
          | [] => y_col
          end in
      ret (Some (x_col, y_col))
  end.

Definition _process_chart_data (chart_data : pyval) : option dict :=
  let body : M (option dict) :=
    '(data, x_col, y_col) <- read_chart_data chart_data ;;
    if negb (truthy data) then ret None
    else if negb (isinstance_list data) then ret None
    else
      resolved <- resolve_columns data x_col y_col ;;
      match resolved with
      | None => ret None
      | Some (x_col, y_col) =>
          if negb (truthy x_col) || negb (truthy y_col) then ret None
          else
            data0 <- getitem0 data ;;
            columns <-
              (if isinstance_dict data0 then py_keys data0 else ret []) ;;
            ret (Some [("data", data); ("x_col", x_col); ("y_col", y_col);
                       ("columns", PStrs columns)])
      end in
  match body with
  | inr result => result
  | inl _ => None
  end.

End ChartGenerator.

(* ================================================================= *)
(** ** [chart_utils.py]: the other methods of the chart class (named
       [ChartBuilder] in the source) and the two functions of the
       module *)

Module ChartBuilder.

Import ChartGenerator.

(** [CHART_CONFIG["supported_types"]] of [config.py]. *)
Definition supported_types : list string :=
  ["bar"; "pie"; "line"; "scatter"; "candlestick"].

(** [_format_column_name]; the callers pass whatever the chart holds as
    its x and y.  The answer is [None] when a word starts with a
    character whose title case lies beyond the alphabet. *)
Definition _format_column_name (col_name : pyval) : M (option string) :=
  if negb (truthy col_name) then ret (Some "Value")
  else
    formatted <- py_replace "_" " " col_name ;;
    let formatted := replace "-" " " formatted in
    let formatted := replace "id" "ID" formatted in
    let formatted := replace "Id" "ID" formatted in
    let formatted := replace "url" "URL" formatted in
    let formatted := replace "api" "API" formatted in
    let formatted := replace "sql" "SQL" formatted in
    ret (option_map (join " ") (capitalize_all (split_ws formatted))).

(** An f-string of two formatted names. *)
Definition fmt2 (f : string -> string -> string) (a b : option string)
  : option string :=
  match a, b with
  | Some a, Some b => Some (f a b)
  | _, _ => None
  end.

Definition _generate_chart_title (processed_data : dict) (chart_type : string)
  : option string :=
  let body : M (option string) :=
    let x_col := dict_get_default "x_col" (PStr "X") processed_data in
    let y_col := dict_get_default "y_col" (PStr "Y") processed_data in
    x_display <- _format_column_name x_col ;;
    y_display <- _format_column_name y_col ;;
    ret (if String.eqb chart_type "bar"
         then fmt2 (fun y x => y ++ " by " ++ x) y_display x_display
         else if String.eqb chart_type "pie"
         then option_map (fun y => "Distribution of " ++ y) y_display
         else if String.eqb chart_type "line"
         then fmt2 (fun y x => y ++ " over " ++ x) y_display x_display
         else if String.eqb chart_type "scatter"
         then fmt2 (fun y x => y ++ " vs " ++ x) y_display x_display
         else if String.eqb chart_type "candlestick"
         then Some "OHLC Price Chart"
         else fmt2 (fun y x => y ++ " by " ++ x) y_display x_display) in
  match body with
  | inr title => title
  | inl _ => Some "Chart"
  end.

(** What [pandas] and [plotly] contribute: the data frame of the
    records, and for each chart type the figure built from the frame,
    the columns, the formatted names and the title.  Each may raise. *)
Record Plotting : Type := {
  DataFrame : Type;
  Figure : Type;
  pd_DataFrame : pyval -> M DataFrame;
  bar_figure :
    DataFrame -> pyval -> pyval -> option string -> option string ->
    option string -> M Figure;
  line_figure :
    DataFrame -> pyval -> pyval -> option string -> option string ->
    option string -> M Figure;
  scatter_figure :
    DataFrame -> pyval -> pyval -> option string -> option string ->
    option string -> M Figure;
  pie_figure : DataFrame -> pyval -> pyval -> option string -> M Figure;
  candlestick_figure :
    DataFrame -> pyval -> option string -> option string -> M Figure
}.

(** The common shape of [_create_bar_chart], [_create_line_chart] and
    [_create_scatter_chart]. *)
Definition labelled_chart (lib : Plotting)
  (figure : DataFrame lib -> pyval -> pyval -> option string ->
            option string -> option string -> M (Figure lib))
  (processed_data : dict) (title : option string) : M (Figure lib) :=
  data <- getitem_str "data" (PDict processed_data) ;;
  df <- pd_DataFrame lib data ;;
  x_col <- getitem_str "x_col" (PDict processed_data) ;;
  y_col <- getitem_str "y_col" (PDict processed_data) ;;
  x_label <- _format_column_name x_col ;;
  y_label <- _format_column_name y_col ;;
  figure df x_col y_col x_label y_label title.

Definition _create_bar_chart (lib : Plotting) :=
  labelled_chart lib (bar_figure lib).
Definition _create_line_chart (lib : Plotting) :=
  labelled_chart lib (line_figure lib).
Definition _create_scatter_chart (lib : Plotting) :=
  labelled_chart lib (scatter_figure lib).

Definition _create_pie_chart (lib : Plotting) (processed_data : dict)
  (title : option string) : M (Figure lib) :=
  data <- getitem_str "data" (PDict processed_data) ;;
  df <- pd_DataFrame lib data ;;
  x_col <- getitem_str "x_col" (PDict processed_data) ;;
  y_col <- getitem_str "y_col" (PDict processed_data) ;;
  pie_figure lib df x_col y_col title.

Definition _create_candlestick_chart (lib : Plotting) (processed_data : dict)
  (title : option string) : M (Figure lib) :=
  data <- getitem_str "data" (PDict processed_data) ;;
  df <- pd_DataFrame lib data ;;
  let date_col := dict_get_default "x_col" (PStr "Date") processed_data in
  date_label <- _format_column_name date_col ;;
  candlestick_figure lib df date_col date_label title.

(** [create_chart]: [None] is Python's [None]. *)
Definition create_chart (lib : Plotting) (chart_data chart_type : pyval)
  (title : string) : option (Figure lib) :=
  let body : M (option (Figure lib)) :=
    chart_type <- py_lower chart_type ;;
    let chart_type := strip chart_type in
    let chart_type :=
      if contains "scatter" chart_type then "scatter"
      else if contains "bar" chart_type then "bar"
      else if contains "pie" chart_type then "pie"
      else if contains "line" chart_type then "line"
      else if contains "candlestick" chart_type then "candlestick"
      else chart_type in
    if negb (mem chart_type supported_types) then ret None
    else
      match _process_chart_data chart_data with
      | None => ret None
      | Some processed_data =>
          if negb (truthy (PDict processed_data)) then ret None
          else
            let title :=
              if String.eqb title ""
              then _generate_chart_title processed_data chart_type
              else Some title in
            if String.eqb chart_type "bar" then
              fig <- _create_bar_chart lib processed_data title ;;
              ret (Some fig)
            else if String.eqb chart_type "pie" then
              fig <- _create_pie_chart lib processed_data title ;;
              ret (Some fig)
            else if String.eqb chart_type "line" then
              fig <- _create_line_chart lib processed_data title ;;
              ret (Some fig)
            else if String.eqb chart_type "scatter" then
              fig <- _create_scatter_chart lib processed_data title ;;
              ret (Some fig)
            else if String.eqb chart_type "candlestick" then
              fig <- _create_candlestick_chart lib processed_data title ;;
              ret (Some fig)
            else ret None
      end in
  match body with
  | inr result => result
  | inl _ => None
  end.

(** [validate_chart_data]; the recursive call is on [data["data"]]. *)
Fixpoint validate_chart_data (data : pyval) : bool :=
  if negb (truthy data) then false
  else
    match data with
    | PList (PDict first_record :: _) =>
        Nat.leb 2 (List.length first_record)
    | PDict d =>
        (fix lookup (d : list (string * pyval)) : bool :=
           match d with
           | [] => false
           | (k, v) :: d' =>
               if String.eqb "data" k then validate_chart_data v
               else lookup d'
           end) d
    | _ => false
    end.

End ChartBuilder.

(* ================================================================= *)
(** ** [config.py] and [api_client.py]: the query router *)

Module BlueverseAPIClient.

Definition QUERY_KEYWORDS : list (string * list string) :=
  [("dashboard",
    ["dashboard"; "live dashboard"; "create dashboard"; "build dashboard";
     "dashboard with"; "interactive dashboard"; "real-time dashboard"]);
   ("chart",
    ["chart"; "plot"; "graph"; "visualize"; "visualization"; "bar chart";
     "line chart"; "pie chart"; "scatter plot"; "histogram"; "heatmap";
     "candlestick"; "stacked bar"; "create chart"; "show chart";
     "generate chart"; "plot data"; "visualize data"]);
   ("table",
    ["table"; "raw data"; "show data"; "view data"; "display data";
     "data table"; "show table"; "preview data"; "sample data";
     "first rows"; "head"; "limit"; "select"; "query"; "sql"; "dataframe";
     "dataset"])].

(** [QUERY_KEYWORDS[key]] for the three keys of the table. *)
Fixpoint keywords_in (table : list (string * list string)) (key : string)
  : list string :=
  match table with
  | [] => []
  | (k, l) :: table' => if String.eqb k key then l else keywords_in table' key
  end.

Definition keywords (key : string) : list string :=
  keywords_in QUERY_KEYWORDS key.

(** A [for keyword in ...: if keyword in query_lower: return ...]
    loop: the keyword that makes it return, if any. *)
Fixpoint first_keyword (l : list string) (query_lower : string)
  : option string :=
  match l with
  | [] => None
  | keyword :: l' =>
      if contains keyword query_lower then Some keyword
      else first_keyword l' query_lower
  end.

Definition _classify_query (query : string) : string :=
  let query_lower := lower query in
  match first_keyword (keywords "dashboard") query_lower with
  | Some _ => "dashboard"
  | None =>
      match first_keyword (keywords "chart") query_lower with
      | Some _ => "json_generator"
      | None =>
          match first_keyword (keywords "table") query_lower with
          | Some _ => "json_generator"
          | None => "main"
          end
      end
  end.

(** *** The classification as the specification words it *)

Inductive intent : Type := Dashboard | ChartTable | General.

(** The intent the router's answer stands for: [send_query] sends
    ["dashboard"] to the dashboard flow, ["json_generator"] to the
    chart and table flow, anything else to the main flow. *)
Definition intent_of (api_type : string) : intent :=
  if String.eqb api_type "json_generator" then ChartTable
  else if String.eqb api_type "dashboard" then Dashboard
  else General.

(** Case-insensitive substring search. *)
Definition matches_ci (keyword query : string) : bool :=
  contains (lower keyword) (lower query).

Definition any_match (l : list string) (query : string) : bool :=
  existsb (fun keyword => matches_ci keyword query) l.

(** The ordered lists, each with the intent it stands for. *)
Definition ordered_lists : list (list string * intent) :=
  [(keywords "dashboard", Dashboard);
   (keywords "chart", ChartTable);
   (keywords "table", ChartTable)].

(** The first list with any matching keyword wins; no match is
    [General]. *)
Fixpoint first_matching_list (lists : list (list string * intent))
  (query : string) : intent :=
  match lists with
  | [] => General
  | (l, i) :: lists' =>
      if any_match l query then i else first_matching_list lists' query
  end.

Definition reference_classify (query : string) : intent :=
  first_matching_list ordered_lists query.

End BlueverseAPIClient.

(* ================================================================= *)
(** ** [api_client.py]: the other methods of [BlueverseAPIClient]

    The network and the dashboard manager are parameters.  What they
    raise is kept with its text ([str(e)]), apart for what
    [requests.exceptions.RequestException] covers and what it does
    not. *)

Module APIClient.

Import BlueverseAPIClient.

(** [API_CONFIG] of [config.py]. *)
Module Config.

Record space : Type := { space_name : string; flow_id : string }.

Definition base_url : string :=
  "https://blueverse-foundry.ltimindtree.com/chatservice/chat".
Definition timeout : Z := 60.
Definition main_api : space :=
  {| space_name := "Genieverse_9b5befb3";
     flow_id := "68ac66333c336dbd12b96e10" |}.
Definition json_generator : space :=
  {| space_name := "Json_Generator_975a2dc0";
     flow_id := "68ae94113d219c7a19e1446d" |}.

End Config.

(** The attributes of an instance. *)
Record BlueverseAPIClient : Type := {
  api_token : string;
  headers : dict;
  base_url : string;
  timeout : Z
}.

Definition __init__ (api_token : string) : BlueverseAPIClient :=
  {| api_token := api_token;
     headers := [("Content-Type", PStr "application/json");
                 ("Authorization", PStr ("Bearer " ++ api_token))];
     base_url := Config.base_url;
     timeout := Config.timeout |}.

(** An exception of the network or of the dashboard manager. *)
Inductive failure : Type :=
| RequestException (message : string)
| OtherException (message : string).

Definition message_of (e : failure) : string :=
  match e with
  | RequestException message | OtherException message => message
  end.

(** What [requests.post] answers: the status code, the body as text,
    and the body as [response.json()] reads it. *)
Record Response : Type := {
  status_code : Z;
  text : string;
  json : failure + pyval
}.

(** What [DashboardManager.create_dashboard_from_query] answers, on
    each of its paths: [{"success": True, "data": ...}] or
    [{"success": False, "error": ...}]. *)
Inductive dashboard_answer : Type :=
| Created (data : pyval)
| NotCreated (error : string).

(** [str(n)] for an [int]. *)
Definition str_int (n : Z) : string := NilZero.string_of_int (Z.to_int n).

Definition possible_fields : list string :=
  ["response"; "message"; "content"; "data"; "result"].

(** The loop of [_process_json_generator_response]: the first field
    that holds the text of a JSON object with a status. *)
Fixpoint embedded_json (fields : list string) (result : pyval)
  : M (option pyval) :=
  match fields with
  | [] => ret None
  | field :: rest =>
      has_field <- py_in field result ;;
      field_text <-
        (if has_field : bool then
           v <- getitem_str field result ;;
           ret (match v with PStr s => Some s | _ => None end)
         else ret None) ;;
      hit <-
        match field_text with
        | Some s =>
            catch
              (parsed_json <- Json.loads s ;;
               has_status <-
                 (if isinstance_dict parsed_json
                  then py_in "status" parsed_json else ret false) ;;
               ret (if has_status : bool then Some parsed_json else None))
              is_JSONDecodeError
              (ret None)
        | None => ret None
        end ;;
      match hit with
      | Some parsed_json => ret (Some parsed_json)
      | None => embedded_json rest result
      end
  end.

Definition _process_json_generator_response (result : pyval) : pyval :=
  let body : M pyval :=
    is_chart <-
      (if isinstance_dict result then
         has_status <- py_in "status" result ;;
         if has_status : bool then py_in "chart_type" result else ret false
       else ret false) ;;
    if is_chart : bool then ret result
    else
      embedded <- embedded_json possible_fields result ;;
      match embedded with
      | Some parsed_json => ret parsed_json
      | None => ret result
      end in
  match body with
  | inr processed => processed
  | inl _ => result
  end.

(** The services the client calls: [requests.post] with the URL, the
    headers, the JSON payload and the timeout, and the dashboard
    manager. *)
Record Services : Type := {
  requests_post : string -> dict -> dict -> Z -> failure + Response;
  create_dashboard_from_query : string -> failure + dashboard_answer
}.

Definition failed (error : string) : dict :=
  [("success", PBool false); ("error", PStr error)].

Definition succeeded (data : pyval) (api_used : string) : dict :=
  [("success", PBool true); ("data", data); ("api_used", PStr api_used)].

Definition payload (query : string) (api : Config.space) : dict :=
  [("query", PStr query);
   ("space_name", PStr (Config.space_name api));
   ("flowId", PStr (Config.flow_id api))].

(** The common shape of [_send_to_main_api] and
    [_send_to_json_generator]: the request, the status code, the body.
    A [RequestException] is answered here; anything else is left to
    [send_query]. *)
Definition send_to (net : Services) (self : BlueverseAPIClient)
  (api : Config.space)
  (name api_used : string) (process : pyval -> pyval) (query : string)
  : failure + dict :=
  let attempt : failure + dict :=
    match requests_post net (base_url self) (headers self) (payload query api)
            (timeout self) with
    | inl e => inl e
    | inr response =>
        if Z.eqb (status_code response) 200 then
          match json response with
          | inl e => inl e
          | inr result => inr (succeeded (process result) api_used)
          end
        else
          inr (failed (name ++ " Error " ++ str_int (status_code response)
                         ++ ": " ++ text response))
    end in
  match attempt with
  | inl (RequestException message) =>
      inr (failed (name ++ " Connection Error: " ++ message))
  | other => other
  end.

Definition _send_to_main_api (net : Services) (self : BlueverseAPIClient)
  (query : string) : failure + dict :=
  send_to net self Config.main_api "Main API" "main" (fun result => result) query.

Definition _send_to_json_generator (net : Services)
  (self : BlueverseAPIClient) (query : string) : failure + dict :=
  send_to net self Config.json_generator "JSON Generator API" "json_generator"
    _process_json_generator_response query.

Definition _create_live_dashboard (net : Services)
  (self : BlueverseAPIClient) (query : string) : dict :=
  match create_dashboard_from_query net query with
  | inr (Created data) => succeeded data "dashboard"
  | inr (NotCreated error) => failed error
  | inl e => failed ("Dashboard creation error: " ++ message_of e)
  end.

Definition send_query (net : Services) (self : BlueverseAPIClient)
  (query : string) : dict :=
  let body : failure + dict :=
    let api_type := _classify_query query in
    if String.eqb api_type "json_generator"
    then _send_to_json_generator net self query
    else if String.eqb api_type "dashboard"
    then inr (_create_live_dashboard net self query)
    else _send_to_main_api net self query in
  match body with
  | inr result => result
  | inl e => failed ("Query processing error: " ++ message_of e)
  end.

End APIClient.

(* ================================================================= *)
(** ** [response_processor.py]: how [ResponseProcessor.process_response]
       tells the kinds of answers apart *)

Module ResponseProcessor.

Definition _is_dashboard_response (response : pyval) : M bool :=
  has_url <- py_in "dashboard_url" response ;;
  if has_url : bool then ret true else py_in "dashboard_path" response.

Definition _is_chart_response (response : pyval) : M bool :=
  has_status <- py_in "status" response ;;
  if has_status : bool then
    api_used <- py_get "api_used" PNone response ;;
    ret (eq_str api_used "json_generator")
  else ret false.

(** [v is False] *)
Definition is_False (v : pyval) : bool :=
  match v with PBool false => true | _ => false end.

Definition _is_error_response (response : pyval) : M bool :=
  success <- py_get "success" PNone response ;;
  if is_False success then ret true
  else
    has_error <- py_in "error" response ;;
    if has_error : bool then ret true
    else
      status <- py_get "status" PNone response ;;
      ret (eq_str status "error").

End ResponseProcessor.

(* ================================================================= *)
(** ** [utils.py]: [clean_filename] and [validate_dashboard_config] *)

Module Utils.

(** [re.sub(r, repl, s)] for a pattern that matches no empty text and a
    replacement that names no group: the text between the matches, with
    [repl] in the place of each match. *)
Fixpoint sub_matches (repl s : string) (matches : list match_obj) : string :=
  match matches with
  | [] => s
  | m :: rest =>
      take (m_start m) s ++ repl ++ sub_matches repl (m_rest m) rest
  end.

Definition re_sub (r : regex) (repl s : string) : string :=
  sub_matches repl s (finditer r s).

(** The characters the first pattern of [clean_filename] removes: the
    two angle brackets, the colon, the double quote, the slash, the
    backslash, the bar, the question mark and the star. *)
Definition invalid_char (c : ascii) : bool :=
  (Ascii.eqb c "<" || Ascii.eqb c ">" || Ascii.eqb c ":" || Ascii.eqb c dquote
   || Ascii.eqb c "/" || Ascii.eqb c "\" || Ascii.eqb c "|" || Ascii.eqb c "?"
   || Ascii.eqb c "*")%bool.

Definition clean_filename (text : string) : string :=
  let cleaned := re_sub (Cls invalid_char) "" text in
  let cleaned := re_sub (Plus (Cls isspace)) "_" cleaned in
  lower cleaned.

(** The loop over the fields a dict has to hold: whether one is
    missing. *)
Fixpoint missing_field (fields : list string) (v : pyval) : M bool :=
  match fields with
  | [] => ret false
  | field :: rest =>
      has_field <- py_in field v ;;
      if has_field : bool then missing_field rest v else ret true
  end.

(** The loop over the charts: whether one is not a dict or misses a
    field. *)
Fixpoint invalid_chart (charts : list pyval) : M bool :=
  match charts with
  | [] => ret false
  | chart :: rest =>
      if negb (isinstance_dict chart) then ret true
      else
        missing <- missing_field ["type"; "title"; "query"] chart ;;
        if missing : bool then ret true else invalid_chart rest
  end.

Definition validate_dashboard_config (config : pyval) : M bool :=
  missing <- missing_field ["title"; "charts"] config ;;
  if missing : bool then ret false
  else
    charts <- getitem_str "charts" config ;;
    match charts with
    | PList [] => ret false
    | PList charts =>
        invalid <- invalid_chart charts ;;
        ret (negb invalid)
    | _ => ret false
    end.

End Utils.

(* ================================================================= *)
(** ** The subset of [re] the patterns of the dashboard manager use:
       alternation, greedy and lazy repetition, one group *)

Module ReAlt.

Inductive regex : Type :=
| Eps
| Lit (c : ascii)
| Cls (f : ascii -> bool)
| Seq (a b : regex)
| Alt (a b : regex)
| Star (r : regex)
| LazyStar (r : regex)
| Grp (r : regex)
| Eos.

Definition Plus (r : regex) : regex := Seq r (Star r).
Definition LazyPlus (r : regex) : regex := Seq r (LazyStar r).
Definition Opt (r : regex) : regex := Alt r Eps.

Fixpoint Str (s : string) : regex :=
  match s with
  | EmptyString => Eps
  | String c s' => Seq (Lit c) (Str s')
  end.

Fixpoint cat (l : list regex) : regex :=
  match l with
  | [] => Eps
  | [r] => r
  | r :: l' => Seq r (cat l')
  end.

(** [a|b|c]; the empty alternation is not used. *)
Fixpoint Alts (l : list regex) : regex :=
  match l with
  | [] => Eps
  | [r] => r
  | r :: l' => Alt r (Alts l')
  end.

(** The dot: any character but the newline. *)
Definition dot : regex := Cls (fun c => negb (Ascii.eqb c newline)).

(** The text of group 1, once it has matched. *)
Definition groups := option string.

(** The rounds of a greedy repetition: one more round first. *)
Fixpoint star_loop {R : Type}
  (body : string -> groups -> (string -> groups -> option R) -> option R)
  (n : nat) (s : string) (g : groups) (k : string -> groups -> option R)
  {struct n} : option R :=
  match n with
  | O => k s g
  | S n' =>
      match body s g
              (fun s1 g1 =>
                 if Nat.ltb (String.length s1) (String.length s)
                 then star_loop body n' s1 g1 k else None) with
      | Some x => Some x
      | None => k s g
      end
  end.

(** The rounds of a lazy repetition: the rest of the match first, one
    more round when it fails. *)
Fixpoint lazy_loop {R : Type}
  (body : string -> groups -> (string -> groups -> option R) -> option R)
  (n : nat) (s : string) (g : groups) (k : string -> groups -> option R)
  {struct n} : option R :=
  match n with
  | O => k s g
  | S n' =>
      match k s g with
      | Some x => Some x
      | None =>
          body s g
            (fun s1 g1 =>
               if Nat.ltb (String.length s1) (String.length s)
               then lazy_loop body n' s1 g1 k else None)
      end
  end.

(** [run r s g k]: match [r] at the head of [s], then continue with
    [k] on what is left; the alternatives are tried in the order of
    [re]. *)
Fixpoint run {R : Type} (r : regex) (s : string) (g : groups)
  (k : string -> groups -> option R) {struct r} : option R :=
  match r with
  | Eps => k s g
  | Lit c =>
      match s with
      | String a s' => if Ascii.eqb a c then k s' g else None
      | EmptyString => None
      end
  | Cls f =>
      match s with
      | String a s' => if f a then k s' g else None
      | EmptyString => None
      end
  | Seq a b => run a s g (fun s1 g1 => run b s1 g1 k)
  | Alt a b =>
      match run a s g k with
      | Some x => Some x
      | None => run b s g k
      end
  | Star a => star_loop (run a) (S (String.length s)) s g k
  | LazyStar a => lazy_loop (run a) (S (String.length s)) s g k
  | Grp a =>
      run a s g
        (fun s1 _ =>
           k s1 (Some (take (String.length s - String.length s1) s)))
  | Eos =>
      match s with
      | EmptyString => k s g
      | String c EmptyString => if Ascii.eqb c newline then k s g else None
      | _ => None
      end
  end.

(** A match: where it starts, the text after it, the text of group 1. *)
Record match_obj : Type := {
  m_start : nat;
  m_rest : string;
  m_group1 : option string
}.

Fixpoint search_from (r : regex) (s : string) (i : nat) : option match_obj :=
  match run r s None (fun s' g => Some (s', g)) with
  | Some (s', g) => Some {| m_start := i; m_rest := s'; m_group1 := g |}
  | None =>
      match s with
      | EmptyString => None
      | String _ s' => search_from r s' (S i)
      end
  end.

(** [re.search(r, s)] *)
Definition search (r : regex) (s : string) : option match_obj :=
  search_from r s 0.

(** Whether the pattern has a group: whether [m.groups()] is not
    empty. *)
Fixpoint has_groups (r : regex) : bool :=
  match r with
  | Eps | Lit _ | Cls _ | Eos => false
  | Seq a b | Alt a b => has_groups a || has_groups b
  | Star a | LazyStar a => has_groups a
  | Grp _ => true
  end.

(** [re.split(r, s)] for a pattern without group that matches no empty
    text: the texts between the matches. *)
Fixpoint split_fuel (n : nat) (r : regex) (s : string) : list string :=
  match n with
  | O => [s]
  | S n' =>
      match search r s with
      | None => [s]
      | Some m => take (m_start m) s :: split_fuel n' r (m_rest m)
      end
  end.

Definition split (r : regex) (s : string) : list string :=
  split_fuel (S (String.length s)) r s.

(** [re.sub('^' + r, repl, s)] for a pattern that matches no empty
    text: the only match there can be is at the start of [s]. *)
Definition sub_at_start (r : regex) (repl s : string) : string :=
  match run r s None (fun s' _ => Some s') with
  | Some rest => repl ++ rest
  | None => s
  end.

End ReAlt.

(* ================================================================= *)
(** ** [dashboard_manager.py]: [_parse_dashboard_query] *)

Module DashboardManager.

Import ReAlt.

Definition ws0 : regex := Star (Cls isspace).
Definition ws1 : regex := Plus (Cls isspace).

(** [(?:for|of|showing|with)] *)
Definition preposition : regex :=
  Alts [Str "for"; Str "of"; Str "showing"; Str "with"].

(** [(?:create|make|generate|build)] *)
Definition creation_verb : regex :=
  Alts [Str "create"; Str "make"; Str "generate"; Str "build"].

(** The three patterns that every chart type has: the description is
    what follows the preposition, what follows the name of the chart,
    what follows the preposition of a request. *)
Definition described_after_preposition (name : string) : regex :=
  cat [Str name; LazyPlus dot; preposition; ws1; Grp (LazyPlus dot);
       ws0; Eos].

Definition described_after_name (name : string) : regex :=
  cat [Str name; LazyPlus dot; Grp (LazyPlus dot); ws0; Eos].

Definition described_in_request (name : string) : regex :=
  cat [creation_verb; ws1; Opt (Seq (Lit "a") ws1); Str name; LazyPlus dot;
       preposition; ws1; Grp (LazyPlus dot); ws0; Eos].

(** [customers?] and [categories?] *)
Definition customers : regex := Seq (Str "customer") (Opt (Lit "s")).
Definition categories : regex := Seq (Str "categorie") (Opt (Lit "s")).

Definition chart_patterns : list (string * list regex) :=
  [("bar",
    [described_after_preposition "bar chart";
     described_after_name "bar chart";
     described_in_request "bar chart";
     cat [Str "top"; ws1; Star (Cls isdigit); ws0; customers; ws1; Str "by";
          ws1; Str "spend"];
     cat [customers; ws1; Str "by"; ws1; Opt (Seq (Str "total") ws1);
          Str "spend"]]);
   ("pie",
    [described_after_preposition "pie chart";
     described_after_name "pie chart";
     described_in_request "pie chart";
     cat [Str "product"; ws1; categories;
          Opt (cat [ws1; Str "pie"; ws1; Str "chart"])];
     cat [categories; ws1;
          Alt (cat [Str "pie"; ws1; Str "chart"]) (Str "distribution")]]);
   ("line",
    [described_after_preposition "line chart";
     described_after_name "line chart";
     described_in_request "line chart"])].

(** The separators of the requests of a query: a full stop, an
    exclamation or a question mark with the white space and the "and"
    that follow, or an "and" between white space. *)
Definition separator : regex :=
  Alt (cat [Cls (fun c => (Ascii.eqb c "." || Ascii.eqb c "!"
                           || Ascii.eqb c "?")%bool);
            ws0; Opt (Seq (Str "and") ws1)])
      (cat [ws1; Str "and"; ws1]).

(** The loop over the patterns of a chart type: the first that
    matches, with its match. *)
Fixpoint first_match (patterns : list regex) (sentence : string)
  : option (regex * match_obj) :=
  match patterns with
  | [] => None
  | pattern :: rest =>
      match search pattern sentence with
      | Some m => Some (pattern, m)
      | None => first_match rest sentence
      end
  end.

(** The description of a match, cleaned. *)
Definition describe (chart_type sentence : string) (pattern : regex)
  (m : match_obj) : M string :=
  description <-
    (if has_groups pattern then
       match m_group1 m with
       | Some text => ret (strip text)
       | None => raise AttributeError
       end
     else if String.eqb chart_type "bar"
             && (contains "customer" sentence && contains "spend" sentence)
     then ret "top 10 customers by spend"
     else if String.eqb chart_type "pie"
             && (contains "product" sentence && contains "categor" sentence)
     then ret "product categories"
     else ret (strip (replace chart_type "" (replace "chart" "" sentence)))) ;;
  let description := sub_at_start (Seq (Grp preposition) ws1) "" description in
  ret (strip description).

(** [any(c["description"] == description and c["type"] == chart_type
    for c in charts)] *)
Fixpoint is_duplicate (charts : list pyval) (description chart_type : string)
  : M bool :=
  match charts with
  | [] => ret false
  | c :: rest =>
      c_description <- getitem_str "description" c ;;
      same <-
        (if eq_str c_description description then
           c_type <- getitem_str "type" c ;;
           ret (eq_str c_type chart_type)
         else ret false) ;;
      if same : bool then ret true else is_duplicate rest description chart_type
  end.

(** What a description adds to the charts; [None] when the title of
    the chart lies beyond the alphabet. *)
Definition add_chart (charts : list pyval) (chart_type description : string)
  : M (option (list pyval)) :=
  if String.eqb description "" then ret (Some charts)
  else
    match title chart_type, title description with
    | Some type_title, Some description_title =>
        let chart_title := type_title ++ " Chart: " ++ description_title in
        let chart_query :=
          "Create a " ++ chart_type ++ " chart for " ++ description in
        duplicate <- is_duplicate charts description chart_type ;;
        if duplicate : bool then ret (Some charts)
        else
          ret (Some (charts ++ [PDict [("type", PStr chart_type);
                                       ("title", PStr chart_title);
                                       ("description", PStr description);
                                       ("query", PStr chart_query)]])%list)
    | _, _ => ret None
    end.

(** The loop over the chart types, for one sentence. *)
Fixpoint scan_chart_types (types : list (string * list regex))
  (sentence : string) (charts : list pyval) : M (option (list pyval)) :=
  match types with
  | [] => ret (Some charts)
  | (chart_type, patterns) :: rest =>
      charts' <-
        match first_match patterns sentence with
        | Some (pattern, m) =>
            description <- describe chart_type sentence pattern m ;;
            add_chart charts chart_type description
        | None => ret (Some charts)
        end ;;
      match charts' with
      | Some charts' => scan_chart_types rest sentence charts'
      | None => ret None
      end
  end.

(** The loop over the sentences. *)
Fixpoint scan_sentences (sentences : list string) (charts : list pyval)
  : M (option (list pyval)) :=
  match sentences with
  | [] => ret (Some charts)
  | sentence :: rest =>
      let sentence := strip sentence in
      if (String.eqb sentence "" || Nat.ltb (String.length sentence) 5)%bool
      then scan_sentences rest charts
      else
        charts' <- scan_chart_types chart_patterns sentence charts ;;
        match charts' with
        | Some charts' => scan_sentences rest charts'
        | None => ret None
        end
  end.

Definition customers_chart : pyval :=
  PDict [("type", PStr "bar");
         ("title", PStr "Bar Chart: Top Customers By Spend");
         ("description", PStr "top 10 customers by spend");
         ("query", PStr "Create a bar chart for top 10 customers by spend")].

Definition categories_chart : pyval :=
  PDict [("type", PStr "pie");
         ("title", PStr "Pie Chart: Product Categories");
         ("description", PStr "product categories");
         ("query", PStr "Create a pie chart for product categories")].

(** The charts added when the sentences gave none. *)
Definition fallback (query_lower : string) : list pyval :=
  ((if contains "customer" query_lower && contains "spend" query_lower
    then [customers_chart] else [])
   ++ (if (contains "categories" query_lower || contains "category" query_lower)
          && contains "product" query_lower
       then [categories_chart] else []))%list.

(** [_parse_dashboard_query]: it may raise, its titles may lie beyond
    the alphabet (the outer [None]), and it may answer Python's [None]
    (the inner one). *)
Definition _parse_dashboard_query (query : string)
  : M (option (option dict)) :=
  let query_lower := lower query in
  let sentences := split separator query_lower in
  charts <- scan_sentences sentences [] ;;
  match charts with
  | None => ret None
  | Some charts =>
      let charts :=
        match charts with
        | [] => fallback query_lower
        | _ => charts
        end in
      match charts with
      | [] => ret (Some None)
      | _ => ret (Some (Some [("title", PStr "Live Dashboard");
                              ("charts", PList charts)]))
      end
  end.

End DashboardManager.

(* ================================================================= *)
(** ** [main_app.py]: [extract_chart_data], whose answer [ask_api]
       hands to [create_chart] *)

Module MainApp.

Definition chart_fields : list string :=
  ["response"; "message"; "content"; "data"; "result"].

(** [target[k] = v]: the target as it is after the assignment. *)
Definition py_setitem (k : string) (v : pyval) (target : pyval) : M pyval :=
  match target with
  | PDict d => ret (PDict (dict_set k v d))
  | _ => raise TypeError
  end.

(** The [try] block of the two loops, on the text of a field: [Some]
    is returned to the caller, [None] goes on with the next field.
    The first chart is updated in place, so the list of all charts
    holds it as updated. *)
Definition chart_of_text (text : string) : M (option dict) :=
  catch
    (parsed_json <- Json.loads text ;;
     match parsed_json with
     | PDict p =>
         if dict_has "charts" p
            && isinstance_list (dict_get_default "charts" PNone p)
         then
           match dict_get_default "charts" PNone p with
           | PList (first_chart :: others) =>
               first_chart <- py_setitem "status" (PStr "success") first_chart ;;
               ret (Some [("json_generator_data", first_chart);
                          ("multiple_charts", PList (first_chart :: others))])
           | _ => ret None
           end
         else if dict_has "status" p
                 && eq_str (dict_get_default "status" PNone p) "success"
         then
           if dict_has "data" p
           then ret (Some [("json_generator_data", parsed_json)])
           else ret None
         else ret None
     | _ => ret None
     end)
    is_JSONDecodeError
    (ret None).

(** The loop over the fields of a nested dict. *)
Fixpoint scan_nested (fields : list string) (nested : dict)
  : M (option dict) :=
  match fields with
  | [] => ret None
  | nested_field :: rest =>
      match dict_get nested_field nested with
      | Some (PStr text) =>
          hit <- chart_of_text text ;;
          match hit with
          | Some chart_data => ret (Some chart_data)
          | None => scan_nested rest nested
          end
      | _ => scan_nested rest nested
      end
  end.

(** The loop over the fields of the response. *)
Fixpoint scan_fields (fields : list string) (api_response : dict)
  : M (option dict) :=
  match fields with
  | [] => ret None
  | field :: rest =>
      match dict_get field api_response with
      | Some (PStr text) =>
          hit <- chart_of_text text ;;
          match hit with
          | Some chart_data => ret (Some chart_data)
          | None => scan_fields rest api_response
          end
      | Some (PDict nested) =>
          hit <- scan_nested chart_fields nested ;;
          match hit with
          | Some chart_data => ret (Some chart_data)
          | None => scan_fields rest api_response
          end
      | _ => scan_fields rest api_response
      end
  end.

Definition extract_chart_data (api_response : pyval) : option dict :=
  let body : M (option dict) :=
    match api_response with
    | PDict d =>
        if (dict_has "status" d
            && eq_str (dict_get_default "status" PNone d) "success")
           && (dict_has "data" d && truthy (dict_get_default "data" PNone d))
        then ret (Some [("json_generator_data", api_response)])
        else scan_fields chart_fields d
    | _ => ret None
    end in
  match body with
  | inr chart_data => chart_data
  | inl _ => None
  end.

End MainApp.

(* ================================================================= *)
(** * The vocabulary of the statements *)

Import RobustJSONParser.
Import BlueverseAPIClient.
Import ChartGenerator.

(** The one parser the application builds. *)
Definition parser : RobustJSONParser.RobustJSONParser := __init__.

(** Lookups in a result. *)
Definition status_of (result : dict) : option pyval := dict_get "status" result.
Definition error_of (result : dict) : option pyval := dict_get "error" result.

(** A message that does not show the SQL state. *)
Definition sqlstate_free (msg : string) : Prop := contains "SQLSTATE" msg = false.

(** The branches of [_clean_error_message] on a text, in the order of
    the source.  [before_sqlstate] is [parts[0].strip()], the text
    before the first "SQLSTATE". *)
Definition before_sqlstate (error_text : string) : string :=
  strip (before "SQLSTATE" error_text).

(** The text has no table marker, it holds "SQLSTATE", and something
    other than white space stands before it: [main_error] is
    returned. *)
Definition returns_main_error (error_text : string) : bool :=
  negb (contains "TABLE_OR_VIEW_NOT_FOUND" error_text)
  && contains "SQLSTATE" error_text
  && negb (String.eqb (before_sqlstate error_text) "").

(** The text has no table marker, it holds "SQLSTATE", and nothing but
    white space stands before it: [if main_error] is not taken, and the
    text goes on to the later branches as it is. *)
Definition sqlstate_leads (error_text : string) : bool :=
  negb (contains "TABLE_OR_VIEW_NOT_FOUND" error_text)
  && contains "SQLSTATE" error_text
  && String.eqb (before_sqlstate error_text) "".

(** None of the branches above nor "cannot be found" answered, and the
    text holds "Failed to" or "Error:": its first line is returned. *)
Definition returns_first_line (error_text : string) : bool :=
  negb (contains "TABLE_OR_VIEW_NOT_FOUND" error_text)
  && negb (returns_main_error error_text)
  && negb (contains "cannot be found" error_text)
  && (contains "Failed to" error_text || contains "Error:" error_text).

(** [error_text.split('\n')[0]] *)
Definition first_line (error_text : string) : string :=
  before (String newline "") error_text.

(** The direct parse did not answer: it fell through or it raised. *)
Definition direct_parse_silent (self : RobustJSONParser.RobustJSONParser)
  (s : string) : Prop :=
  forall r, direct_parse self (_clean_truncated_response self s) <> inr (Some r).

(** The record candidates of a text: the matches of the record pattern
    after the start of the data array, up to the end of the text. *)
Definition record_candidates (self : RobustJSONParser.RobustJSONParser)
  (s : string) : list string :=
  match search (data_array_start (chart_patterns self)) s with
  | Some data_start_match =>
      findall0 (record_pattern (chart_patterns self)) (m_rest data_start_match)
  | None => []
  end.

(** The columns the column resolution looks at: the keys of the first
    record. *)
Definition first_record_columns (r0 : pyval) : list string :=
  match r0 with
  | PDict d0 => dict_keys d0
  | _ => []
  end.

(** The x column after the defaults: the declared one when it is
    truthy, else the first column. *)
Definition resolved_x (x_col : pyval) (columns : list string) : pyval :=
  match columns with
  | c0 :: _ => if truthy x_col then x_col else PStr c0
  | [] => x_col
  end.

(** Whether a loop over a list returned from inside. *)
Definition found {A} (o : option A) : bool :=
  match o with Some _ => true | None => false end.

(** A text that is empty or starts with something else than white
    space. *)
Definition no_leading_space (s : string) : Prop :=
  match s with
  | EmptyString => True
  | String c _ => isspace c = false
  end.

Fixpoint repeat_string (s : string) (n : nat) : string :=
  match n with
  | O => ""
  | S n' => s ++ repeat_string s n'
  end.

(* ----------------------------------------------------------------- *)
(** ** Sample responses *)

(** The response of the specification, cut after its third record, and
    its three records. *)
Definition truncated_scatter : string :=
  js "{'status':'success','chart_type':'scatter','data':[{'Open':551.0,'Close':545.45,'Date':'2016-05-31'},{'Open':547.2,'Close':550.15,'Date':'2016-05-30'},{'Open':543.15,'Close':545.4,'Date':'2016-05-27'}".

Definition scatter_records : list pyval :=
  [PDict [("Open", PFloat (FDec 5510 (-1)));
          ("Close", PFloat (FDec 54545 (-2)));
          ("Date", PStr "2016-05-31")];
   PDict [("Open", PFloat (FDec 5472 (-1)));
          ("Close", PFloat (FDec 55015 (-2)));
          ("Date", PStr "2016-05-30")];
   PDict [("Open", PFloat (FDec 54315 (-2)));
          ("Close", PFloat (FDec 5454 (-1)));
          ("Date", PStr "2016-05-27")]].

(** A well-formed scatter chart. *)
Definition complete_scatter : string :=
  js "{'status':'success','chart_type':'scatter','data':[{'Open':551.0,'Close':545.45,'Date':'2016-05-31'}],'x':'Open','y':'Close'}".

(** A well-formed success payload whose data mention the word "Failed". *)
Definition failed_logins_chart : string :=
  js "{'status':'success','chart_type':'bar','data':[{'name':'Failed logins','n':3}],'x':'name','y':'n'}".

(** A table error that also carries a data array. *)
Definition table_error_with_data : string :=
  js "{'error': '[TABLE_OR_VIEW_NOT_FOUND] The table or view `TCS_stock` cannot be found. SQLSTATE: 42P02', 'data': [{'Date': '2016-05-31', 'Close': 545.45}]}".

(** A response whose top-level error is a bare SQL state and whose
    cause holds the table marker. *)
Definition nested_table_error : string :=
  js "{'error': 'SQLSTATE: 42P02', 'cause': {'error': '[TABLE_OR_VIEW_NOT_FOUND] The table is missing. SQLSTATE: 42P02'}}".

(** A failure report of 314 characters on one line; a report with 298
    characters before its SQL state; and a report that names the failing
    statement before the SQL state. *)
Definition long_failure : string :=
  "Failed to load the price history: " ++ repeat_string "retrying; " 28.

Definition long_sqlstate_report : string :=
  "Query failed after " ++ repeat_string "retrying; " 28 ++ "SQLSTATE: 57014".

Definition sqlstate_report : string :=
  "  Query timed out after 60 seconds. SQLSTATE: 57014  ".

(** A heat map, cut after its first record; and the same heat map,
    complete. *)
Definition truncated_heatmap : string :=
  js "{'status':'success','chart_type':'heatmap','data':[{'day':'Mon','hour':9,'visits':3}".

Definition complete_heatmap : string :=
  js "{'status':'success','chart_type':'heatmap','data':[{'day':'Mon','hour':9,'visits':3}],'x':'day','y':'visits'}".

(** A line chart whose two records are both broken. *)
Definition broken_records : string :=
  js "{'status':'success','chart_type':'line','data':[{'Date': 2016, 'Close': }, {'Open' 551.0}]".

(** A bar chart whose only record is broken, followed by totals; and a
    bar chart with no record at all. *)
Definition broken_record_then_totals : string :=
  js "{'status':'success','chart_type':'bar','data': [{'label': }], 'totals': {'visits': 12, 'hours': 3}}".

Definition chart_without_records : string :=
  js "{'status':'success','chart_type':'bar','data':[]}".

(** A success object without data; and a bar chart, cut after its
    second record, whose records do not have the same columns. *)
Definition success_without_data : string :=
  js "{'status':'success','chart_type':'line'}".

Definition truncated_mixed_bars : string :=
  js "{'status':'success','chart_type':'bar','data':[{'region':'North','sales':10},{'area':'South','total':7}".

(** Two candlestick records, the second without the Low column, and a
    candlestick request on given records. *)
Definition ohlc_record : pyval :=
  PDict [("Date", PStr "2016-05-31"); ("Open", PInt 551); ("High", PInt 553);
         ("Low", PInt 544); ("Close", PInt 545)].

Definition record_without_low : pyval :=
  PDict [("Date", PStr "2016-05-30"); ("Open", PInt 547); ("High", PInt 552);
         ("Close", PInt 550)].

Definition candlestick_request (records : list pyval) : dict :=
  [("data", PList records); ("x", PStr "Date"); ("y", PStrs candlestick_cols)].

(** A chart with an empty x and no y. *)
Definition sales_by_region : dict :=
  [("status", PStr "success"); ("chart_type", PStr "bar"); ("x", PStr "");
   ("data", PList [PDict [("region", PStr "North"); ("sales", PInt 10)];
                   PDict [("region", PStr "South"); ("sales", PInt 7)]])].

(* ----------------------------------------------------------------- *)
(** ** The vocabulary of the statements on the rest of the code *)

(** What the enhancement leaves as it found it: every field but the
    three it writes itself. *)
Definition keeps_fields (d e : dict) : Prop :=
  forall k v,
    dict_get k d = Some v ->
    ~ In k ["data_count"; "data_complete"; "parser_info"] ->
    dict_get k e = Some v.

(** A float that is not negative: a decimal, or the infinity a long
    numeral rounds to. *)
Definition nonnegative_float (v : pyval) : Prop :=
  (exists m e, v = PFloat (FDec m e) /\ (0 <= m)%Z)
  \/ v = PFloat (FInf false).

(** A field of a record recovered without [json.loads]: the date as
    text, or a number that is not negative. *)
Definition manual_field (k : string) (v : pyval) : Prop :=
  (k = "Date" /\ exists s, v = PStr s)
  \/ (k <> "Date" /\ nonnegative_float v).

(** The names [create_chart] looks for in a chart type, in the order it
    looks for them, and the first one a chart type holds once it is
    lowered and stripped. *)
Definition chart_families : list string :=
  ["scatter"; "bar"; "pie"; "line"; "candlestick"].

Definition chart_family (chart_type : string) : option string :=
  List.find (fun name => contains name (strip (lower chart_type)))
    chart_families.

(** Data fit for a chart: a list whose first element is a dict of two
    fields or more, or a dict that holds such data under ["data"]. *)
Inductive chartable : pyval -> Prop :=
| chartable_records (first_record : dict) (rest : list pyval) :
    2 <= List.length first_record ->
    chartable (PList (PDict first_record :: rest))
| chartable_wrapped (d : dict) (v : pyval) :
    dict_get "data" d = Some v -> chartable v -> chartable (PDict d).

(** A chart of a dashboard configuration. *)
Definition valid_chart (chart : pyval) : Prop :=
  exists c, chart = PDict c
            /\ dict_has "type" c = true
            /\ dict_has "title" c = true
            /\ dict_has "query" c = true.

(** Texts, character by character: without the characters of a class;
    with each run of the class replaced; whether every character
    passes a test; without the run of the class at the head. *)
Fixpoint remove_chars (f : ascii -> bool) (s : string) : string :=
  match s with
  | EmptyString => EmptyString
  | String c s' =>
      if f c then remove_chars f s' else String c (remove_chars f s')
  end.

Fixpoint squeeze (f : ascii -> bool) (repl s : string) : string :=
  match s with
  | EmptyString => EmptyString
  | String c s' =>
      if f c then
        match s' with
        | String c' _ =>
            if f c' then squeeze f repl s' else repl ++ squeeze f repl s'
        | EmptyString => repl
        end
      else String c (squeeze f repl s')
  end.

Fixpoint all_chars (p : ascii -> bool) (s : string) : bool :=
  match s with
  | EmptyString => true
  | String c s' => p c && all_chars p s'
  end.

Fixpoint drop_while (f : ascii -> bool) (s : string) : string :=
  match s with
  | String c s' => if f c then drop_while f s' else s
  | EmptyString => EmptyString
  end.

(** A character a cleaned file name may hold. *)
Definition clean_char (c : ascii) : bool :=
  negb (Utils.invalid_char c) && negb (isspace c).

(** Whether every match of a pattern of the dashboard manager sets the
    group. *)
Fixpoint sets_group (r : ReAlt.regex) : bool :=
  match r with
  | ReAlt.Grp _ => true
  | ReAlt.Seq a b => sets_group a || sets_group b
  | ReAlt.Alt a b => sets_group a && sets_group b
  | _ => false
  end.

(** The least number of characters a match of such a pattern takes. *)
Fixpoint min_length (r : ReAlt.regex) : nat :=
  match r with
  | ReAlt.Eps | ReAlt.Eos | ReAlt.Star _ | ReAlt.LazyStar _ => 0
  | ReAlt.Lit _ | ReAlt.Cls _ => 1
  | ReAlt.Seq a b => min_length a + min_length b
  | ReAlt.Alt a b => Nat.min (min_length a) (min_length b)
  | ReAlt.Grp a => min_length a
  end.

(** Chart types with patterns in which a group, if there is one, is set
    by every match. *)
Definition chart_types : list string := ["bar"; "pie"; "line"].

Definition known_patterns (types : list (string * list ReAlt.regex)) : Prop :=
  Forall (fun tp => In (fst tp) chart_types
                    /\ Forall (fun p => ReAlt.has_groups p = sets_group p)
                         (snd tp))
    types.

(** A chart of the dashboard manager, for its type and description. *)
Definition dashboard_chart (key : string * string) (chart : pyval) : Prop :=
  exists chart_title,
    chart = PDict [("type", PStr (fst key)); ("title", PStr chart_title);
                   ("description", PStr (snd key));
                   ("query", PStr ("Create a " ++ fst key ++ " chart for "
                                   ++ snd key))].

(** The charts of a dashboard, with the type and the description of
    each: no two charts have both in common, the types are the three
    the manager knows and no description is empty. *)
Definition dashboard_charts (keys : list (string * string))
  (charts : list pyval) : Prop :=
  Forall2 dashboard_chart keys charts
  /\ NoDup keys
  /\ Forall (fun key => In (fst key) chart_types /\ snd key <> "") keys.

Definition same_key (description chart_type : string) (key : string * string)
  : bool :=
  String.eqb (snd key) description && String.eqb (fst key) chart_type.

(** What the application extracts from an answer: a chart with the
    status "success" under [json_generator_data], alone or with the
    list of all charts, which starts with that chart. *)
Definition extracted_chart (chart_data : dict) : Prop :=
  exists chart,
    dict_get "status" chart = Some (PStr "success")
    /\ (chart_data = [("json_generator_data", PDict chart)]
        \/ exists others,
             chart_data
             = [("json_generator_data", PDict chart);
                ("multiple_charts", PList (PDict chart :: others))]).

(* ----------------------------------------------------------------- *)
(** ** More sample values *)

(** A plotting library that draws whatever it is given: frames and
    figures are the data and the column they come from. *)
Definition plain_plotting : ChartBuilder.Plotting :=
  {| ChartBuilder.DataFrame := pyval;
     ChartBuilder.Figure := pyval * pyval;
     ChartBuilder.pd_DataFrame := fun data => ret data;
     ChartBuilder.bar_figure := fun df x_col y_col _ _ _ => ret (df, y_col);
     ChartBuilder.line_figure := fun df x_col y_col _ _ _ => ret (df, y_col);
     ChartBuilder.scatter_figure := fun df x_col y_col _ _ _ => ret (df, y_col);
     ChartBuilder.pie_figure := fun df x_col y_col _ => ret (df, y_col);
     ChartBuilder.candlestick_figure := fun df date_col _ _ => ret (df, date_col)
  |}.

(** A record that does not load: its last value is missing. *)
Definition record_without_close : string :=
  js "{'Date': '2016-05-31', 'Open': 551.0, 'Close': }".

(** A candlestick chart, cut in its second record. *)
Definition truncated_candlestick : string :=
  js "{'status':'success','chart_type':'candlestick','data':[{'Date':'2016-05-31','Open':551,'High':553,'Low':544,'Close':545},{'Date':'2016-05-30','Open':547".

(** A chart that declares its y column and a stale count. *)
Definition sales_chart : dict :=
  [("status", PStr "success");
   ("data", PList [PDict [("region", PStr "North"); ("sales", PInt 10)]]);
   ("y", PStr "sales"); ("data_count", PInt 99)].

(** A bar chart that names its columns. *)
Definition sales_chart_xy : dict :=
  [("data", PList [PDict [("region", PStr "North"); ("sales", PInt 10)]]);
   ("x", PStr "region"); ("y", PStr "sales")].

(** A bar chart with its y column in a list. *)
Definition sales_chart_list_y : dict :=
  [("data", PList [PDict [("region", PStr "North"); ("sales", PInt 10)]]);
   ("x", PStr "region"); ("y", PStrs ["sales"])].


(** Two worlds for the client: one where no request gets through, one
    where every request is answered; the dashboard manager is the same
    in both. *)
Definition offline_services : APIClient.Services :=
  {| APIClient.requests_post :=
       fun _ _ _ _ => inl (APIClient.RequestException "unreachable");
     APIClient.create_dashboard_from_query :=
       fun _ => inr (APIClient.NotCreated "No charts specified") |}.

Definition online_services : APIClient.Services :=
  {| APIClient.requests_post :=
       fun _ _ _ _ =>
         inr {| APIClient.status_code := 200;
                APIClient.text := "{}";
                APIClient.json := inr (PDict []) |};
     APIClient.create_dashboard_from_query :=
       fun _ => inr (APIClient.NotCreated "No charts specified") |}.

(** A request for a dashboard of two charts. *)
Definition two_chart_query : string :=
  "Create a dashboard with a bar chart of sales by region and a pie chart for product categories".

(** A bar chart that leaves its columns to be found. *)
Definition undeclared_columns_chart : dict :=
  [("status", PStr "success"); ("chart_type", PStr "bar");
   ("data", PList [PDict [("region", PStr "North"); ("sales", PInt 10)]])].

(** The text of a dashboard of two charts. *)
Definition dashboard_text : string :=
  js "{'charts': [{'chart_type': 'bar', 'data': [{'a': 1, 'b': 2}]}, {'chart_type': 'pie'}]}".

(* ================================================================= *)
(** * Properties *)

(** Case analysis on the computations a goal branches on, innermost
    first. *)
Ltac py_atomic x :=
  lazymatch x with
  | context [match _ with inl _ => _ | inr _ => _ end] => fail
  | context [match _ with Some _ => _ | None => _ end] => fail
  | context [if _ then _ else _] => fail
  | _ => idtac
  end.

Ltac py_cases :=
  repeat match goal with
    | |- context [match ?x with inl _ => _ | inr _ => _ end] =>
        py_atomic x; destruct x
    | |- context [match ?x with Some _ => _ | None => _ end] =>
        py_atomic x; destruct x
    | |- context [if ?c then _ else _] => py_atomic c; destruct c
    end.

(* ----------------------------------------------------------------- *)
(** ** Facts on Python strings *)

Section StringFacts.

Lemma append_empty_r (s : string) : s ++ "" = s.
Proof. induction s as [| c s IH]; cbn; [reflexivity | now rewrite IH]. Qed.

Lemma append_assoc (a b c : string) : (a ++ b) ++ c = a ++ b ++ c.
Proof. induction a as [| x a IH]; cbn; [reflexivity | now rewrite IH]. Qed.

Lemma length_append (a b : string) :
  String.length (a ++ b) = String.length a + String.length b.
Proof. induction a as [| x a IH]; cbn; [reflexivity | now rewrite IH]. Qed.

Lemma length_take (n : nat) (s : string) : String.length (take n s) <= n.
Proof.
  revert s. induction n as [| n IH]; intros [| c s]; cbn; try lia.
  specialize (IH s). lia.
Qed.

Lemma startswith_app (p r : string) : startswith p (p ++ r) = true.
Proof.
  induction p as [| c p IH]; cbn; [reflexivity |].
  now rewrite Ascii.eqb_refl, IH.
Qed.

Lemma startswith_inv (p s : string) :
  startswith p s = true -> exists r, s = p ++ r.
Proof.
  revert s. induction p as [| c p IH]; intros s H.
  - exists s. reflexivity.
  - destruct s as [| b s]; cbn in H; [discriminate |].
    apply andb_true_iff in H. destruct H as [Hc Hp].
    apply Ascii.eqb_eq in Hc. subst b.
    destruct (IH s Hp) as [r ->]. exists r. reflexivity.
Qed.

(** A prefix of a longer text is still a prefix when the text grows. *)
Lemma startswith_grow (p x y : string) :
  startswith p x = true -> startswith p (x ++ y) = true.
Proof.
  intros H. destruct (startswith_inv p x H) as [r ->].
  rewrite append_assoc. apply startswith_app.
Qed.

Lemma contains_intro (t a b : string) : contains t (a ++ t ++ b) = true.
Proof.
  induction a as [| c a IH]; cbn [append].
  - destruct (t ++ b) eqn:E; cbn [contains];
      rewrite <- E, startswith_app; reflexivity.
  - cbn [contains]. rewrite IH. destruct (startswith t _); reflexivity.
Qed.

Lemma contains_inv (t s : string) :
  contains t s = true -> exists a b, s = a ++ t ++ b.
Proof.
  induction s as [| c s IH]; cbn [contains]; intros H.
  - destruct (startswith t "") eqn:E; [| discriminate].
    destruct (startswith_inv _ _ E) as [r Hr]. exists "", r. exact Hr.
  - destruct (startswith t (String c s)) eqn:E.
    + destruct (startswith_inv _ _ E) as [r Hr]. exists "", r. exact Hr.
    + destruct (IH H) as (a & b & ->). exists (String c a), b. reflexivity.
Qed.

(** What occurs in a part of a text occurs in the text. *)
Lemma contains_infix (t u a b : string) :
  contains t u = true -> contains t (a ++ u ++ b) = true.
Proof.
  intros H. destruct (contains_inv t u H) as (a' & b' & ->).
  replace (a ++ (a' ++ t ++ b') ++ b) with ((a ++ a') ++ t ++ (b' ++ b))
    by (now rewrite !append_assoc).
  apply contains_intro.
Qed.

Lemma contains_trans (t u s : string) :
  contains t u = true -> contains u s = true -> contains t s = true.
Proof.
  intros Htu Hus. destruct (contains_inv u s Hus) as (a & b & ->).
  now apply contains_infix.
Qed.

Lemma not_contains_infix (t u a b : string) :
  contains t (a ++ u ++ b) = false -> contains t u = false.
Proof.
  intros H. destruct (contains t u) eqn:E; [| reflexivity].
  rewrite (contains_infix t u a b E) in H. discriminate.
Qed.

(** *** [strip] *)

Lemma lstrip_suffix (s : string) : exists a, s = a ++ lstrip s.
Proof.
  induction s as [| c s [a IH]]; cbn [lstrip].
  - exists "". reflexivity.
  - destruct (isspace c).
    + exists (String c a). cbn. now rewrite <- IH.
    + exists "". reflexivity.
Qed.

Lemma rstrip_prefix (s : string) : exists b, s = rstrip s ++ b.
Proof.
  induction s as [| c s [b IH]]; cbn [rstrip].
  - exists "". reflexivity.
  - destruct (rstrip s) as [| x r] eqn:E.
    + destruct (isspace c).
      * exists (String c s). reflexivity.
      * exists s. reflexivity.
    + exists b. cbn [append]. f_equal. exact IH.
Qed.

Lemma strip_infix (s : string) : exists a b, s = a ++ strip s ++ b.
Proof.
  unfold strip. destruct (lstrip_suffix s) as [a Ha].
  destruct (rstrip_prefix (lstrip s)) as [b Hb].
  exists a, b. now rewrite <- Hb.
Qed.

Lemma not_contains_strip (t s : string) :
  contains t s = false -> contains t (strip s) = false.
Proof.
  intros H. destruct (strip_infix s) as (a & b & E).
  rewrite E in H. exact (not_contains_infix _ _ _ _ H).
Qed.

Lemma lstrip_no_leading_space (s : string) : no_leading_space (lstrip s).
Proof.
  induction s as [| c s IH]; cbn [lstrip]; [exact I |].
  destruct (isspace c) eqn:E; [exact IH | exact E].
Qed.

Lemma lstrip_fixed (s : string) : no_leading_space s -> lstrip s = s.
Proof.
  destruct s as [| c s]; cbn; [reflexivity |]. now intros ->.
Qed.

Lemma rstrip_no_leading_space (s : string) :
  no_leading_space s -> no_leading_space (rstrip s).
Proof.
  destruct s as [| c s]; cbn [rstrip no_leading_space]; [trivial |].
  intros H. destruct (rstrip s); [rewrite H |]; exact H.
Qed.

Lemma rstrip_idempotent (s : string) : rstrip (rstrip s) = rstrip s.
Proof.
  induction s as [| c s IH]; cbn [rstrip]; [reflexivity |].
  destruct (rstrip s) as [| x r] eqn:E.
  - destruct (isspace c) eqn:Hc; cbn [rstrip]; [reflexivity |].
    now rewrite Hc.
  - cbn [rstrip]. cbn [rstrip] in IH. now rewrite IH.
Qed.

Lemma strip_idempotent (s : string) : strip (strip s) = strip s.
Proof.
  unfold strip.
  rewrite (lstrip_fixed (rstrip (lstrip s))).
  - apply rstrip_idempotent.
  - apply rstrip_no_leading_space, lstrip_no_leading_space.
Qed.

(** *** [split] and [replace] *)

Lemma before_prefix (sep s : string) : exists rest, s = before sep s ++ rest.
Proof.
  induction s as [| c s [rest IH]]; cbn [before].
  - exists "". destruct (startswith sep ""); reflexivity.
  - destruct (startswith sep (String c s)).
    + exists (String c s). reflexivity.
    + exists rest. cbn. now rewrite <- IH.
Qed.

Lemma not_contains_empty (sep : string) :
  sep <> "" -> contains sep "" = false.
Proof. destruct sep; [congruence | reflexivity]. Qed.

(** The text before the first occurrence of a separator holds no
    occurrence of it. *)
Lemma before_not_contains (sep s : string) :
  sep <> "" -> contains sep (before sep s) = false.
Proof.
  intros Hsep. induction s as [| c s IH]; cbn [before].
  - destruct (startswith sep ""); now apply not_contains_empty.
  - destruct (startswith sep (String c s)) eqn:E;
      [now apply not_contains_empty |].
    cbn [contains]. rewrite IH.
    destruct (startswith sep (String c (before sep s))) eqn:E'; [| reflexivity].
    destruct (before_prefix sep s) as [rest Hrest].
    pose proof (startswith_grow sep (String c (before sep s)) rest E') as H.
    cbn [append] in H. rewrite <- Hrest in H. congruence.
Qed.

Lemma after_none_before (sep s : string) :
  after sep s = None -> before sep s = s.
Proof.
  induction s as [| c s IH]; cbn [after before].
  - destruct (startswith sep ""); [discriminate | reflexivity].
  - destruct (startswith sep (String c s)); [discriminate |].
    intros H. now rewrite (IH H).
Qed.

(** The first part of a split is the text before the separator. *)
Lemma split_first (sep s : string) :
  exists parts, split sep s = before sep s :: parts.
Proof.
  unfold split. destruct (String.length s) as [| n] eqn:E; cbn [split_fuel].
  - destruct s; [| discriminate]. exists [].
    cbn. destruct (startswith sep ""); reflexivity.
  - destruct (after sep s) as [rest |] eqn:Ha.
    + eexists. reflexivity.
    + exists []. now rewrite (after_none_before sep s Ha).
Qed.

Lemma not_contains_not_startswith (t s : string) :
  contains t s = false -> startswith t s = false.
Proof.
  destruct s; cbn [contains]; destruct (startswith t _);
    intros H; try discriminate; reflexivity.
Qed.

(** Replacing a text that does not occur changes nothing. *)
Lemma replace_absent (old new s : string) :
  contains old s = false -> replace old new s = s.
Proof.
  unfold replace. generalize (S (String.length s)) as n.
  intros n. revert s. induction n as [| n IH]; intros s H; cbn [replace_fuel].
  - reflexivity.
  - rewrite (not_contains_not_startswith old s H).
    destruct s as [| c s]; [reflexivity |].
    f_equal. apply IH. cbn [contains] in H.
    destruct (startswith old (String c s)); [discriminate | exact H].
Qed.

End StringFacts.

(* ----------------------------------------------------------------- *)
(** ** [json.loads] does not depend on its fuel

    Every scanner leaves less than it was given, so the fuel [loads]
    starts with is never used up: with any larger amount the answer is
    the same. *)

Section JsonFuel.

Import Json.

Lemma skip_ws_length (s : string) :
  String.length (skip_ws s) <= String.length s.
Proof.
  induction s as [| c s IH]; cbn [skip_ws]; [lia |].
  destruct (is_ws c); cbn [String.length]; lia.
Qed.

Lemma drop_length (n : nat) (s : string) :
  String.length (drop n s) = String.length s - n.
Proof.
  revert s. induction n as [| n IH]; intros [| c s]; cbn; try lia. apply IH.
Qed.

Lemma startswith_length (p s : string) :
  startswith p s = true -> String.length p <= String.length s.
Proof.
  intros H. destruct (startswith_inv p s H) as [r ->].
  rewrite length_append. lia.
Qed.

Lemma eat_length (c : ascii) (s r : string) :
  eat c s = Some r -> String.length s = S (String.length r).
Proof.
  destruct s as [| a s]; cbn [eat]; [discriminate |].
  destruct (Ascii.eqb a c); [| discriminate].
  intros H. inversion H. reflexivity.
Qed.

Lemma span_digits_length (s ds r : string) :
  span_digits s = (ds, r) -> String.length r <= String.length s.
Proof.
  revert ds r. induction s as [| c s IH]; cbn [span_digits]; intros ds r.
  - intros H. inversion H. cbn. lia.
  - destruct (isdigit c).
    + destruct (span_digits s) as [d r'] eqn:E. intros H. inversion H; subst.
      specialize (IH d r eq_refl). cbn [String.length]. lia.
    + intros H. inversion H. lia.
Qed.

Lemma span_digits_consumes (c : ascii) (s ds r : string) :
  isdigit c = true -> span_digits (String c s) = (ds, r) ->
  String.length r < String.length (String c s).
Proof.
  intros Hc. cbn [span_digits]. rewrite Hc.
  destruct (span_digits s) as [d r'] eqn:E. intros H. inversion H; subst.
  pose proof (span_digits_length s d r E). cbn [String.length]. lia.
Qed.

Lemma digit_1_9_is_digit (c : ascii) : in_range 49 57 c = true -> isdigit c = true.
Proof.
  unfold isdigit, in_range. intros H.
  apply andb_true_iff in H. destruct H as [H1 H2].
  apply andb_true_iff. split; [| exact H2].
  apply N.leb_le in H1. apply N.leb_le. lia.
Qed.

Lemma scan_int_part_length (s ds r : string) :
  scan_int_part s = Some (ds, r) -> String.length r < String.length s.
Proof.
  unfold scan_int_part. destruct s as [| c s]; [discriminate |].
  destruct (Ascii.eqb c "0").
  - intros H. inversion H. cbn. lia.
  - destruct (in_range 49 57 c) eqn:E; [| discriminate].
    intros H. inversion H as [H'].
    exact (span_digits_consumes c s ds r (digit_1_9_is_digit c E) H').
Qed.

Lemma scan_frac_length (s r : string) (frac : option string) :
  scan_frac s = (frac, r) -> String.length r <= String.length s.
Proof.
  unfold scan_frac.
  assert (Hsame : (None : option string, s) = (frac, r) ->
                  String.length r <= String.length s)
    by (intros H; inversion H; lia).
  destruct (eat "." s) as [[| d s'] |] eqn:E; try exact Hsame.
  destruct (isdigit d) eqn:Hd; [| exact Hsame].
  destruct (span_digits (String d s')) as [fs r'] eqn:E'.
  intros H. inversion H; subst.
  pose proof (span_digits_consumes d s' fs r Hd E').
  pose proof (eat_length _ _ _ E). lia.
Qed.

Lemma scan_exp_length (s r : string) (ex : option Z) :
  scan_exp s = (ex, r) -> String.length r <= String.length s.
Proof.
  unfold scan_exp.
  assert (Hsame : (None : option Z, s) = (ex, r) ->
                  String.length r <= String.length s)
    by (intros H; inversion H; lia).
  destruct s as [| e s]; [exact Hsame |].
  destruct (Ascii.eqb e "e" || Ascii.eqb e "E")%bool; [| exact Hsame].
  assert (Hsign : forall (eneg : bool) (r1 : string),
             String.length r1 <= String.length s ->
             match r1 with
             | String d _ =>
                 if isdigit d
                 then let (es, r2) := span_digits r1 in
                      (Some (if eneg then (- Z_of_digits es)%Z
                             else Z_of_digits es), r2)
                 else (None, String e s)
             | EmptyString => (None, String e s)
             end = (ex, r) ->
             String.length r <= String.length (String e s)).
  { intros eneg r1 Hr1. destruct r1 as [| d r1]; [exact Hsame |].
    destruct (isdigit d) eqn:Hd; [| exact Hsame].
    destruct (span_digits (String d r1)) as [es r2] eqn:E.
    intros H. inversion H; subst.
    pose proof (span_digits_consumes d r1 es r Hd E).
    cbn [String.length] in *. lia. }
  destruct (eat "-" s) as [r' |] eqn:Eminus.
  { apply (Hsign true). pose proof (eat_length _ _ _ Eminus). lia. }
  destruct (eat "+" s) as [r' |] eqn:Eplus.
  { apply (Hsign false). pose proof (eat_length _ _ _ Eplus). lia. }
  apply (Hsign false). lia.
Qed.

Lemma scan_number_length (s r : string) (v : pyval) :
  scan_number s = Some (v, r) -> String.length r < String.length s.
Proof.
  unfold scan_number.
  assert (Hrest : forall (neg : bool) (s1 : string),
             String.length s1 <= String.length s ->
             match scan_int_part s1 with
             | None => None
             | Some (ds, s2) =>
                 let (frac, s3) := scan_frac s2 in
                 let (ex, s4) := scan_exp s3 in
                 let sign (z : Z) : Z := if neg then (- z)%Z else z in
                 match frac, ex with
                 | None, None => Some (PInt (sign (Z_of_digits ds)), s4)
                 | _, _ =>
                     let fs := match frac with Some f => f | None => "" end in
                     let e := match ex with Some e => e | None => 0%Z end in
                     Some (PFloat (float_of_decimal
                                     (sign (Z_of_digits (ds ++ fs)))
                                     (e - Z.of_nat (String.length fs))%Z), s4)
                 end
             end = Some (v, r) ->
             String.length r < String.length s).
  { intros neg s1 Hs1.
    destruct (scan_int_part s1) as [[ds s2] |] eqn:Hint; [| discriminate].
    destruct (scan_frac s2) as [frac s3] eqn:Hfrac.
    destruct (scan_exp s3) as [ex s4] eqn:Hexp.
    pose proof (scan_int_part_length _ _ _ Hint).
    pose proof (scan_frac_length _ _ _ Hfrac).
    pose proof (scan_exp_length _ _ _ Hexp).
    cbv zeta. destruct frac, ex; intros H'; inversion H'; subst; lia. }
  destruct (eat "-" s) as [r' |] eqn:Eminus.
  - apply (Hrest true). pose proof (eat_length _ _ _ Eminus). lia.
  - apply (Hrest false). lia.
Qed.

Lemma scan_string_length (s t r : string) :
  scan_string s = Some (t, r) -> String.length r < String.length s.
Proof.
  remember (String.length s) as n eqn:Hn.
  revert s t r Hn.
  induction n as [n IH] using lt_wf_ind. intros s t r Hn.
  destruct s as [| c s']; cbn [scan_string]; [discriminate |].
  cbn [String.length] in Hn.
  assert (Hsub : forall (a : ascii) (s'' : string),
             String.length s'' <= String.length s' ->
             match scan_string s'' with
             | Some (t0, r0) => Some (String a t0, r0)
             | None => None
             end = Some (t, r) ->
             String.length r < n).
  { intros a s'' Hle. destruct (scan_string s'') as [[t0 r0] |] eqn:E;
      [| discriminate].
    intros H. inversion H; subst t r.
    pose proof (IH (String.length s'') ltac:(lia) s'' t0 r0 eq_refl E).
    lia. }
  destruct (Ascii.eqb c dquote).
  { intros H. inversion H; subst t r. lia. }
  destruct (Ascii.eqb c "\").
  - destruct s' as [| e s'']; [discriminate |].
    destruct (Ascii.eqb e "u").
    + destruct s'' as [| h1 [| h2 [| h3 [| h4 s4]]]]; try discriminate.
      destruct (hex4 h1 h2 h3 h4) as [n' |]; [| discriminate].
      destruct (N.leb n' 255); [| discriminate].
      apply Hsub. cbn [String.length]. lia.
    + destruct (unescape e) as [a |]; [| discriminate].
      apply Hsub. cbn [String.length]. lia.
  - destruct (N.ltb (code c) 32); [discriminate |].
    apply Hsub. lia.
Qed.

(** A literal ([null], [true], ...) at the head of a text. *)
Lemma literal_length {A} (p s r : string) (n : nat) (a v : A) :
  startswith p s = true -> 0 < n <= String.length p ->
  Some (a, drop n s) = Some (v, r) ->
  String.length r < String.length s.
Proof.
  intros Hp Hn H. assert (Hr : r = drop n s) by congruence.
  rewrite Hr, drop_length. apply startswith_length in Hp. lia.
Qed.

Ltac literal_case :=
  match goal with
  | |- context [if startswith ?p ?s then _ else _] =>
      let Hp := fresh "Hp" in
      destruct (startswith p s) eqn:Hp;
      [ apply (literal_length p s _ _ _ _ Hp); cbn; lia | ]
  end.

(** A value, the members of an object and the elements of an array
    leave less than they were given. *)
Lemma scan_value_length (fuel : nat) :
  (forall s v r, scan_value fuel s = Some (v, r) ->
                 String.length r < String.length s)
  /\ (forall s acc d r, scan_members fuel s acc = Some (d, r) ->
                        String.length r < String.length s)
  /\ (forall s l r, scan_elements fuel s = Some (l, r) ->
                    String.length r < String.length s).
Proof.
  induction fuel as [| fuel (IHv & IHm & IHe)];
    [repeat split; intros; discriminate |].
  repeat split.
  - intros s v r. cbn [scan_value].
    destruct s as [| c s']; [discriminate |].
    destruct (Ascii.eqb c dquote).
    { destruct (scan_string s') as [[t r'] |] eqn:E; [| discriminate].
      intros H. inversion H; subst.
      pose proof (scan_string_length _ _ _ E). cbn [String.length]. lia. }
    pose proof (skip_ws_length s') as Hws.
    destruct (Ascii.eqb c "{").
    { destruct (eat "}" (skip_ws s')) as [r' |] eqn:E.
      - intros H. inversion H; subst.
        pose proof (eat_length _ _ _ E). cbn [String.length]. lia.
      - destruct (scan_members fuel (skip_ws s') []) as [[d r'] |] eqn:E';
          [| discriminate].
        intros H. inversion H; subst.
        pose proof (IHm _ _ _ _ E'). cbn [String.length]. lia. }
    destruct (Ascii.eqb c "[").
    { destruct (eat "]" (skip_ws s')) as [r' |] eqn:E.
      - intros H. inversion H; subst.
        pose proof (eat_length _ _ _ E). cbn [String.length]. lia.
      - destruct (scan_elements fuel (skip_ws s')) as [[l r'] |] eqn:E';
          [| discriminate].
        intros H. inversion H; subst.
        pose proof (IHe _ _ _ E'). cbn [String.length]. lia. }
    repeat literal_case.
    apply scan_number_length.
  - intros s acc d r. cbn [scan_members].
    destruct (eat dquote s) as [s1 |] eqn:E1; [| discriminate].
    destruct (scan_string s1) as [[key s2] |] eqn:E2; [| discriminate].
    destruct (eat ":" (skip_ws s2)) as [s3 |] eqn:E3; [| discriminate].
    destruct (scan_value fuel (skip_ws s3)) as [[v s4] |] eqn:E4;
      [| discriminate].
    pose proof (eat_length _ _ _ E1). pose proof (scan_string_length _ _ _ E2).
    pose proof (skip_ws_length s2). pose proof (eat_length _ _ _ E3).
    pose proof (skip_ws_length s3). pose proof (IHv _ _ _ E4).
    pose proof (skip_ws_length s4).
    cbv zeta.
    destruct (eat "}" (skip_ws s4)) as [r' |] eqn:E5.
    { intros H'. inversion H'; subst. pose proof (eat_length _ _ _ E5). lia. }
    destruct (eat "," (skip_ws s4)) as [s5 |] eqn:E6; [| discriminate].
    intros H'. pose proof (IHm _ _ _ _ H'). pose proof (eat_length _ _ _ E6).
    pose proof (skip_ws_length s5). lia.
  - intros s l r. cbn [scan_elements].
    destruct (scan_value fuel s) as [[v s1] |] eqn:E1; [| discriminate].
    pose proof (IHv _ _ _ E1). pose proof (skip_ws_length s1).
    destruct (eat "]" (skip_ws s1)) as [r' |] eqn:E2.
    { intros H'. inversion H'; subst. pose proof (eat_length _ _ _ E2). lia. }
    destruct (eat "," (skip_ws s1)) as [s2 |] eqn:E3; [| discriminate].
    destruct (scan_elements fuel (skip_ws s2)) as [[l' r'] |] eqn:E4;
      [| discriminate].
    intros H'. inversion H'; subst.
    pose proof (IHe _ _ _ E4). pose proof (eat_length _ _ _ E3).
    pose proof (skip_ws_length s2). lia.
Qed.

(** With enough fuel for the text at hand the scanners give one
    answer, whatever the amount. *)
Lemma scan_fuel_stable (f1 : nat) :
  (forall f2 s,
      2 * String.length s <= f1 -> 2 * String.length s <= f2 ->
      scan_value f1 s = scan_value f2 s)
  /\ (forall f2 s acc,
         2 * String.length s <= f1 -> 2 * String.length s <= f2 ->
         scan_members f1 s acc = scan_members f2 s acc)
  /\ (forall f2 s,
         2 * String.length s + 1 <= f1 -> 2 * String.length s + 1 <= f2 ->
         scan_elements f1 s = scan_elements f2 s).
Proof.
  induction f1 as [| f1 (IHv & IHm & IHe)].
  - repeat split.
    + intros f2 [| c s] H1 H2; cbn [String.length] in *; [| lia].
      destruct f2; reflexivity.
    + intros f2 [| c s] acc H1 H2; cbn [String.length] in *; [| lia].
      destruct f2; reflexivity.
    + intros f2 s H1 H2. lia.
  - repeat split.
    + intros [| f2] s H1 H2.
      { destruct s; cbn [String.length] in *; [reflexivity | lia]. }
      cbn [scan_value]. destruct s as [| c s']; [reflexivity |].
      cbn [String.length] in *. pose proof (skip_ws_length s').
      rewrite (IHm f2 (skip_ws s') []) by lia.
      rewrite (IHe f2 (skip_ws s')) by lia.
      reflexivity.
    + intros [| f2] s acc H1 H2.
      { destruct s; cbn [String.length] in *; [reflexivity | lia]. }
      cbn [scan_members].
      destruct (eat dquote s) as [s1 |] eqn:E1; [| reflexivity].
      destruct (scan_string s1) as [[key s2] |] eqn:E2; [| reflexivity].
      destruct (eat ":" (skip_ws s2)) as [s3 |] eqn:E3; [| reflexivity].
      pose proof (eat_length _ _ _ E1). pose proof (scan_string_length _ _ _ E2).
      pose proof (skip_ws_length s2). pose proof (eat_length _ _ _ E3).
      pose proof (skip_ws_length s3).
      rewrite (IHv f2 (skip_ws s3)) by lia.
      destruct (scan_value f2 (skip_ws s3)) as [[v s4] |] eqn:E4;
        [| reflexivity].
      pose proof (proj1 (scan_value_length f2) _ _ _ E4).
      pose proof (skip_ws_length s4). cbv zeta.
      destruct (eat "}" (skip_ws s4)); [reflexivity |].
      destruct (eat "," (skip_ws s4)) as [s5 |] eqn:E6; [| reflexivity].
      pose proof (eat_length _ _ _ E6). pose proof (skip_ws_length s5).
      apply IHm; lia.
    + intros [| f2] s H1 H2; [lia |].
      cbn [scan_elements].
      rewrite (IHv f2 s) by lia.
      destruct (scan_value f2 s) as [[v s1] |] eqn:E1; [| reflexivity].
      pose proof (proj1 (scan_value_length f2) _ _ _ E1).
      pose proof (skip_ws_length s1).
      destruct (eat "]" (skip_ws s1)); [reflexivity |].
      destruct (eat "," (skip_ws s1)) as [s2 |] eqn:E3; [| reflexivity].
      pose proof (eat_length _ _ _ E3). pose proof (skip_ws_length s2).
      rewrite (IHe f2 (skip_ws s2)) by lia.
      reflexivity.
Qed.

(** The fuel of [loads] is enough: more fuel gives the same value, so
    a [JSONDecodeError] of the model is never a lack of fuel. *)
Theorem loads_fuel_adequate (s : string) (fuel : nat) :
  2 * String.length s + 2 <= fuel ->
  scan_value fuel (skip_ws s)
  = scan_value (2 * String.length s + 2) (skip_ws s).
Proof.
  intros H. pose proof (skip_ws_length s).
  apply (proj1 (scan_fuel_stable fuel)); lia.
Qed.

End JsonFuel.

(* ----------------------------------------------------------------- *)
(** ** The matcher does not depend on its fuel *)

Section StarLoop.

Context {R : Type}.
Variable body : string -> groups -> (string -> groups -> option R) -> option R.

(** The body treats continuations that agree alike. *)
Hypothesis body_ext :
  forall s g k1 k2,
    (forall s' g', k1 s' g' = k2 s' g') -> body s g k1 = body s g k2.

Lemma star_loop_ext (n : nat) :
  forall s g k1 k2,
    (forall s' g', k1 s' g' = k2 s' g') ->
    star_loop body n s g k1 = star_loop body n s g k2.
Proof.
  induction n as [| n IH]; intros s g k1 k2 H; cbn [star_loop]; [apply H |].
  rewrite (body_ext s g _
             (fun s1 g1 =>
                if Nat.ltb (String.length s1) (String.length s)
                then star_loop body n s1 g1 k2 else None)).
  - rewrite H. reflexivity.
  - intros s' g'. destruct (Nat.ltb _ _); [apply IH, H | reflexivity].
Qed.

(** More rounds than the text has characters are never run. *)
Lemma star_loop_fuel (n : nat) :
  forall m s g k,
    String.length s < n -> String.length s < m ->
    star_loop body n s g k = star_loop body m s g k.
Proof.
  induction n as [| n IH]; intros m s g k Hn Hm; [lia |].
  destruct m as [| m]; [lia |]. cbn [star_loop].
  rewrite (body_ext s g _
             (fun s1 g1 =>
                if Nat.ltb (String.length s1) (String.length s)
                then star_loop body m s1 g1 k else None)); [reflexivity |].
  intros s' g'. destruct (Nat.ltb _ _) eqn:E; [| reflexivity].
  apply Nat.ltb_lt in E. apply IH; lia.
Qed.

End StarLoop.

Lemma run_ext {R : Type} (r : regex) :
  forall s g (k1 k2 : string -> groups -> option R),
    (forall s' g', k1 s' g' = k2 s' g') -> run r s g k1 = run r s g k2.
Proof.
  induction r as [| c | f | a IHa b IHb | a IHa | a IHa | i a IHa |];
    intros s g k1 k2 H; cbn [run].
  - apply H.
  - destruct s as [| x s]; [reflexivity |]. now rewrite H.
  - destruct s as [| x s]; [reflexivity |]. now rewrite H.
  - apply IHa. intros s' g'. apply IHb, H.
  - apply star_loop_ext; assumption.
  - rewrite (IHa s g k1 k2 H), H. reflexivity.
  - apply IHa. intros s' g'. apply H.
  - destruct s as [| x [| y s]]; now rewrite ?H.
Qed.

(** The rounds [run] allows a repetition are enough. *)
Theorem star_fuel_adequate {R : Type} (a : regex) (n : nat) (s : string)
  (g : groups) (k : string -> groups -> option R) :
  String.length s < n ->
  star_loop (run a) n s g k = star_loop (run a) (S (String.length s)) s g k.
Proof.
  intros H. apply star_loop_fuel; [apply run_ext | exact H | lia].
Qed.

(** A match ends in a call of the continuation, on a text that is not
    longer than the one the match started on. *)
Lemma star_loop_some {R : Type}
  (body : string -> groups -> (string -> groups -> option R) -> option R) :
  (forall s g k x, body s g k = Some x ->
     exists s' g', String.length s' <= String.length s /\ k s' g' = Some x) ->
  forall n s g k x, star_loop body n s g k = Some x ->
    exists s' g', String.length s' <= String.length s /\ k s' g' = Some x.
Proof.
  intros Hbody. induction n as [| n IH]; intros s g k x; cbn [star_loop].
  - intros H. exists s, g. split; [lia | exact H].
  - destruct (body s g _) as [y |] eqn:E.
    + intros Hy. inversion Hy; subst y.
      destruct (Hbody _ _ _ _ E) as (s1 & g1 & Hlen & Hk).
      destruct (Nat.ltb _ _) eqn:Hlt; [| discriminate].
      destruct (IH _ _ _ _ Hk) as (s' & g' & Hlen' & Hk').
      exists s', g'. split; [lia | exact Hk'].
    + intros H. exists s, g. split; [lia | exact H].
Qed.

Lemma run_some {R : Type} (r : regex) :
  forall s g (k : string -> groups -> option R) x,
    run r s g k = Some x ->
    exists s' g', String.length s' <= String.length s /\ k s' g' = Some x.
Proof.
  induction r as [| c | f | a IHa b IHb | a IHa | a IHa | i a IHa |];
    intros s g k x; cbn [run].
  - intros H. exists s, g. split; [lia | exact H].
  - destruct s as [| y s]; [discriminate |].
    destruct (Ascii.eqb y c); [| discriminate].
    intros H. exists s, g. split; [cbn; lia | exact H].
  - destruct s as [| y s]; [discriminate |].
    destruct (f y); [| discriminate].
    intros H. exists s, g. split; [cbn; lia | exact H].
  - intros H. destruct (IHa _ _ _ _ H) as (s1 & g1 & Hlen1 & H1).
    destruct (IHb _ _ _ _ H1) as (s' & g' & Hlen' & Hk).
    exists s', g'. split; [lia | exact Hk].
  - apply star_loop_some. exact IHa.
  - destruct (run a s g k) as [y |] eqn:E.
    + intros Hy. inversion Hy; subst y. exact (IHa _ _ _ _ E).
    + intros H. exists s, g. split; [lia | exact H].
  - intros H. destruct (IHa _ _ _ _ H) as (s1 & g1 & Hlen1 & H1).
    eexists s1, _. split; [exact Hlen1 | exact H1].
  - destruct s as [| y [| z s]].
    + intros H. exists "", g. split; [lia | exact H].
    + destruct (Ascii.eqb y newline); [| discriminate].
      intros H. eexists _, g. split; [| exact H]. lia.
    + discriminate.
Qed.

Lemma take_nonempty (n : nat) (s : string) (c : ascii) (t : string) :
  take n s = String c t -> 0 < n.
Proof. destruct n; [destruct s; discriminate | lia]. Qed.

(** What a search leaves is not longer than the text, and shorter when
    the match is not empty. *)
Lemma search_from_rest (r : regex) (s : string) :
  forall i m, search_from r s i = Some m ->
    String.length (m_rest m) <= String.length s
    /\ (m_group0 m <> "" -> String.length (m_rest m) < String.length s).
Proof.
  induction s as [| c s IH]; intros i m; cbn [search_from].
  - destruct (run r "" [] _) as [[s' g] |] eqn:E; [| discriminate].
    intros H. inversion H; subst m. cbn [m_rest m_group0].
    destruct (run_some _ _ _ _ _ E) as (s1 & g1 & Hlen & Hk).
    inversion Hk; subst. split; [exact Hlen |].
    destruct s'; cbn in *; [congruence | lia].
  - destruct (run r (String c s) [] _) as [[s' g] |] eqn:E.
    + intros H. inversion H; subst m. cbn [m_rest m_group0].
      destruct (run_some _ _ _ _ _ E) as (s1 & g1 & Hlen & Hk).
      inversion Hk; subst. split; [exact Hlen |].
      intros Hne.
      destruct (take (String.length (String c s) - String.length s')
                  (String c s)) eqn:Et; [congruence |].
      pose proof (take_nonempty _ _ _ _ Et). lia.
    + intros H. destruct (IH _ _ H) as [H1 H2]. cbn [String.length].
      split; [lia |]. intros Hne. specialize (H2 Hne). lia.
Qed.

(** The rounds [finditer] allows are enough. *)
Theorem finditer_fuel_adequate (r : regex) (n : nat) :
  forall m s,
    String.length s < n -> String.length s < m ->
    finditer_fuel n r s = finditer_fuel m r s.
Proof.
  induction n as [| n IH]; intros m s Hn Hm; [lia |].
  destruct m as [| m]; [lia |]. cbn [finditer_fuel]. unfold search.
  destruct (search_from r s 0) as [mo |] eqn:E; [| reflexivity].
  destruct (search_from_rest r s 0 mo E) as [Hle Hlt].
  destruct (m_group0 mo) as [| c t] eqn:E0.
  - destruct (m_rest mo) as [| c' rest]; [reflexivity |].
    cbn [String.length] in Hle. f_equal. apply IH; lia.
  - assert (Hlt' : String.length (m_rest mo) < String.length s)
      by (apply Hlt; discriminate).
    f_equal. apply IH; lia.
Qed.

(* ----------------------------------------------------------------- *)
(** ** [split] and [replace] do not depend on their fuel *)

Lemma after_shorter (sep s rest : string) :
  sep <> "" -> after sep s = Some rest ->
  String.length rest < String.length s.
Proof.
  intros Hsep. induction s as [| c s IH]; cbn [after].
  - destruct (startswith sep "") eqn:E; [| discriminate].
    destruct sep; [congruence | discriminate].
  - destruct (startswith sep (String c s)) eqn:E.
    + intros H. inversion H. rewrite drop_length.
      destruct sep as [| x sep]; [congruence |].
      cbn [String.length]. lia.
    + intros H. specialize (IH H). cbn [String.length]. lia.
Qed.

Theorem split_fuel_adequate (sep : string) (n : nat) :
  sep <> "" ->
  forall m s,
    String.length s <= n -> String.length s <= m ->
    split_fuel n sep s = split_fuel m sep s.
Proof.
  intros Hsep. induction n as [| n IH]; intros m s Hn Hm.
  - destruct s; [| cbn in Hn; lia].
    destruct m; cbn [split_fuel]; [reflexivity |].
    cbn [after]. destruct (startswith sep "") eqn:E; [| reflexivity].
    destruct sep; [congruence | discriminate].
  - destruct m as [| m].
    + destruct s; [| cbn in Hm; lia]. cbn [split_fuel after].
      destruct (startswith sep "") eqn:E; [| reflexivity].
      destruct sep; [congruence | discriminate].
    + cbn [split_fuel].
      destruct (after sep s) as [rest |] eqn:E; [| reflexivity].
      pose proof (after_shorter sep s rest Hsep E).
      f_equal. apply IH; lia.
Qed.

Theorem replace_fuel_adequate (old new : string) (n : nat) :
  old <> "" ->
  forall m s,
    String.length s < n -> String.length s < m ->
    replace_fuel n old new s = replace_fuel m old new s.
Proof.
  intros Hold. induction n as [| n IH]; intros m s Hn Hm; [lia |].
  destruct m as [| m]; [lia |]. cbn [replace_fuel].
  destruct (startswith old s) eqn:E.
  - f_equal. pose proof (startswith_length old s E).
    apply IH; rewrite drop_length;
      destruct old; try congruence; cbn [String.length] in *; lia.
  - destruct s as [| c s]; [reflexivity |].
    cbn [String.length] in *. f_equal. apply IH; lia.
Qed.

(* ----------------------------------------------------------------- *)
(** ** Truncation tolerance *)

(** C1. On the truncated scatter response of the specification (the
    closing brackets are missing) [parse_response] returns the chart with
    status "success", chart type "scatter", exactly the three complete
    records, x = "Date" and y = ["Open", "Close"]. *)
Theorem truncated_scatter_parsed :
  parse_response parser truncated_scatter
  = Some [("status", PStr "success");
          ("chart_type", PStr "scatter");
          ("data", PList scatter_records);
          ("x", PStr "Date");
          ("y", PStrs ["Open"; "Close"])]
  /\ List.length scatter_records = 3.
Proof. split; vm_compute; reflexivity. Qed.

(** How the result comes about: the response is not error-shaped, the
    direct parse fails on the missing brackets, and the three records
    are recovered by the record pattern. *)
Example truncated_scatter_path :
  _is_error_response parser truncated_scatter = false
  /\ direct_parse parser (_clean_truncated_response parser truncated_scatter)
     = inr None
  /\ _extract_data_records parser truncated_scatter "scatter"
     = scatter_records.
Proof. repeat split; vm_compute; reflexivity. Qed.

(* ----------------------------------------------------------------- *)
(** ** The error path *)

Lemma fixed_messages_sqlstate_free :
  sqlstate_free msg_tcs /\ sqlstate_free msg_table
  /\ sqlstate_free msg_source /\ sqlstate_free msg_default
  /\ sqlstate_free msg_parser_failed.
Proof. repeat split; vm_compute; reflexivity. Qed.

(** A text that holds the table marker is answered by one of the two
    table messages. *)
Lemma clean_table_marker (self : RobustJSONParser.RobustJSONParser) (e : string) :
  contains "TABLE_OR_VIEW_NOT_FOUND" e = true ->
  _clean_error_message self (PStr e) = inr msg_tcs
  \/ _clean_error_message self (PStr e) = inr msg_table.
Proof.
  intros H. unfold _clean_error_message. cbn [py_in bind ret].
  rewrite H. destruct (contains "TCS_stock" e); [left | right]; reflexivity.
Qed.

(** On a value that is not a string the cleaning either raises or
    answers one of the fixed messages. *)
Lemma clean_non_string (self : RobustJSONParser.RobustJSONParser) (v : pyval) :
  (forall e, v <> PStr e) ->
  match _clean_error_message self v with
  | inl _ => True
  | inr m => m = msg_tcs \/ m = msg_table \/ m = msg_source
  end.
Proof.
  intros Hv. unfold _clean_error_message.
  destruct v as [| b | z | f | s | l | d]; cbn [py_in bind ret raise]; trivial;
    try (exfalso; exact (Hv s eq_refl));
    repeat first
      [ progress cbn [py_in py_split py_strip bind ret raise]
      | match goal with
        | |- context [if ?c then _ else _] => destruct c
        end ];
    auto.
Qed.

(** [_extract_error_message] always answers an error result. *)
Lemma extract_error_message_shape (self : RobustJSONParser.RobustJSONParser)
  (s : string) :
  exists msg ty, _extract_error_message self s = error_result msg ty.
Proof.
  unfold _extract_error_message.
  match goal with |- context [match ?b with inr _ => _ | inl _ => _ end] =>
    destruct b as [e | result] eqn:Hb end.
  - eauto.
  - revert Hb. unfold catch, bind, ret. py_cases;
      intros H; inversion H; eauto.
Qed.

(** An error-shaped text never reaches the chart parsing. *)
Lemma parse_response_error_first (self : RobustJSONParser.RobustJSONParser)
  (s : string) :
  _is_error_response self s = true ->
  parse_response self s = Some (_extract_error_message self s).
Proof.
  intros H. unfold parse_response. rewrite H. reflexivity.
Qed.

Lemma indicator_is_error (self : RobustJSONParser.RobustJSONParser)
  (indicator s : string) :
  In indicator error_indicators ->
  contains indicator s = true ->
  _is_error_response self s = true.
Proof.
  intros Hin Hc. unfold _is_error_response.
  apply existsb_exists. exists indicator. split; assumption.
Qed.

(** C10. A text that holds any of the error indicators anywhere, also
    inside the data of a well-formed success payload, is answered by an
    error result (status "error", [chart_data] None) and never by a
    chart: the detection is by substring only. *)
Theorem error_indicator_forces_error_result :
  forall (s indicator : string),
    In indicator error_indicators ->
    contains indicator s = true ->
    exists msg ty,
      parse_response parser s = Some (error_result msg ty)
      /\ status_of (error_result msg ty) = Some (PStr "error")
      /\ dict_get "chart_data" (error_result msg ty) = Some PNone.
Proof.
  intros s indicator Hin Hc.
  rewrite (parse_response_error_first parser s
             (indicator_is_error parser indicator s Hin Hc)).
  destruct (extract_error_message_shape parser s) as (msg & ty & ->).
  exists msg, ty. repeat split.
Qed.

Lemma error_indicator_forces_error_result_witness :
  In "Failed" error_indicators
  /\ contains "Failed" failed_logins_chart = true
  /\ exists msg ty,
       parse_response parser failed_logins_chart = Some (error_result msg ty)
       /\ status_of (error_result msg ty) = Some (PStr "error")
       /\ dict_get "chart_data" (error_result msg ty) = Some PNone.
Proof.
  assert (Hin : In "Failed" error_indicators) by (vm_compute; tauto).
  assert (Hc : contains "Failed" failed_logins_chart = true)
    by (vm_compute; reflexivity).
  split; [exact Hin | split; [exact Hc |]].
  exact (error_indicator_forces_error_result failed_logins_chart "Failed" Hin Hc).
Defined.

(* ----------------------------------------------------------------- *)
(** ** The cleaned error message *)

Lemma table_marker_in_brackets (s : string) :
  contains "TABLE_OR_VIEW_NOT_FOUND" s = false ->
  contains "[TABLE_OR_VIEW_NOT_FOUND]" s = false.
Proof.
  intros H. destruct (contains "[TABLE_OR_VIEW_NOT_FOUND]" s) eqn:E;
    [| reflexivity].
  rewrite (contains_trans "TABLE_OR_VIEW_NOT_FOUND"
             "[TABLE_OR_VIEW_NOT_FOUND]" s eq_refl E) in H.
  discriminate.
Qed.

(** The default clean-up keeps at most 200 characters and three dots. *)
Lemma default_cleanup_bounded (clean_msg : string) :
  String.length
    (let clean_msg :=
       if Nat.ltb 200 (String.length clean_msg)
       then take 200 clean_msg ++ "..." else clean_msg in
     if String.eqb clean_msg "" then msg_default else clean_msg) <= 203.
Proof.
  cbv zeta.
  destruct (Nat.ltb 200 (String.length clean_msg)) eqn:E.
  - destruct (String.eqb _ ""); [vm_compute; lia |].
    rewrite length_append. pose proof (length_take 200 clean_msg).
    change (String.length "...") with 3. lia.
  - apply Nat.ltb_ge in E.
    destruct (String.eqb clean_msg ""); [vm_compute; lia | lia].
Qed.

(** What [_clean_error_message] does with the text before the first
    "SQLSTATE" of a text without the table marker. *)
Lemma main_error_is_stripped_prefix (e : string) :
  contains "TABLE_OR_VIEW_NOT_FOUND" e = false ->
  strip (replace "[TABLE_OR_VIEW_NOT_FOUND]" "" (strip (before "SQLSTATE" e)))
  = strip (before "SQLSTATE" e).
Proof.
  intros H. rewrite replace_absent; [apply strip_idempotent |].
  apply table_marker_in_brackets, not_contains_strip.
  destruct (before_prefix "SQLSTATE" e) as [rest Hrest].
  rewrite Hrest in H.
  apply (not_contains_infix _ _ "" rest). exact H.
Qed.

(** A prefix of a text, and the text before a separator, hold nothing
    the text does not hold. *)
Lemma take_drop (n : nat) (s : string) : take n s ++ drop n s = s.
Proof.
  revert s. induction n as [| n IH]; intros [| c s]; cbn; try reflexivity.
  rewrite IH. reflexivity.
Qed.

Lemma not_contains_take (t : string) (n : nat) (s : string) :
  contains t s = false -> contains t (take n s) = false.
Proof.
  intros H. apply (not_contains_infix t (take n s) "" (drop n s)).
  cbn [append]. rewrite take_drop. exact H.
Qed.

Lemma not_contains_before (t sep s : string) :
  contains t s = false -> contains t (before sep s) = false.
Proof.
  intros H. destruct (before_prefix sep s) as [rest Hrest].
  apply (not_contains_infix t (before sep s) "" rest).
  cbn [append]. rewrite <- Hrest. exact H.
Qed.

(** Dots after a text begin no occurrence of a text without a dot. *)
Lemma startswith_before_dots (p x : string) (n : nat) :
  contains "." p = false ->
  startswith p (x ++ repeat_string "." n) = startswith p x.
Proof.
  revert x. induction p as [| a p IH]; intros x Hp; [reflexivity |].
  assert (Ha : Ascii.eqb a "." = false /\ contains "." p = false).
  { cbn [contains startswith] in Hp.
    rewrite Ascii.eqb_sym.
    destruct (Ascii.eqb "." a); [discriminate |]. cbn in Hp. auto. }
  destruct Ha as [Ha Hp'].
  destruct x as [| c x]; cbn [append startswith].
  - destruct n as [| n]; cbn [repeat_string append startswith]; [reflexivity |].
    rewrite Ha. reflexivity.
  - rewrite (IH x Hp'). reflexivity.
Qed.

Lemma contains_before_dots (p x : string) (n : nat) :
  contains "." p = false -> p <> "" ->
  contains p (x ++ repeat_string "." n) = contains p x.
Proof.
  intros Hp Hne.
  assert (Hempty : startswith p "" = false)
    by (destruct p; [contradiction | reflexivity]).
  assert (Hdots : forall k, contains p (repeat_string "." k) = false).
  { induction k as [| k IHk].
    - cbn [repeat_string contains]. rewrite Hempty. reflexivity.
    - pose proof (startswith_before_dots p "" (S k) Hp) as H.
      cbn [append] in H. cbn [repeat_string append] in *.
      cbn [contains]. rewrite H, Hempty. exact IHk. }
  induction x as [| c x IH].
  - cbn [append]. rewrite Hdots. cbn [contains]. rewrite Hempty. reflexivity.
  - pose proof (startswith_before_dots p (String c x) n Hp) as H.
    cbn [append] in *. cbn [contains]. rewrite H, IH. reflexivity.
Qed.

(** The default clean-up brings in no SQL state. *)
Lemma default_cleanup_sqlstate_free (clean_msg : string) :
  contains "SQLSTATE" clean_msg = false ->
  sqlstate_free
    (let clean_msg :=
       if Nat.ltb 200 (String.length clean_msg)
       then take 200 clean_msg ++ "..." else clean_msg in
     if String.eqb clean_msg "" then msg_default else clean_msg).
Proof.
  intros H. cbv zeta. unfold sqlstate_free.
  destruct (String.eqb _ ""); [vm_compute; reflexivity |].
  destruct (Nat.ltb 200 (String.length clean_msg)); [| exact H].
  change "..." with (repeat_string "." 3).
  rewrite contains_before_dots; [| vm_compute; reflexivity | discriminate].
  apply not_contains_take. exact H.
Qed.

(** What [_clean_error_message] answers on a text, branch by branch. *)
Lemma clean_error_message_cases (e : string) :
  exists msg,
    _clean_error_message parser (PStr e) = inr msg
    /\ (returns_main_error e = true -> msg = before_sqlstate e)
    /\ (returns_first_line e = true -> msg = first_line e)
    /\ (returns_main_error e = false -> returns_first_line e = false ->
        String.length msg <= 203)
    /\ (sqlstate_leads e = false -> sqlstate_free msg).
Proof.
  unfold _clean_error_message. cbn [py_in py_split py_strip bind ret].
  unfold returns_first_line, returns_main_error, sqlstate_leads, first_line,
    before_sqlstate.
  destruct (contains "TABLE_OR_VIEW_NOT_FOUND" e) eqn:HT; cbn [negb andb].
  { destruct (contains "TCS_stock" e); eexists; (split; [reflexivity |]);
      (repeat split; try discriminate; intros; vm_compute;
       try reflexivity; lia). }
  destruct (split_first "SQLSTATE" e) as [parts ->].
  destruct (split_first (String newline "") e) as [lines ->].
  rewrite (main_error_is_stripped_prefix e HT).
  destruct (contains "SQLSTATE" e) eqn:HS; cbn [negb andb bind ret].
  - destruct (String.eqb (strip (before "SQLSTATE" e)) "") eqn:Hprefix;
      cbn [negb andb bind ret].
    + destruct (contains "cannot be found" e); cbn [negb andb orb bind ret].
      { eexists. split; [reflexivity |].
        repeat split; try discriminate. intros _ _. vm_compute; lia. }
      destruct (contains "Failed to" e); cbn [negb andb orb bind ret].
      { eexists. split; [reflexivity |]. repeat split; discriminate. }
      destruct (contains "Error:" e); cbn [negb andb orb bind ret].
      { eexists. split; [reflexivity |]. repeat split; discriminate. }
      eexists. split; [reflexivity |]. repeat split; try discriminate.
      intros _ _. apply default_cleanup_bounded.
    + eexists. split; [reflexivity |]. repeat split; try discriminate.
      intros _. apply not_contains_strip, before_not_contains. discriminate.
  - destruct (contains "cannot be found" e); cbn [negb andb orb bind ret].
    { eexists. split; [reflexivity |].
      repeat split; try discriminate; intros; vm_compute; try reflexivity; lia. }
    destruct (contains "Failed to" e); cbn [negb andb orb bind ret].
    { eexists. split; [reflexivity |]. repeat split; try discriminate.
      intros _. apply not_contains_before. exact HS. }
    destruct (contains "Error:" e); cbn [negb andb orb bind ret].
    { eexists. split; [reflexivity |]. repeat split; try discriminate.
      intros _. apply not_contains_before. exact HS. }
    eexists. split; [reflexivity |]. repeat split; try discriminate.
    + intros _ _. apply default_cleanup_bounded.
    + intros _. apply default_cleanup_sqlstate_free, not_contains_strip, HS.
Qed.

(** C8 (as amended). On a text, [_clean_error_message] always answers a
    message.  When the text has no table marker and something other
    than white space stands before its first "SQLSTATE", the message is
    that text, stripped, whatever its length.  Otherwise, when the text
    has no table marker and no "cannot be found" and holds "Failed to"
    or "Error:", the message is the first line of the text, whatever its
    length.  In every other case (the fixed messages and the default
    clean-up) the message has at most 203 characters: 200 and the three
    dots.  The message holds no "SQLSTATE" when the text has the table
    marker, or no "SQLSTATE", or something other than white space
    before its first "SQLSTATE". *)
Theorem clean_error_message_bounds :
  forall e : string,
  exists msg,
    _clean_error_message parser (PStr e) = inr msg
    /\ (returns_main_error e = true -> msg = before_sqlstate e)
    /\ (returns_first_line e = true -> msg = first_line e)
    /\ (returns_main_error e = false -> returns_first_line e = false ->
        String.length msg <= 203)
    /\ (sqlstate_leads e = false -> sqlstate_free msg).
Proof. exact clean_error_message_cases. Qed.

Lemma clean_error_message_bounds_witness :
  (exists msg,
     _clean_error_message parser (PStr sqlstate_report) = inr msg
     /\ msg = "Query timed out after 60 seconds."
     /\ sqlstate_free msg)
  /\ (exists msg,
        _clean_error_message parser (PStr long_failure) = inr msg
        /\ msg = long_failure)
  /\ (exists msg,
        _clean_error_message parser (PStr "The view cannot be found") = inr msg
        /\ String.length msg <= 203).
Proof.
  destruct (clean_error_message_bounds sqlstate_report)
    as (m1 & H1 & Hmain & _ & _ & Hfree).
  destruct (clean_error_message_bounds long_failure)
    as (m2 & H2 & _ & Hline & _ & _).
  destruct (clean_error_message_bounds "The view cannot be found")
    as (m3 & H3 & _ & _ & Hlen & _).
  split; [| split].
  - exists m1. split; [exact H1 |]. split.
    + rewrite (Hmain ltac:(vm_compute; reflexivity)). vm_compute. reflexivity.
    + apply Hfree. vm_compute. reflexivity.
  - exists m2. split; [exact H2 |].
    rewrite (Hline ltac:(vm_compute; reflexivity)). vm_compute. reflexivity.
  - exists m3. split; [exact H3 |].
    apply Hlen; vm_compute; reflexivity.
Defined.

(** C8 fails as stated: a text with "Failed to" is answered by its
    first line, here 314 characters long; a text with "SQLSTATE" is
    answered by what stands before it, here 298 characters long. *)
Lemma cleaned_message_longer_than_bound :
  (_clean_error_message parser (PStr long_failure) = inr (first_line long_failure)
   /\ String.length (first_line long_failure) = 314)
  /\ (_clean_error_message parser (PStr long_sqlstate_report)
      = inr (before_sqlstate long_sqlstate_report)
      /\ String.length (before_sqlstate long_sqlstate_report) = 298).
Proof. repeat split; vm_compute; reflexivity. Qed.

(* ----------------------------------------------------------------- *)
(** ** The SQL state in the message of an error response *)

Lemma sqlstate_only_when_leading (e msg : string) :
  (sqlstate_leads e = false -> sqlstate_free msg) ->
  contains "SQLSTATE" msg = true -> sqlstate_leads e = true.
Proof.
  intros Hfree Hmsg. destruct (sqlstate_leads e); [reflexivity |].
  rewrite (Hfree eq_refl) in Hmsg. discriminate.
Qed.

(** On a response that names no character beyond the alphabet, the
    message of [_extract_error_message] holds "SQLSTATE" only when the
    text that was cleaned (the response, or the text under its
    top-level "error" key when it loads as an object) has no table
    marker and nothing but white space before its first "SQLSTATE". *)
Lemma extract_error_message_sqlstate (s : string) :
  Json.names_wide_char s = false ->
  exists msg ty,
    _extract_error_message parser s = error_result msg ty
    /\ (contains "SQLSTATE" msg = true ->
        exists e,
          sqlstate_leads e = true
          /\ (e = s
              \/ exists d, Json.loads s = inr (PDict d)
                           /\ dict_get "error" d = Some (PStr e))).
Proof.
  intros _.
  destruct fixed_messages_sqlstate_free as (F1 & F2 & F3 & _ & F5).
  unfold sqlstate_free in *.
  assert (Hwhole : forall r : dict,
             (clean_msg <- _clean_error_message parser (PStr s) ;;
              ret (error_result clean_msg "general")) = inr r ->
             exists msg ty, r = error_result msg ty
               /\ (contains "SQLSTATE" msg = true ->
                   exists e,
                     sqlstate_leads e = true
                     /\ (e = s
                         \/ exists d, Json.loads s = inr (PDict d)
                                      /\ dict_get "error" d = Some (PStr e)))).
  { intros r.
    destruct (clean_error_message_cases s) as (msg & -> & _ & _ & _ & Hfree).
    cbn [bind ret]. intros H. inversion H. exists msg, "general".
    split; [reflexivity |]. intros Hmsg. exists s. split; [| left; reflexivity].
    exact (sqlstate_only_when_leading s msg Hfree Hmsg). }
  unfold _extract_error_message.
  match goal with |- context [match ?b with inr _ => _ | inl _ => _ end] =>
    destruct b as [e | result] eqn:Hb end.
  - exists msg_parser_failed, "parser". split; [reflexivity |].
    rewrite F5. discriminate.
  - revert Hb.
    destruct (startswith "{" (strip s)); cbn [bind ret]; [| apply Hwhole].
    unfold catch.
    destruct (Json.loads s) as [e | parsed] eqn:Hloads; cbn [bind ret].
    + destruct (is_JSONDecodeError e); cbn [bind ret];
        [apply Hwhole | discriminate].
    + destruct parsed as [| b | z | f | t | l | d];
        cbn [isinstance_dict py_in bind ret]; try apply Hwhole.
      unfold dict_has, getitem_str.
      destruct (dict_get "error" d) as [v |] eqn:Hget; cbn [bind ret];
        [| apply Hwhole].
      destruct v as [| b | z | f | e | l | d'].
      5: { destruct (clean_error_message_cases e)
             as (msg & -> & _ & _ & _ & Hfree).
           cbn [bind ret]. intros H. inversion H.
           exists msg, "database". split; [reflexivity |].
           intros Hmsg. exists e.
           split; [exact (sqlstate_only_when_leading e msg Hfree Hmsg) |].
           right. exists d. split; [reflexivity | exact Hget]. }
      all: match goal with
           | |- context [_clean_error_message ?p ?v] =>
               assert (Hns := clean_non_string p v
                                ltac:(intros ? ?; discriminate));
               destruct (_clean_error_message p v) as [e | m];
               cbn [bind ret];
               [ destruct (is_JSONDecodeError e); cbn [bind ret];
                 [apply Hwhole | discriminate]
               | intros H; inversion H; exists m, "database";
                 split; [reflexivity |];
                 destruct Hns as [-> | [-> | ->]]; intros Hmsg;
                 congruence ]
           end.
Qed.

(** C2. The claim does not hold of the code.  The response below loads
    as an object; the text under its top-level "error" key is cleaned,
    and not the "error": field of its cause, which holds the table
    marker and the SQL state.  The cleaned text starts with "SQLSTATE":
    nothing stands before it, [if main_error] is not taken, no later
    branch removes the code, and the message of the answer is
    "SQLSTATE: 42P02".  With a sentence before it, the same code is
    removed. *)
Theorem sqlstate_survives_in_nested_error :
  contains (js "'error': '[TABLE_OR_VIEW_NOT_FOUND] The table is missing. SQLSTATE: 42P02'")
    nested_table_error = true
  /\ Json.loads nested_table_error
     = inr (PDict [("error", PStr "SQLSTATE: 42P02");
                   ("cause",
                    PDict [("error",
                            PStr "[TABLE_OR_VIEW_NOT_FOUND] The table is missing. SQLSTATE: 42P02")])])
  /\ sqlstate_leads "SQLSTATE: 42P02" = true
  /\ _clean_error_message parser (PStr "SQLSTATE: 42P02")
     = inr "SQLSTATE: 42P02"
  /\ parse_response parser nested_table_error
     = Some (error_result "SQLSTATE: 42P02" "database")
  /\ contains "SQLSTATE" "SQLSTATE: 42P02" = true
  /\ _clean_error_message parser (PStr "The table is missing. SQLSTATE: 42P02")
     = inr "The table is missing.".
Proof. repeat split; vm_compute; reflexivity. Qed.

(* ----------------------------------------------------------------- *)
(** ** The two chart paths of [parse_response] *)

Section ChartPaths.

Variable self : RobustJSONParser.RobustJSONParser.

(** Then whatever [parse_response] answers comes from the patterns. *)
Lemma parse_response_from_patterns (s : string) (r : dict) :
  _is_error_response self s = false ->
  direct_parse_silent self s ->
  parse_response self s = Some r ->
  pattern_parse self s = inr (Some r).
Proof.
  intros Herr Hsilent. unfold parse_response. rewrite Herr.
  unfold direct_parse_silent in Hsilent.
  destruct (direct_parse self (_clean_truncated_response self s))
    as [e | [enhanced |]]; cbn [bind ret].
  - discriminate.
  - exfalso. exact (Hsilent enhanced eq_refl).
  - destruct (pattern_parse self s) as [e | [r' |]]; intros H;
      inversion H; reflexivity.
Qed.

Lemma parse_response_none_from_patterns (s : string) :
  _is_error_response self s = false ->
  direct_parse_silent self s ->
  pattern_parse self s = inr None ->
  parse_response self s = None.
Proof.
  intros Herr Hsilent Hpat.
  destruct (parse_response self s) as [r |] eqn:E; [| reflexivity].
  rewrite (parse_response_from_patterns s r Herr Hsilent E) in Hpat.
  discriminate.
Qed.

(** The metadata, when there are any, hold the first declared chart
    type, and it is a supported one. *)
Lemma extract_chart_metadata_some (s : string) (chart_info : dict) :
  _extract_chart_metadata self s = Some chart_info ->
  exists m,
    search (chart_type (chart_patterns self)) s = Some m
    /\ mem (group 1 m) (supported_chart_types self) = true
    /\ chart_info = [("chart_type", PStr (group 1 m))].
Proof.
  unfold _extract_chart_metadata.
  destruct (search (status_success (chart_patterns self)) s) as [m0 |];
    [| discriminate].
  destruct (search (chart_type (chart_patterns self)) s) as [m |];
    [| discriminate].
  destruct (mem (group 1 m) (supported_chart_types self)) eqn:E;
    cbn [negb]; [| discriminate].
  intros H. inversion H. exists m. auto.
Qed.

Lemma extract_chart_metadata_unsupported (s : string) (m : match_obj) :
  search (chart_type (chart_patterns self)) s = Some m ->
  mem (group 1 m) (supported_chart_types self) = false ->
  _extract_chart_metadata self s = None.
Proof.
  intros Hm Hun. unfold _extract_chart_metadata.
  destruct (search (status_success (chart_patterns self)) s); [| reflexivity].
  rewrite Hm, Hun. reflexivity.
Qed.

(** What the pattern-based extraction answers. *)
Lemma pattern_parse_some (s : string) (r : dict) :
  pattern_parse self s = inr (Some r) ->
  exists m rec0 recs x ys,
    search (chart_type (chart_patterns self)) s = Some m
    /\ mem (group 1 m) (supported_chart_types self) = true
    /\ _extract_data_records self s (group 1 m) = rec0 :: recs
    /\ _detect_x_column self (PList (rec0 :: recs)) = inr x
    /\ _detect_y_columns self (PList (rec0 :: recs)) (PStr (group 1 m))
       = inr ys
    /\ r = [("status", PStr "success"); ("chart_type", PStr (group 1 m));
            ("data", PList (rec0 :: recs)); ("x", PStr x); ("y", PStrs ys)].
Proof.
  unfold pattern_parse.
  destruct (_extract_chart_metadata self s) as [chart_info |] eqn:Hmeta;
    [| discriminate].
  destruct (extract_chart_metadata_some s chart_info Hmeta)
    as (m & Hm & Hsup & ->).
  cbn [getitem_str dict_get String.eqb Ascii.eqb Bool.eqb bind ret].
  destruct (_extract_data_records self s (group 1 m)) as [| rec0 recs] eqn:Hrecs;
    [discriminate |].
  destruct (_detect_x_column self (PList (rec0 :: recs))) as [e | x] eqn:Hx;
    cbn [bind ret]; [discriminate |].
  destruct (_detect_y_columns self (PList (rec0 :: recs)) (PStr (group 1 m)))
    as [e | ys] eqn:Hy; cbn [bind ret]; [discriminate |].
  intros H. inversion H.
  exists m, rec0, recs, x, ys. repeat split; try assumption; reflexivity.
Qed.

(** Every record the extraction keeps passed the validation. *)
Lemma collect_in {A B} (f : A -> option B) (l : list A) (b : B) :
  In b (collect f l) -> exists a, In a l /\ f a = Some b.
Proof.
  induction l as [| a l IH]; cbn [collect]; [intros [] |].
  destruct (f a) as [b' |] eqn:E.
  - intros [-> | H].
    + exists a. split; [left; reflexivity | exact E].
    + destruct (IH H) as (a' & Hin & Hf). exists a'. split; [right |]; assumption.
  - intros H. destruct (IH H) as (a' & Hin & Hf).
    exists a'. split; [right |]; assumption.
Qed.

Lemma collect_all_none {A B} (f : A -> option B) (l : list A) :
  (forall a, In a l -> f a = None) -> collect f l = [].
Proof.
  induction l as [| a l IH]; cbn [collect]; [reflexivity |].
  intros H. rewrite (H a (or_introl eq_refl)).
  apply IH. intros a' Hin. apply H. right. exact Hin.
Qed.

Lemma record_of_match_valid (ct record_text : string) (rec : pyval) :
  record_of_match self ct record_text = Some rec ->
  _validate_record self rec ct = true.
Proof.
  unfold record_of_match.
  destruct (Json.loads record_text) as [e | record].
  - destruct (_extract_fields_manually self record_text) as [d |];
      [| discriminate].
    destruct (_validate_record self (PDict d) ct) eqn:E; [| discriminate].
    intros H. inversion H. subst rec. exact E.
  - destruct (_validate_record self record ct) eqn:E; [| discriminate].
    intros H. inversion H. subst rec. exact E.
Qed.

Lemma extract_data_records_valid (s ct : string) (rec : pyval) :
  In rec (_extract_data_records self s ct) ->
  _validate_record self rec ct = true.
Proof.
  unfold _extract_data_records.
  destruct (search (data_array_start (chart_patterns self)) s) as [m |];
    [| intros []].
  intros H. destruct (collect_in _ _ _ H) as (record_text & _ & Hrec).
  exact (record_of_match_valid ct record_text rec Hrec).
Qed.

Lemma validate_record_inv (rec : pyval) (ct : string) :
  _validate_record self rec ct = true ->
  exists d, rec = PDict d
            /\ forall field, In field (_get_required_fields self ct) ->
                             dict_has field d = true.
Proof.
  unfold _validate_record. destruct rec as [| | | | | | d]; try discriminate.
  intros H. exists d. split; [reflexivity |].
  intros field Hin. exact (proj1 (forallb_forall _ _) H field Hin).
Qed.

End ChartPaths.

(* ----------------------------------------------------------------- *)
(** ** Unsupported chart types *)

(** C5 (as amended). On a text that names no character beyond the
    alphabet: when the response is not error-shaped and the direct
    parse of the cleaned response gives no chart, a declared chart type
    (the first ["chart_type": "<value>"] of the text) outside the five
    supported ones makes [parse_response] answer None. *)
Theorem unsupported_chart_type_has_no_pattern_result :
  forall (s : string) (m : match_obj),
    Json.names_wide_char s = false ->
    _is_error_response parser s = false ->
    direct_parse_silent parser s ->
    search (chart_type (chart_patterns parser)) s = Some m ->
    mem (group 1 m) (supported_chart_types parser) = false ->
    parse_response parser s = None.
Proof.
  intros s m _ Herr Hsilent Hm Hun.
  apply parse_response_none_from_patterns; try assumption.
  unfold pattern_parse.
  rewrite (extract_chart_metadata_unsupported parser s m Hm Hun).
  reflexivity.
Qed.

Lemma unsupported_chart_type_has_no_pattern_result_witness :
  parse_response parser truncated_heatmap = None.
Proof.
  assert (Hm : exists m,
             search (chart_type (chart_patterns parser)) truncated_heatmap
             = Some m
             /\ group 1 m = "heatmap").
  { eexists. split; vm_compute; reflexivity. }
  destruct Hm as (m & Hm & Hg).
  apply (unsupported_chart_type_has_no_pattern_result truncated_heatmap m).
  - vm_compute; reflexivity.
  - vm_compute; reflexivity.
  - intros r H. vm_compute in H. discriminate.
  - exact Hm.
  - rewrite Hg. vm_compute; reflexivity.
Defined.

(** C5 fails as stated: the declared chart type is not a supported one
    and the answer is a success chart that carries it. *)
Lemma heatmap_returned_by_direct_parse :
  mem "heatmap" (supported_chart_types parser) = false
  /\ parse_response parser complete_heatmap
     = Some [("status", PStr "success"); ("chart_type", PStr "heatmap");
             ("data", PList [PDict [("day", PStr "Mon"); ("hour", PInt 9);
                                    ("visits", PInt 3)]]);
             ("x", PStr "day"); ("y", PStr "visits");
             ("data_count", PInt 1); ("data_complete", PBool true);
             ("parser_info", parser_info)].
Proof. split; vm_compute; reflexivity. Qed.

(* ----------------------------------------------------------------- *)
(** ** No valid record, no result *)

Lemma extract_data_records_candidates (self : RobustJSONParser.RobustJSONParser)
  (s ct : string) :
  _extract_data_records self s ct
  = collect (record_of_match self ct) (record_candidates self s).
Proof.
  unfold _extract_data_records, record_candidates.
  destruct (search (data_array_start (chart_patterns self)) s); reflexivity.
Qed.

(** C6 (as amended). On a text that names no character beyond the
    alphabet, when the response is not error-shaped and the direct
    parse of the cleaned response gives no chart: if every record
    candidate (every match of the record pattern after the start of the
    data array, to the end of the text) fails to load as JSON and
    survives no manual field extraction, [parse_response] answers None;
    and whatever chart it answers has a non-empty data list. *)
Theorem no_valid_record_no_result :
  forall s : string,
    Json.names_wide_char s = false ->
    _is_error_response parser s = false ->
    direct_parse_silent parser s ->
    ((forall record_text,
         In record_text (record_candidates parser s) ->
         loads_ok record_text = false
         /\ _extract_fields_manually parser record_text = None) ->
     parse_response parser s = None)
    /\ (forall r, parse_response parser s = Some r ->
                  exists rec0 recs,
                    dict_get "data" r = Some (PList (rec0 :: recs))).
Proof.
  intros s _ Herr Hsilent. split.
  - intros Hbad.
    apply parse_response_none_from_patterns; try assumption.
    unfold pattern_parse.
    destruct (_extract_chart_metadata parser s) as [chart_info |] eqn:Hmeta;
      [| reflexivity].
    destruct (extract_chart_metadata_some parser s chart_info Hmeta)
      as (m & _ & _ & ->).
    cbn [getitem_str dict_get String.eqb Ascii.eqb Bool.eqb bind ret].
    rewrite extract_data_records_candidates, collect_all_none; [reflexivity |].
    intros record_text Hin. destruct (Hbad record_text Hin) as [Hload Hmanual].
    unfold record_of_match. unfold loads_ok in Hload.
    destruct (Json.loads record_text); [| discriminate].
    rewrite Hmanual. reflexivity.
  - intros r Hr.
    destruct (pattern_parse_some parser s r
                (parse_response_from_patterns parser s r Herr Hsilent Hr))
      as (m & rec0 & recs & x & ys & _ & _ & _ & _ & _ & ->).
    exists rec0, recs. reflexivity.
Qed.

Lemma no_valid_record_no_result_witness :
  record_candidates parser broken_records
  = [js "{'Date': 2016, 'Close': }"; js "{'Open' 551.0}"]
  /\ parse_response parser broken_records = None.
Proof.
  assert (Hc : record_candidates parser broken_records
               = [js "{'Date': 2016, 'Close': }"; js "{'Open' 551.0}"])
    by (vm_compute; reflexivity).
  split; [exact Hc |].
  apply (proj1 (no_valid_record_no_result broken_records
                  ltac:(vm_compute; reflexivity)
                  ltac:(vm_compute; reflexivity)
                  ltac:(intros r H; vm_compute in H; discriminate))).
  intros record_text Hin. rewrite Hc in Hin.
  destruct Hin as [<- | [<- | []]]; split; vm_compute; reflexivity.
Defined.

(** C6 fails as stated: the data array of the first response holds one
    fragment, which does not load and survives no manual extraction, and
    the answer is a chart whose record is the totals object that stands
    after the array; the data array of the second response holds no
    record, and the answer is a success chart with an empty data list. *)
Lemma invalid_data_array_still_answered :
  (_is_error_response parser broken_record_then_totals = false
   /\ loads_ok (js "{'label': }") = false
   /\ _extract_fields_manually parser (js "{'label': }") = None
   /\ parse_response parser broken_record_then_totals
      = Some [("status", PStr "success"); ("chart_type", PStr "bar");
              ("data", PList [PDict [("visits", PInt 12); ("hours", PInt 3)]]);
              ("x", PStr "visits"); ("y", PStrs ["visits"]);
              ("data_count", PInt 1); ("data_complete", PBool true);
              ("parser_info", parser_info)])
  /\ (_is_error_response parser chart_without_records = false
      /\ parse_response parser chart_without_records
         = Some [("status", PStr "success"); ("chart_type", PStr "bar");
                 ("data", PList []);
                 ("data_count", PInt 0); ("data_complete", PBool true);
                 ("parser_info", parser_info)]).
Proof. repeat split; vm_compute; reflexivity. Qed.

(* ----------------------------------------------------------------- *)
(** ** What a chart built by the pattern-based extraction holds *)

Lemma dict_has_in (k : string) (v : pyval) (d : dict) :
  In (k, v) d -> dict_has k d = true.
Proof.
  unfold dict_has. induction d as [| [k' v'] d IH]; [intros [] |].
  cbn [dict_get]. destruct (String.eqb k k') eqn:E; [reflexivity |].
  intros [H | H].
  - inversion H; subst. rewrite String.eqb_refl in E. discriminate.
  - exact (IH H).
Qed.

Lemma in_firstn {A} (n : nat) (l : list A) (x : A) :
  In x (firstn n l) -> In x l.
Proof.
  intros H. rewrite <- (firstn_skipn n l). apply in_or_app. left. exact H.
Qed.

Lemma first_candidate_in_dict (candidates : list string) (d : dict) :
  exists hit,
    first_candidate_in candidates (PDict d) = inr hit
    /\ (forall c, hit = Some c -> dict_has c d = true)
    /\ (forall c rest, candidates = c :: rest -> dict_has c d = true ->
                       hit = Some c).
Proof.
  induction candidates as [| c rest (hit & IH & Hhas & _)];
    cbn [first_candidate_in py_in bind ret].
  - exists None. repeat split; intros; discriminate.
  - destruct (dict_has c d) eqn:E.
    + exists (Some c). repeat split.
      * intros c' H. inversion H; subst. exact E.
      * intros c' rest' H _. inversion H; subst. reflexivity.
    + exists hit. split; [exact IH |]. split; [exact Hhas |].
      intros c' rest' H Hc. inversion H; subst. congruence.
Qed.

(** The x column detected on records whose first one is a dict. *)
Lemma detect_x_column_first_record
  (self : RobustJSONParser.RobustJSONParser) (d0 : dict) (recs : list pyval)
  (x : string) :
  _detect_x_column self (PList (PDict d0 :: recs)) = inr x ->
  (d0 <> [] -> dict_has x d0 = true)
  /\ (dict_has "Date" d0 = true -> x = "Date").
Proof.
  unfold _detect_x_column. cbn [truthy negb getitem0 bind ret].
  destruct (first_candidate_in_dict x_candidates d0) as (hit & -> & Hhas & Hfirst).
  cbn [bind ret]. destruct hit as [c |].
  - intros H. inversion H; subst x. split.
    + intros _. exact (Hhas c eq_refl).
    + intros HDate.
      pose proof (Hfirst "Date" _ eq_refl HDate) as E. now inversion E.
  - destruct d0 as [| [k v] d0]; cbn [truthy py_keys dict_keys map fst bind ret].
    + intros H. split; [congruence |]. discriminate.
    + intros H. inversion H; subst x. split.
      * intros _. apply (dict_has_in k v). left. reflexivity.
      * intros HDate.
        pose proof (Hfirst "Date" _ eq_refl HDate). discriminate.
Qed.

(** The y columns detected on records whose first one is a dict. *)
Lemma detect_y_columns_first_record
  (self : RobustJSONParser.RobustJSONParser) (d0 : dict) (recs : list pyval)
  (ct : string) (ys : list string) :
  _detect_y_columns self (PList (PDict d0 :: recs)) (PStr ct) = inr ys ->
  (ct = "candlestick" -> ys = OHLC)
  /\ (ct <> "candlestick" -> forall y, In y ys -> dict_has y d0 = true).
Proof.
  unfold _detect_y_columns. cbn [truthy negb getitem0 py_items bind ret eq_str].
  set (numeric_fields :=
         map fst
           (filter (fun '(k, v) =>
                      isinstance_int_float v && negb (mem k ["Date"; "date"]))
              d0)).
  assert (Hnum : forall y, In y numeric_fields -> dict_has y d0 = true).
  { intros y Hy. apply in_map_iff in Hy. destruct Hy as ([k v] & <- & Hin).
    apply filter_In in Hin. exact (dict_has_in k v d0 (proj1 Hin)). }
  destruct (String.eqb ct "candlestick") eqn:Ec.
  - intros H. inversion H; subst ys. split; [reflexivity |].
    apply String.eqb_eq in Ec. congruence.
  - apply String.eqb_neq in Ec.
    assert (Hsub : forall l : list string,
               (forall y, In y l -> In y numeric_fields) ->
               (ret l : M (list string)) = inr ys ->
               (ct = "candlestick" -> ys = OHLC)
               /\ (ct <> "candlestick" ->
                   forall y, In y ys -> dict_has y d0 = true)).
    { intros l Hl H. inversion H; subst ys. split; [congruence |].
      intros _ y Hy. exact (Hnum y (Hl y Hy)). }
    destruct (String.eqb ct "scatter").
    { apply Hsub. destruct (Nat.leb 2 (List.length numeric_fields)); auto.
      intros y. apply in_firstn. }
    destruct (String.eqb ct "line" || String.eqb ct "bar").
    { apply Hsub. destruct numeric_fields as [| n0 nf]; [intros y [] |].
      intros y. apply in_firstn. }
    apply Hsub. auto.
Qed.

Lemma candlestick_requires_ohlc
  (self : RobustJSONParser.RobustJSONParser) (y : string) :
  In y OHLC -> In y (_get_required_fields self "candlestick").
Proof. cbn. tauto. Qed.

Lemma date_is_required (self : RobustJSONParser.RobustJSONParser) (ct : string) :
  In ct ["candlestick"; "scatter"; "line"] ->
  In "Date" (_get_required_fields self ct).
Proof.
  intros [<- | [<- | [<- | []]]]; cbn; tauto.
Qed.

(** C3 (as amended). A chart built by the pattern-based extraction (the
    response names no character beyond the alphabet, it is not
    error-shaped and the direct parse gave no chart) has status
    "success" and a non-empty data list; every record is a dict
    that holds the fields its chart type requires; x is a column of the
    first record when that record is not empty, and for candlestick,
    scatter and line charts it is "Date", which every record holds; y
    lists columns of the first record, and for a candlestick chart the
    four OHLC columns, which every record holds. *)
Theorem pattern_extraction_result_invariant :
  forall (s : string) (r : dict),
    Json.names_wide_char s = false ->
    _is_error_response parser s = false ->
    direct_parse_silent parser s ->
    parse_response parser s = Some r ->
    exists ct d0 recs x ys,
      r = [("status", PStr "success"); ("chart_type", PStr ct);
           ("data", PList (PDict d0 :: recs)); ("x", PStr x); ("y", PStrs ys)]
      /\ (forall rec, In rec (PDict d0 :: recs) ->
            exists d, rec = PDict d
                      /\ forall field,
                           In field (_get_required_fields parser ct) ->
                           dict_has field d = true)
      /\ (d0 <> [] -> dict_has x d0 = true)
      /\ (forall y, In y ys -> dict_has y d0 = true)
      /\ (In ct ["candlestick"; "scatter"; "line"] ->
          x = "Date"
          /\ forall rec, In rec (PDict d0 :: recs) ->
               exists d, rec = PDict d /\ dict_has "Date" d = true)
      /\ (ct = "candlestick" ->
          ys = OHLC
          /\ forall rec, In rec (PDict d0 :: recs) ->
               exists d, rec = PDict d
                         /\ forall y, In y ys -> dict_has y d = true).
Proof.
  intros s r _ Herr Hsilent Hr.
  destruct (pattern_parse_some parser s r
              (parse_response_from_patterns parser s r Herr Hsilent Hr))
    as (m & rec0 & recs & x & ys & _ & _ & Hrecs & Hx & Hy & ->).
  set (ct := group 1 m) in *.
  assert (Hvalid : forall rec, In rec (rec0 :: recs) ->
            exists d, rec = PDict d
                      /\ forall field,
                           In field (_get_required_fields parser ct) ->
                           dict_has field d = true).
  { intros rec Hin. apply validate_record_inv.
    apply (extract_data_records_valid parser s ct). rewrite Hrecs. exact Hin. }
  destruct (Hvalid rec0 (or_introl eq_refl)) as (d0 & -> & Hreq0).
  destruct (detect_x_column_first_record parser d0 recs x Hx) as [Hx_in Hx_date].
  destruct (detect_y_columns_first_record parser d0 recs ct ys Hy)
    as [Hy_candle Hy_first].
  exists ct, d0, recs, x, ys.
  split; [reflexivity |]. split; [exact Hvalid |]. split; [exact Hx_in |].
  split; [| split].
  - intros y Hin. destruct (String.eqb_spec ct "candlestick") as [E | E].
    + apply Hreq0. rewrite E. apply candlestick_requires_ohlc.
      rewrite <- (Hy_candle E). exact Hin.
    + exact (Hy_first E y Hin).
  - intros Hct. split.
    + apply Hx_date, Hreq0, date_is_required, Hct.
    + intros rec Hin. destruct (Hvalid rec Hin) as (d & -> & Hreq).
      exists d. split; [reflexivity |]. apply Hreq, date_is_required, Hct.
  - intros E. split; [exact (Hy_candle E) |].
    intros rec Hin. destruct (Hvalid rec Hin) as (d & -> & Hreq).
    exists d. split; [reflexivity |].
    intros y Hyin. apply Hreq. rewrite E. apply candlestick_requires_ohlc.
    rewrite <- (Hy_candle E). exact Hyin.
Qed.

Lemma pattern_extraction_result_invariant_witness :
  exists ct d0 recs x ys,
    [("status", PStr "success"); ("chart_type", PStr "scatter");
     ("data", PList scatter_records); ("x", PStr "Date");
     ("y", PStrs ["Open"; "Close"])]
    = [("status", PStr "success"); ("chart_type", PStr ct);
       ("data", PList (PDict d0 :: recs)); ("x", PStr x); ("y", PStrs ys)]
    /\ (forall rec, In rec (PDict d0 :: recs) ->
          exists d, rec = PDict d
                    /\ forall field,
                         In field (_get_required_fields parser ct) ->
                         dict_has field d = true)
    /\ (d0 <> [] -> dict_has x d0 = true)
    /\ (forall y, In y ys -> dict_has y d0 = true)
    /\ (In ct ["candlestick"; "scatter"; "line"] ->
        x = "Date"
        /\ forall rec, In rec (PDict d0 :: recs) ->
             exists d, rec = PDict d /\ dict_has "Date" d = true)
    /\ (ct = "candlestick" ->
        ys = OHLC
        /\ forall rec, In rec (PDict d0 :: recs) ->
             exists d, rec = PDict d
                       /\ forall y, In y ys -> dict_has y d = true).
Proof.
  apply (pattern_extraction_result_invariant truncated_scatter).
  - vm_compute; reflexivity.
  - vm_compute; reflexivity.
  - intros r H. vm_compute in H. discriminate.
  - vm_compute; reflexivity.
Defined.

(** C3 fails as stated: the first answer has status "success" and no
    data at all; the second has x = "region" and y = ["sales"], and its
    second record holds neither column. *)
Lemma success_without_matching_columns :
  parse_response parser success_without_data
  = Some [("status", PStr "success"); ("chart_type", PStr "line");
          ("parser_info", parser_info)]
  /\ parse_response parser truncated_mixed_bars
     = Some [("status", PStr "success"); ("chart_type", PStr "bar");
             ("data", PList [PDict [("region", PStr "North"); ("sales", PInt 10)];
                             PDict [("area", PStr "South"); ("total", PInt 7)]]);
             ("x", PStr "region"); ("y", PStrs ["sales"])]
  /\ dict_has "region" [("area", PStr "South"); ("total", PInt 7)] = false
  /\ dict_has "sales" [("area", PStr "South"); ("total", PInt 7)] = false.
Proof. repeat split; vm_compute; reflexivity. Qed.

(* ----------------------------------------------------------------- *)
(** ** The query router *)

Lemma keywords_are_lowercase :
  forall key kw, In kw (keywords key) -> lower kw = kw.
Proof.
  assert (H : forall l, forallb (fun kw => String.eqb (lower kw) kw) l = true ->
                        forall kw, In kw l -> lower kw = kw).
  { intros l Hl kw Hin. apply String.eqb_eq.
    exact (proj1 (forallb_forall _ l) Hl kw Hin). }
  intros key kw. unfold keywords, QUERY_KEYWORDS, keywords_in.
  repeat match goal with
         | |- context [if ?c then _ else _] => destruct c
         end;
    apply H; vm_compute; reflexivity.
Qed.

(** The loop finds a keyword exactly when some keyword of the list
    occurs. *)
Lemma first_keyword_existsb (l : list string) (q : string) :
  found (first_keyword l q) = existsb (fun kw => contains kw q) l.
Proof.
  induction l as [| kw l IH]; cbn [first_keyword existsb]; [reflexivity |].
  destruct (contains kw q); [reflexivity | exact IH].
Qed.

Lemma any_match_keywords (key q : string) :
  any_match (keywords key) q
  = existsb (fun kw => contains kw (lower q)) (keywords key).
Proof.
  unfold any_match. pose proof (keywords_are_lowercase key) as Hlow.
  induction (keywords key) as [| kw l IH]; cbn [existsb]; [reflexivity |].
  unfold matches_ci at 1. rewrite (Hlow kw (or_introl eq_refl)).
  f_equal. apply IH. intros kw' Hin. apply Hlow. right. exact Hin.
Qed.

Lemma first_keyword_any_match (key q : string) :
  found (first_keyword (keywords key) (lower q)) = any_match (keywords key) q.
Proof. rewrite any_match_keywords. apply first_keyword_existsb. Qed.

Lemma any_match_intro (l : list string) (kw q : string) :
  In kw l -> matches_ci kw q = true -> any_match l q = true.
Proof.
  intros Hin Hm. apply existsb_exists. exists kw. split; assumption.
Qed.

(** C7. The classification is the ordered-keyword algorithm of the
    specification: case-insensitive substring search in the dashboard
    list, then the chart list, then the table list, the first list with
    a match giving the intent and no match giving the general one; so a
    query that holds a dashboard keyword and a chart keyword is routed
    to the dashboard, never to the chart and table flow. *)
Theorem classify_query_is_ordered_keyword_search :
  (forall query, intent_of (_classify_query query) = reference_classify query)
  /\ (forall query kd kc,
        In kd (keywords "dashboard") -> In kc (keywords "chart") ->
        matches_ci kd query = true -> matches_ci kc query = true ->
        _classify_query query = "dashboard"
        /\ intent_of (_classify_query query) = Dashboard).
Proof.
  assert (Hrefine : forall query,
             intent_of (_classify_query query) = reference_classify query).
  { intros query.
    unfold reference_classify, ordered_lists, first_matching_list, _classify_query.
    rewrite <- !first_keyword_any_match.
    destruct (first_keyword (keywords "dashboard") (lower query));
      [reflexivity |].
    destruct (first_keyword (keywords "chart") (lower query));
      [reflexivity |].
    destruct (first_keyword (keywords "table") (lower query)); reflexivity. }
  split; [exact Hrefine |].
  intros query kd kc Hkd _ Hmd _.
  assert (Hd : any_match (keywords "dashboard") query = true)
    by (exact (any_match_intro _ kd query Hkd Hmd)).
  rewrite <- first_keyword_any_match in Hd.
  unfold _classify_query.
  destruct (first_keyword (keywords "dashboard") (lower query));
    [split; reflexivity | discriminate].
Qed.

Lemma classify_query_is_ordered_keyword_search_witness :
  _classify_query "Create a Dashboard with a bar chart" = "dashboard"
  /\ intent_of (_classify_query "Create a Dashboard with a bar chart")
     = Dashboard.
Proof.
  apply (proj2 classify_query_is_ordered_keyword_search
           "Create a Dashboard with a bar chart" "dashboard" "bar chart");
    vm_compute; auto 10.
Defined.

(* ----------------------------------------------------------------- *)
(** ** Column resolution for candlestick requests *)

Lemma first_record_columns_keys (r0 : pyval) :
  (if truthy r0 && isinstance_dict r0 then py_keys r0 else ret [])
  = ret (first_record_columns r0)
  /\ (if isinstance_dict r0 then py_keys r0 else ret [])
     = ret (first_record_columns r0).
Proof.
  destruct r0 as [| b | z | f | s | l | d];
    cbn [isinstance_dict py_keys first_record_columns];
    rewrite ?andb_false_r, ?andb_true_r; try (split; reflexivity).
  destruct d; split; reflexivity.
Qed.

(** C4 (as amended). With a non-empty record list and a declared y of
    four entries or more, [_process_chart_data] treats the request as a
    candlestick one: it fails unless Open, High, Low and Close are keys
    of the first record (the other records are not looked at), and when
    they are it resolves y to "Close"; a first record without Low makes
    it fail, no other column is put in its place. *)
Theorem candlestick_needs_ohlc_in_first_record :
  forall (chart_data : dict) (r0 : pyval) (rest ylist : list pyval),
    dict_get "data" chart_data = Some (PList (r0 :: rest)) ->
    dict_get "y" chart_data = Some (PList ylist) ->
    4 <= List.length ylist ->
    let columns := first_record_columns r0 in
    let x_col := resolved_x (dict_get_default "x" (PStr "") chart_data) columns in
    _process_chart_data (PDict chart_data)
    = (if forallb (fun col => mem col columns) candlestick_cols && truthy x_col
       then Some [("data", PList (r0 :: rest)); ("x_col", x_col);
                  ("y_col", PStr "Close"); ("columns", PStrs columns)]
       else None)
    /\ (mem "Low" columns = false -> _process_chart_data (PDict chart_data) = None).
Proof.
  intros chart_data r0 rest ylist Hdata Hy Hlen columns x_col.
  assert (Heq : _process_chart_data (PDict chart_data)
                = (if forallb (fun col => mem col columns) candlestick_cols
                      && truthy x_col
                   then Some [("data", PList (r0 :: rest)); ("x_col", x_col);
                              ("y_col", PStr "Close"); ("columns", PStrs columns)]
                   else None)).
  { unfold _process_chart_data, read_chart_data, dict_has, dict_get_default.
    rewrite Hdata, Hy. cbn [truthy andb py_len bind ret negb isinstance_list].
    unfold resolve_columns. cbn [getitem0 bind ret].
    destruct (first_record_columns_keys r0) as [-> ->].
    cbn [bind ret].
    apply Nat.leb_le in Hlen. rewrite Hlen.
    fold columns.
    destruct (forallb (fun col => mem col columns) candlestick_cols) eqn:Hall.
    - assert (Hnone : filter (fun col => negb (mem col columns)) candlestick_cols
                      = []).
      { unfold candlestick_cols in *. cbn [forallb filter] in *.
        repeat match goal with
               | H : (_ && _)%bool = true |- _ =>
                   apply andb_true_iff in H; destruct H
               end.
        repeat match goal with
               | H : mem _ columns = true |- _ => rewrite H; clear H
               end.
        reflexivity. }
      rewrite Hnone. subst x_col. unfold resolved_x, dict_get_default.
      set (X := match dict_get "x" chart_data with
                | Some v => v
                | None => PStr ""
                end).
      destruct columns as [| c0 cols]; [discriminate Hall |].
      change (truthy (PStr "Close")) with true.
      cbn [negb andb orb bind ret].
      destruct (truthy X) eqn:HX; cbn [negb andb orb bind ret].
      * rewrite HX. reflexivity.
      * destruct (truthy (PStr c0)); reflexivity.
    - assert (Hsome : exists c cs,
                 filter (fun col => negb (mem col columns)) candlestick_cols
                 = c :: cs).
      { unfold candlestick_cols in *. cbn [forallb filter] in *.
        destruct (mem "Open" columns); cbn [negb]; eauto.
        destruct (mem "High" columns); cbn [negb]; eauto.
        destruct (mem "Low" columns); cbn [negb]; eauto.
        destruct (mem "Close" columns); cbn [negb]; eauto.
        discriminate. }
      destruct Hsome as (c & cs & ->). reflexivity. }
  split; [exact Heq |].
  intros Hlow. rewrite Heq.
  unfold candlestick_cols. cbn [forallb]. rewrite Hlow.
  rewrite !andb_false_r. reflexivity.
Qed.

Lemma candlestick_needs_ohlc_in_first_record_witness :
  _process_chart_data
    (PDict (candlestick_request [record_without_low; ohlc_record])) = None.
Proof.
  apply (proj2 (candlestick_needs_ohlc_in_first_record
                  (candlestick_request [record_without_low; ohlc_record])
                  record_without_low [ohlc_record] (map PStr candlestick_cols)
                  eq_refl eq_refl ltac:(cbn; lia))).
  reflexivity.
Defined.

(** C4 fails as stated: the second record has no Low column, and the
    request is resolved all the same, with y = "Close". *)
Lemma candlestick_later_record_unchecked :
  In record_without_low [ohlc_record; record_without_low]
  /\ mem "Low" (first_record_columns record_without_low) = false
  /\ _process_chart_data
       (PDict (candlestick_request [ohlc_record; record_without_low]))
     = Some [("data", PList [ohlc_record; record_without_low]);
             ("x_col", PStr "Date"); ("y_col", PStr "Close");
             ("columns", PStrs ["Date"; "Open"; "High"; "Low"; "Close"])].
Proof.
  split; [right; left; reflexivity |].
  split; vm_compute; reflexivity.
Qed.

(* ----------------------------------------------------------------- *)
(** ** Defaults *)

Lemma first_keyword_none (l : list string) (q : string) :
  (forall kw, In kw l -> contains kw q = false) -> first_keyword l q = None.
Proof.
  induction l as [| kw l IH]; cbn [first_keyword]; [reflexivity |].
  intros H. rewrite (H kw (or_introl eq_refl)).
  apply IH. intros kw' Hin. apply H. right. exact Hin.
Qed.

(** X1. A query that holds none of the configured keywords, whatever
    the case of its letters, is routed to the main flow (the general
    intent). *)
Theorem classify_query_default :
  forall query,
    (forall key kw, In kw (keywords key) -> matches_ci kw query = false) ->
    _classify_query query = "main"
    /\ intent_of (_classify_query query) = General.
Proof.
  intros query H.
  assert (Hnone : forall key, first_keyword (keywords key) (lower query) = None).
  { intros key. apply first_keyword_none. intros kw Hin.
    specialize (H key kw Hin). unfold matches_ci in H.
    rewrite (keywords_are_lowercase key kw Hin) in H. exact H. }
  unfold _classify_query. rewrite !Hnone. split; reflexivity.
Qed.

Lemma classify_query_default_witness :
  _classify_query "What is the capital of France?" = "main"
  /\ intent_of (_classify_query "What is the capital of France?") = General.
Proof.
  apply classify_query_default.
  intros key kw. unfold keywords, QUERY_KEYWORDS, keywords_in.
  repeat match goal with
         | |- context [if ?c then _ else _] => destruct c
         end;
    intros Hin; cbn [In] in Hin;
    repeat match type of Hin with
           | _ \/ _ => destruct Hin as [<- | Hin]; [vm_compute; reflexivity |]
           end;
    contradiction.
Defined.

(** X2. A chart that holds records, the first of them a dict with
    non-empty column names, and whose x and y (the values under its
    keys "x" and "y", the empty text when a key is missing) are both
    falsy, is resolved by [_process_chart_data] to the first key of the
    first record for x and its second key for y; with one key only, x
    and y are that same column.  Whatever else the chart holds plays no
    part. *)
Theorem process_chart_data_default_columns :
  forall (chart_data : dict) (k1 : string) (v1 : pyval) (others : dict)
         (rest : list pyval),
    dict_get "data" chart_data
    = Some (PList (PDict ((k1, v1) :: others) :: rest)) ->
    truthy (dict_get_default "x" (PStr "") chart_data) = false ->
    truthy (dict_get_default "y" (PStr "") chart_data) = false ->
    k1 <> "" ->
    match others with
    | (k2, _) :: _ => k2 <> ""
    | [] => True
    end ->
    let d0 := (k1, v1) :: others in
    _process_chart_data (PDict chart_data)
    = Some [("data", PList (PDict d0 :: rest)); ("x_col", PStr k1);
            ("y_col", PStr (match others with
                            | (k2, _) :: _ => k2
                            | [] => k1
                            end));
            ("columns", PStrs (dict_keys d0))].
Proof.
  intros chart_data k1 v1 others rest Hdata Hx Hy Hk1 Hk2 d0. subst d0.
  apply String.eqb_neq in Hk1.
  unfold _process_chart_data, read_chart_data, resolve_columns.
  assert (Hhas : dict_has "data" chart_data = true)
    by (unfold dict_has; rewrite Hdata; reflexivity).
  assert (Hget : dict_get_default "data" PNone chart_data
                 = PList (PDict ((k1, v1) :: others) :: rest))
    by (unfold dict_get_default; rewrite Hdata; reflexivity).
  rewrite Hhas, !Hget.
  cbn [truthy andb negb py_len bind ret isinstance_list getitem0
       isinstance_dict py_keys dict_keys map fst].
  assert (Hcandle : match dict_get_default "y" (PStr "") chart_data with
                    | PList l => Nat.leb 4 (List.length l)
                    | _ => false
                    end = false).
  { destruct (dict_get_default "y" (PStr "") chart_data) as [| | | | | l |];
      try reflexivity.
    destruct l; [reflexivity | discriminate Hy]. }
  rewrite Hcandle, Hx, Hy.
  cbn [negb andb orb bind ret truthy String.eqb]. rewrite Hk1.
  cbn [negb andb orb bind ret].
  destruct others as [| [k2 v2] others'];
    cbn [List.length map fst nth truthy Nat.ltb Nat.leb andb].
  - rewrite Hk1. reflexivity.
  - apply String.eqb_neq in Hk2. rewrite Hk2. reflexivity.
Qed.

Lemma process_chart_data_default_columns_witness :
  dict_get "x" sales_by_region = Some (PStr "")
  /\ dict_get "y" sales_by_region = None
  /\ _process_chart_data (PDict sales_by_region)
     = Some [("data", PList [PDict [("region", PStr "North"); ("sales", PInt 10)];
                             PDict [("region", PStr "South"); ("sales", PInt 7)]]);
             ("x_col", PStr "region"); ("y_col", PStr "sales");
             ("columns", PStrs ["region"; "sales"])].
Proof.
  split; [reflexivity | split; [reflexivity |]].
  apply (process_chart_data_default_columns sales_by_region
           "region" (PStr "North") [("sales", PInt 10)]
           [PDict [("region", PStr "South"); ("sales", PInt 7)]]).
  - reflexivity.
  - reflexivity.
  - reflexivity.
  - discriminate.
  - discriminate.
Defined.

(* ================================================================= *)
(** * Properties of the rest of the code *)

(* ----------------------------------------------------------------- *)
(** ** Dictionaries and computations that return *)

Lemma dict_get_set (k k' : string) (v : pyval) (d : dict) :
  dict_get k (dict_set k' v d)
  = if String.eqb k k' then Some v else dict_get k d.
Proof.
  induction d as [| [k0 v0] d IH]; cbn [dict_set dict_get].
  - destruct (String.eqb k k'); reflexivity.
  - destruct (String.eqb k' k0) eqn:E0; cbn [dict_get].
    + apply String.eqb_eq in E0. subst k0.
      destruct (String.eqb k k'); reflexivity.
    + destruct (String.eqb k k0) eqn:E1.
      * apply String.eqb_eq in E1. subst k0.
        rewrite String.eqb_sym in E0. rewrite E0. reflexivity.
      * exact IH.
Qed.

Lemma dict_has_set (k k' : string) (v : pyval) (d : dict) :
  dict_has k (dict_set k' v d) = (String.eqb k k' || dict_has k d)%bool.
Proof.
  unfold dict_has. rewrite dict_get_set.
  destruct (String.eqb k k'); reflexivity.
Qed.

Lemma in_dict_set (k k' : string) (v v' : pyval) (d : dict) :
  In (k, v) (dict_set k' v' d) -> (k, v) = (k', v') \/ In (k, v) d.
Proof.
  induction d as [| [k0 v0] d IH]; cbn [dict_set].
  - intros [H | []]. left. symmetry. exact H.
  - destruct (String.eqb k' k0) eqn:E.
    + apply String.eqb_eq in E. subst k0.
      intros [H | H]; [left; symmetry; exact H | right; right; exact H].
    + intros [H | H]; [right; left; exact H |].
      destruct (IH H) as [H' | H']; [left; exact H' | right; right; exact H'].
Qed.

Lemma dict_has_mem_keys (k : string) (d : dict) :
  dict_has k d = mem k (dict_keys d).
Proof.
  unfold dict_has, mem, dict_keys.
  induction d as [| [k' v] d IH]; [reflexivity |].
  cbn [dict_get map fst existsb].
  destruct (String.eqb k k'); [reflexivity | exact IH].
Qed.

Lemma eq_str_default_get (k s : string) (d : dict) :
  eq_str (dict_get_default k PNone d) s = true -> dict_get k d = Some (PStr s).
Proof.
  unfold dict_get_default. destruct (dict_get k d) as [v |]; [| discriminate].
  destruct v; try discriminate. cbn [eq_str]. intros H.
  apply String.eqb_eq in H. subst. reflexivity.
Qed.

Lemma bind_inr {A B} (c : M A) (k : A -> M B) (b : B) :
  (x <- c ;; k x) = inr b -> exists a, c = inr a /\ k a = inr b.
Proof.
  destruct c as [e | a]; cbn [bind]; [discriminate |].
  intros H. exists a. split; [reflexivity | exact H].
Qed.

Lemma ret_inr {A} (a b : A) : (ret a : M A) = inr b -> a = b.
Proof. intros H. inversion H. reflexivity. Qed.

(** One step of a computation that returned. *)
Ltac bind_step H a Ha :=
  apply bind_inr in H; destruct H as (a & Ha & H).

(* ----------------------------------------------------------------- *)
(** ** What the enhancement keeps *)

Lemma keeps_fields_refl (d : dict) : keeps_fields d d.
Proof. intros k v H _. exact H. Qed.

Lemma keeps_fields_trans (a b c : dict) :
  keeps_fields a b -> keeps_fields b c -> keeps_fields a c.
Proof. intros H1 H2 k v H Hn. apply H2; [apply H1 |]; assumption. Qed.

(** A field that was missing can be set. *)
Lemma keeps_fields_fresh (k' : string) (v' : pyval) (d : dict) :
  dict_has k' d = false -> keeps_fields d (dict_set k' v' d).
Proof.
  intros Hf k v H _. rewrite dict_get_set.
  destruct (String.eqb_spec k k') as [-> | _]; [| exact H].
  unfold dict_has in Hf. rewrite H in Hf. discriminate.
Qed.

(** The three fields of the parser can be overwritten. *)
Lemma keeps_fields_own (k' : string) (v' : pyval) (d : dict) :
  In k' ["data_count"; "data_complete"; "parser_info"] ->
  keeps_fields d (dict_set k' v' d).
Proof.
  intros Hin k v H Hn. rewrite dict_get_set.
  destruct (String.eqb_spec k k') as [-> | _]; [contradiction | exact H].
Qed.

(** The steps of [_enhance_chart_data], one after the other. *)
Lemma enhance_chart_data_inv (self : RobustJSONParser.RobustJSONParser)
  (d e : dict) :
  _enhance_chart_data self d = inr e ->
  keeps_fields d e
  /\ dict_has "status" e = true
  /\ (dict_has "status" d = false -> dict_get "status" e = Some (PStr "success"))
  /\ dict_get "parser_info" e = Some parser_info
  /\ (dict_has "data" d = true ->
      exists n,
        py_len (dict_get_default "data" PNone d) = inr n
        /\ dict_get "data_count" e = Some (PInt n)
        /\ dict_get "data_complete" e = Some (PBool true)).
Proof.
  unfold _enhance_chart_data.
  set (e1 := if negb (dict_has "status" d)
             then dict_set "status" (PStr "success") d else d).
  assert (H1 : keeps_fields d e1).
  { subst e1. destruct (dict_has "status" d) eqn:E; cbn [negb].
    - apply keeps_fields_refl.
    - apply keeps_fields_fresh, E. }
  assert (S1 : dict_has "status" e1 = true).
  { subst e1. destruct (dict_has "status" d) eqn:E; cbn [negb]; [exact E |].
    rewrite dict_has_set. reflexivity. }
  assert (N1 : dict_has "status" d = false ->
               dict_get "status" e1 = Some (PStr "success")).
  { intros E. subst e1. rewrite E. cbn [negb]. rewrite dict_get_set.
    reflexivity. }
  assert (D1 : dict_get "data" e1 = dict_get "data" d).
  { subst e1. destruct (dict_has "status" d); cbn [negb]; [reflexivity |].
    rewrite dict_get_set. reflexivity. }
  set (data := dict_get_default "data" PNone e1).
  assert (Hdata : data = dict_get_default "data" PNone d).
  { subst data. unfold dict_get_default. rewrite D1. reflexivity. }
  clearbody data e1.
  intros H.
  bind_step H e2 H2. bind_step H e3 H3. bind_step H e4 H4.
  apply ret_inr in H. subst e.
  (* the chart type *)
  assert (K2 : keeps_fields e1 e2 /\ dict_has "status" e2 = true
               /\ dict_get "data" e2 = dict_get "data" e1).
  { destruct (negb (dict_has "chart_type" e1) && dict_has "data" e1) eqn:C.
    - bind_step H2 detected Hd. apply ret_inr in H2. subst e2.
      apply andb_prop in C. destruct C as [C _]. apply negb_true_iff in C.
      split; [apply keeps_fields_fresh, C |].
      rewrite dict_has_set, dict_get_set, S1, orb_true_r. split; reflexivity.
    - apply ret_inr in H2. subst e2.
      split; [apply keeps_fields_refl | split; [exact S1 | reflexivity]]. }
  destruct K2 as (K2 & S2 & D2).
  (* x and y *)
  assert (K3 : keeps_fields e2 e3 /\ dict_has "status" e3 = true
               /\ dict_get "data" e3 = dict_get "data" e2).
  { destruct (dict_has "data" e2 && truthy data).
    - bind_step H3 e_x Hx.
      assert (Kx : keeps_fields e2 e_x /\ dict_has "status" e_x = true
                   /\ dict_get "data" e_x = dict_get "data" e2).
      { destruct (dict_has "x" e2) eqn:C; cbn [negb] in Hx.
        - apply ret_inr in Hx. subst e_x.
          split; [apply keeps_fields_refl | split; [exact S2 | reflexivity]].
        - bind_step Hx x Hdx. apply ret_inr in Hx. subst e_x.
          split; [apply keeps_fields_fresh, C |].
          rewrite dict_has_set, dict_get_set, S2, orb_true_r.
          split; reflexivity. }
      destruct Kx as (Kx & Sx & Dx).
      destruct (dict_has "y" e_x) eqn:C; cbn [negb] in H3.
      + apply ret_inr in H3. subst e3.
        split; [exact Kx | split; [exact Sx | exact Dx]].
      + bind_step H3 y Hdy. apply ret_inr in H3. subst e3.
        split; [exact (keeps_fields_trans _ _ _ Kx (keeps_fields_fresh _ _ _ C)) |].
        rewrite dict_has_set, dict_get_set, Sx, orb_true_r.
        split; [reflexivity | exact Dx].
    - apply ret_inr in H3. subst e3.
      split; [apply keeps_fields_refl | split; [exact S2 | reflexivity]]. }
  destruct K3 as (K3 & S3 & D3).
  (* the count *)
  assert (K4 : keeps_fields e3 e4 /\ dict_has "status" e4 = true
               /\ (dict_has "data" e3 = true ->
                   exists n, py_len data = inr n
                             /\ dict_get "data_count" e4 = Some (PInt n)
                             /\ dict_get "data_complete" e4
                                = Some (PBool true))).
  { destruct (dict_has "data" e3) eqn:C.
    - bind_step H4 n Hn. apply ret_inr in H4. subst e4.
      split; [| split].
      + eapply keeps_fields_trans; apply keeps_fields_own; cbn; tauto.
      + rewrite !dict_has_set, S3, !orb_true_r. reflexivity.
      + intros _. exists n. rewrite !dict_get_set. cbn. auto.
    - apply ret_inr in H4. subst e4.
      split; [apply keeps_fields_refl | split; [exact S3 | discriminate]]. }
  destruct K4 as (K4 & S4 & C4).
  assert (K14 : keeps_fields e1 (dict_set "parser_info" parser_info e4)).
  { eapply keeps_fields_trans; [exact K2 |].
    eapply keeps_fields_trans; [exact K3 |].
    eapply keeps_fields_trans; [exact K4 |].
    apply keeps_fields_own. cbn; tauto. }
  split; [| split; [| split; [| split]]].
  - exact (keeps_fields_trans _ _ _ H1 K14).
  - rewrite dict_has_set, S4, orb_true_r. reflexivity.
  - intros E. apply K14; [exact (N1 E) |].
    cbn. intros [H | [H | [H | []]]]; discriminate.
  - rewrite dict_get_set. reflexivity.
  - intros Hd. rewrite <- Hdata.
    assert (Hd3 : dict_has "data" e3 = true).
    { unfold dict_has in *. rewrite D3, D2, D1. exact Hd. }
    destruct (C4 Hd3) as (n & Hn & Hc & Hcomp). exists n.
    rewrite !dict_get_set. cbn. auto.
Qed.

(** X3. Whatever [_enhance_chart_data] returns keeps every field the
    chart had, with its value, except [data_count], [data_complete] and
    [parser_info], which it writes itself.  The result has a status
    ("success" when there was none) and the parser's [parser_info];
    when the chart has a [data] field, [data_count] is the length of
    the data and [data_complete] is true. *)
Theorem enhance_chart_data_keeps_fields :
  forall d e : dict,
    _enhance_chart_data parser d = inr e ->
    (forall k v,
        dict_get k d = Some v ->
        ~ In k ["data_count"; "data_complete"; "parser_info"] ->
        dict_get k e = Some v)
    /\ dict_has "status" e = true
    /\ (dict_has "status" d = false ->
        dict_get "status" e = Some (PStr "success"))
    /\ dict_get "parser_info" e = Some parser_info
    /\ (dict_has "data" d = true ->
        exists n,
          py_len (dict_get_default "data" PNone d) = inr n
          /\ dict_get "data_count" e = Some (PInt n)
          /\ dict_get "data_complete" e = Some (PBool true)).
Proof.
  intros d e H.
  destruct (enhance_chart_data_inv parser d e H) as (Hk & Hs & Hn & Hp & Hc).
  split; [| split; [| split; [| split]]].
  - intros k v Hget Hown. exact (Hk k v Hget Hown).
  - exact Hs.
  - exact Hn.
  - exact Hp.
  - exact Hc.
Qed.

Lemma enhance_chart_data_keeps_fields_witness :
  exists e,
    _enhance_chart_data parser sales_chart = inr e
    /\ dict_get "y" e = Some (PStr "sales")
    /\ dict_get "data_count" e = Some (PInt 1).
Proof.
  eexists. split; [vm_compute; reflexivity |].
  split.
  - apply (proj1 (enhance_chart_data_keeps_fields sales_chart _
                    ltac:(vm_compute; reflexivity)) "y" (PStr "sales")).
    + reflexivity.
    + cbn. intros [H | [H | [H | []]]]; discriminate.
  - vm_compute; reflexivity.
Defined.

(* ----------------------------------------------------------------- *)
(** ** Records recovered field by field *)

Lemma Z_of_digits_acc_nonneg (s : string) (acc : Z) :
  (0 <= acc)%Z -> (0 <= Json.Z_of_digits_acc acc s)%Z.
Proof.
  revert acc. induction s as [| c s IH]; intros acc H;
    cbn [Json.Z_of_digits_acc].
  - exact H.
  - apply IH. unfold Json.digit_val. lia.
Qed.

(** The float of a decimal that is not negative is not negative. *)
Lemma float_of_decimal_nonneg (m e : Z) :
  (0 <= m)%Z -> nonnegative_float (PFloat (float_of_decimal m e)).
Proof.
  intros Hm. unfold float_of_decimal.
  destruct (decimal_overflows m e).
  - right. replace (m <? 0)%Z with false; [reflexivity |].
    symmetry. apply Z.ltb_ge. exact Hm.
  - left. destruct (decimal_underflows m e); eexists _, _;
      (split; [reflexivity | lia]).
Qed.

(** [float] of a text of digits is not negative. *)
Lemma py_float_nonneg (t : string) (v : pyval) :
  py_float t = inr v -> nonnegative_float v.
Proof.
  unfold py_float.
  destruct (Json.span_digits t) as [ds r].
  destruct ds as [| c ds]; [discriminate |].
  destruct r as [| c' fs].
  - intros H. inversion H. apply float_of_decimal_nonneg.
    apply Z_of_digits_acc_nonneg. lia.
  - destruct (Ascii.eqb_spec c' ".") as [-> | Hne].
    + destruct (Json.span_digits fs) as [[| c1 fs1] [| c2 r2]];
        try discriminate.
      intros H. inversion H. apply float_of_decimal_nonneg.
      apply Z_of_digits_acc_nonneg. lia.
    + intros H. exfalso. revert H.
      destruct c' as [[] [] [] [] [] [] [] []]; try discriminate.
      congruence.
Qed.

Lemma set_numeric_fields_shape (l : list (string * string)) (d d' : dict) :
  (forall k v, In (k, v) d -> manual_field k v) ->
  set_numeric_fields l d = inr d' ->
  forall k v, In (k, v) d' -> manual_field k v.
Proof.
  revert d. induction l as [| [name value] l IH]; intros d Hd;
    cbn [set_numeric_fields].
  - intros H. inversion H. subst d'. exact Hd.
  - destruct (String.eqb_spec name "Date") as [-> | Hne]; cbn [negb].
    + apply IH. exact Hd.
    + destruct (py_float value) as [e | v0] eqn:Hf; cbn [bind catch ret].
      * destruct (is_ValueError e); cbn [bind];
          [apply IH; exact Hd | discriminate].
      * apply IH. intros k v Hin.
        destruct (in_dict_set _ _ _ _ _ Hin) as [H | H]; [| exact (Hd k v H)].
        inversion H; subst k v. right. split; [exact Hne |].
        exact (py_float_nonneg value v0 Hf).
Qed.

(** X4. A record that [_extract_fields_manually] recovers has two
    fields at least; its ["Date"], if it has one, is a text, and every
    other field is a float that is not negative: a decimal, or the
    positive infinity that [float] makes of a numeral too long for a
    double (a value with a sign is not recovered). *)
Theorem manual_record_shape :
  forall (record_text : string) (record : dict),
    _extract_fields_manually parser record_text = Some record ->
    2 <= List.length record
    /\ forall k v, In (k, v) record -> manual_field k v.
Proof.
  intros t d. unfold _extract_fields_manually.
  match goal with |- context [set_numeric_fields ?l ?d0] =>
    set (matches := l); set (start := d0);
    assert (Hstart : forall k v, In (k, v) start -> manual_field k v) end.
  { subst start. destruct (search _ t) as [m |]; cbn [dict_set].
    - intros k v [H | []]. inversion H. left. split; [reflexivity |]. eauto.
    - intros k v []. }
  destruct (set_numeric_fields matches start) as [e | record] eqn:Hset;
    cbn [bind ret]; [discriminate |].
  destruct (Nat.ltb 1 (List.length record)) eqn:Hlen; [| discriminate].
  intros H. inversion H. subst d. split.
  - apply Nat.ltb_lt in Hlen. lia.
  - exact (set_numeric_fields_shape matches start record Hstart Hset).
Qed.

Lemma manual_record_shape_witness :
  Json.loads record_without_close = inl JSONDecodeError
  /\ _extract_fields_manually parser record_without_close
     = Some [("Date", PStr "2016-05-31"); ("Open", PFloat (FDec 5510 (-1)))]
  /\ manual_field "Open" (PFloat (FDec 5510 (-1))).
Proof.
  split; [vm_compute; reflexivity |].
  split; [vm_compute; reflexivity |].
  apply (proj2 (manual_record_shape record_without_close
                  [("Date", PStr "2016-05-31"); ("Open", PFloat (FDec 5510 (-1)))]
                  ltac:(vm_compute; reflexivity))).
  right. left. reflexivity.
Defined.

(* ----------------------------------------------------------------- *)
(** ** The function that puts the parser in the place of
       [extract_chart_data] *)

Lemma direct_parse_some (self : RobustJSONParser.RobustJSONParser)
  (c : string) (r : dict) :
  direct_parse self c = inr (Some r) ->
  exists d,
    eq_str (dict_get_default "status" PNone d) "success" = true
    /\ _enhance_chart_data self d = inr r.
Proof.
  unfold direct_parse. destruct (startswith "{" (strip c)); [| discriminate].
  destruct (Json.loads c) as [e | v]; cbn [bind catch ret].
  - destruct (is_JSONDecodeError e); discriminate.
  - destruct v as [| | | | | | d]; cbn [catch]; try discriminate.
    destruct (eq_str (dict_get_default "status" PNone d) "success") eqn:E;
      [| discriminate].
    destruct (_enhance_chart_data self d) as [e | enhanced] eqn:He;
      cbn [bind ret catch].
    + destruct (is_JSONDecodeError e); discriminate.
    + intros H. inversion H. subst r. exists d. split; [exact E | exact He].
Qed.

(** The three ways [parse_response] answers: an error result, an
    enhanced chart, a chart built from the patterns. *)
Lemma parse_response_some (self : RobustJSONParser.RobustJSONParser)
  (s : string) (r : dict) :
  parse_response self s = Some r ->
  (exists msg ty, r = error_result msg ty)
  \/ (exists d, dict_get "status" d = Some (PStr "success")
                /\ _enhance_chart_data self d = inr r)
  \/ pattern_parse self s = inr (Some r).
Proof.
  unfold parse_response. destruct (_is_error_response self s).
  - intros H. inversion H. left. apply extract_error_message_shape.
  - destruct (direct_parse self (_clean_truncated_response self s))
      as [e | [enhanced |]] eqn:Hd; cbn [bind ret].
    + discriminate.
    + intros H. inversion H. subst enhanced. right. left.
      destruct (direct_parse_some self _ r Hd) as (d & Hs & He).
      exists d. split; [exact (eq_str_default_get _ _ _ Hs) | exact He].
    + destruct (pattern_parse self s) as [e | [r' |]]; try discriminate.
      intros H. inversion H. right. right. reflexivity.
Qed.

(** An answer of [parse_response] that holds data is a success. *)
Lemma parse_response_status (s : string) (r : dict) :
  parse_response parser s = Some r ->
  dict_has "data" r = true ->
  dict_get "status" r = Some (PStr "success").
Proof.
  intros Hr Hdata.
  destruct (parse_response_some parser s r Hr)
    as [(msg & ty & ->) | [(d & Hs & He) | Hp]].
  - discriminate.
  - destruct (enhance_chart_data_inv parser d r He) as (Hk & _).
    apply Hk; [exact Hs |]. cbn. intros [H | [H | [H | []]]]; discriminate.
  - destruct (pattern_parse_some parser s r Hp)
      as (m & rec0 & recs & x & ys & _ & _ & _ & _ & _ & ->).
    reflexivity.
Qed.

(** X5. On a text that [_is_error_response] takes for an error,
    [extract_chart_data_robust] answers None: the error result of the
    parser has no [data] field, [get_parsing_stats] raises on it, and
    the cleaned message does not reach the caller. *)
Theorem error_response_gives_no_chart_data :
  forall response_text : string,
    _is_error_response parser response_text = true ->
    extract_chart_data_robust (PStr response_text) = None.
Proof.
  intros s Herr. unfold extract_chart_data_robust.
  destruct s as [| c s'] eqn:Es; [reflexivity |]. rewrite <- Es in *.
  fold parser. rewrite (parse_response_error_first parser s Herr).
  destruct (extract_error_message_shape parser s) as (msg & ty & ->).
  reflexivity.
Qed.

Lemma error_response_gives_no_chart_data_witness :
  (exists msg, parse_response parser table_error_with_data
               = Some (error_result msg "database"))
  /\ extract_chart_data_robust (PStr table_error_with_data) = None.
Proof.
  split; [eexists; vm_compute; reflexivity |].
  apply error_response_gives_no_chart_data. vm_compute; reflexivity.
Defined.

(** X6. Whatever [extract_chart_data_robust] returns is a chart under
    the key [json_generator_data] that has status "success" and a
    [data] field, whether it was passed through or parsed. *)
Theorem chart_data_robust_is_success_chart :
  forall (api_response : pyval) (chart_data : dict),
    extract_chart_data_robust api_response = Some chart_data ->
    exists d,
      chart_data = [("json_generator_data", PDict d)]
      /\ dict_get "status" d = Some (PStr "success")
      /\ dict_has "data" d = true.
Proof.
  intros api_response out. unfold extract_chart_data_robust.
  match goal with |- context [if ?c then _ else _] =>
    destruct c eqn:Hwf end.
  - intros H. inversion H. subst out.
    destruct api_response as [| | | | | | d]; try discriminate.
    exists d. split; [reflexivity |].
    apply andb_prop in Hwf. destruct Hwf as [Hwf _].
    apply andb_prop in Hwf. destruct Hwf as [Hwf Hd].
    apply andb_prop in Hwf. destruct Hwf as [_ Hs].
    split; [exact (eq_str_default_get _ _ _ Hs) | exact Hd].
  - match goal with |- context [match ?t with Some _ => _ | None => _ end] =>
      destruct t as [[| c text] |] end; try discriminate.
    set (response_text := String c text).
    fold parser.
    destruct (parse_response parser response_text) as [parsed_data |] eqn:Hp;
      [| discriminate].
    destruct (truthy (PDict parsed_data)) eqn:Ht; [| discriminate].
    destruct (get_parsing_stats parser response_text (Some parsed_data))
      as [e | stats] eqn:Hstats; cbn [bind ret]; [discriminate |].
    intros H. inversion H. subst out. exists parsed_data.
    split; [reflexivity |].
    assert (Hdata : dict_has "data" parsed_data = true).
    { revert Hstats. unfold get_parsing_stats. rewrite Ht.
      destruct (py_len _); cbn [bind ret]; [discriminate |].
      unfold getitem_str, dict_has.
      destruct (dict_get "data" parsed_data); [reflexivity | discriminate]. }
    split; [| exact Hdata].
    exact (parse_response_status response_text parsed_data Hp Hdata).
Qed.

Lemma chart_data_robust_is_success_chart_witness :
  exists d,
    extract_chart_data_robust (PStr truncated_scatter)
    = Some [("json_generator_data", PDict d)]
    /\ dict_get "status" d = Some (PStr "success")
    /\ dict_has "data" d = true.
Proof.
  destruct (chart_data_robust_is_success_chart (PStr truncated_scatter) _
              ltac:(vm_compute; reflexivity)) as (d & Hd & Hs & Hdata).
  exists d. split; [| split; assumption].
  rewrite <- Hd. vm_compute; reflexivity.
Defined.

(* ----------------------------------------------------------------- *)
(** ** Column names in titles and labels *)

Lemma map_chars_app (f : ascii -> ascii) (a b : string) :
  map_chars f (a ++ b) = map_chars f a ++ map_chars f b.
Proof. induction a as [| c a IH]; cbn; [reflexivity | now rewrite IH]. Qed.

Lemma drop_app_length (p r : string) : drop (String.length p) (p ++ r) = r.
Proof. induction p as [| c p IH]; [reflexivity | exact IH]. Qed.

(** Replacing a text by one that differs in case only changes the case
    only. *)
Lemma lower_replace_fuel (old new : string) (n : nat) (s : string) :
  lower old = lower new ->
  lower (replace_fuel n old new s) = lower s.
Proof.
  intros Hcase. revert s. induction n as [| n IH]; intros s;
    cbn [replace_fuel]; [reflexivity |].
  destruct (startswith old s) eqn:E.
  - destruct (startswith_inv old s E) as [r ->].
    rewrite drop_app_length. unfold lower in *.
    rewrite !map_chars_app, IH, Hcase. reflexivity.
  - destruct s as [| c s]; [reflexivity |].
    unfold lower in *. cbn [map_chars]. now rewrite IH.
Qed.

Lemma lower_replace (old new s : string) :
  lower old = lower new -> lower (replace old new s) = lower s.
Proof. apply lower_replace_fuel. Qed.

Lemma isspace_lower_char (c : ascii) : isspace (lower_char c) = isspace c.
Proof. destruct c as [[] [] [] [] [] [] [] []]; reflexivity. Qed.

Lemma title_lower_char (c : ascii) : title_char (lower_char c) = title_char c.
Proof. destruct c as [[] [] [] [] [] [] [] []]; reflexivity. Qed.

Lemma lower_char_idempotent (c : ascii) :
  lower_char (lower_char c) = lower_char c.
Proof. destruct c as [[] [] [] [] [] [] [] []]; reflexivity. Qed.

Lemma lower_idempotent (s : string) : lower (lower s) = lower s.
Proof.
  unfold lower. induction s as [| c s IH]; cbn [map_chars]; [reflexivity |].
  now rewrite lower_char_idempotent, IH.
Qed.

Lemma split_ws_lower (s : string) :
  split_ws (lower s) = map lower (split_ws s).
Proof.
  unfold lower. induction s as [| c s IH]; [reflexivity |].
  cbn [map_chars split_ws]. rewrite isspace_lower_char.
  destruct (isspace c); [exact IH |].
  destruct s as [| c' s']; [reflexivity |].
  cbn [map_chars] in *. rewrite isspace_lower_char.
  destruct (isspace c'); [cbn [map]; now rewrite IH |].
  rewrite IH. destruct (split_ws (String c' s')); reflexivity.
Qed.

Lemma capitalize_lower (w : string) : capitalize (lower w) = capitalize w.
Proof.
  destruct w as [| c w]; [reflexivity |].
  unfold lower. cbn [map_chars capitalize]. fold (lower w).
  now rewrite title_lower_char, lower_idempotent.
Qed.

Lemma capitalize_all_lower (l : list string) :
  capitalize_all (map lower l) = capitalize_all l.
Proof.
  induction l as [| w l IH]; [reflexivity |].
  cbn [map capitalize_all]. now rewrite capitalize_lower, IH.
Qed.

(** The capitalized words of a text depend on it up to case only. *)
Lemma capitalized_words_case (s t : string) :
  lower s = lower t ->
  capitalize_all (split_ws s) = capitalize_all (split_ws t).
Proof.
  intros H.
  rewrite <- (capitalize_all_lower (split_ws s)),
          <- (capitalize_all_lower (split_ws t)),
          <- !split_ws_lower, H.
  reflexivity.
Qed.

Import ChartBuilder.

(** X7. On a column name that is not empty, [_format_column_name]
    answers the words of the name (underscores and hyphens separate
    words, as white space does), each capitalized and joined by one
    space.  The five replacements that write ID, URL, API and SQL in
    capitals change nothing in the answer: the capitalization that
    follows lowers every letter but the first of each word. *)
Theorem format_column_name_abbreviations_lost :
  forall col_name : string,
    col_name <> "" ->
    _format_column_name (PStr col_name)
    = inr (option_map (join " ")
             (capitalize_all
                (split_ws (replace "-" " " (replace "_" " " col_name))))).
Proof.
  intros s Hs. unfold _format_column_name.
  cbn [truthy]. destruct (String.eqb_spec s "") as [E | _]; [contradiction |].
  cbn [negb py_replace bind ret]. unfold ret. do 2 f_equal.
  apply capitalized_words_case.
  rewrite (lower_replace "sql" "SQL"), (lower_replace "api" "API"),
    (lower_replace "url" "URL"), (lower_replace "Id" "ID"),
    (lower_replace "id" "ID"); reflexivity.
Qed.

Lemma format_column_name_abbreviations_lost_witness :
  _format_column_name (PStr "user_id") = inr (Some "User Id")
  /\ replace "id" "ID" (replace "_" " " "user_id") = "user ID".
Proof.
  split; [| vm_compute; reflexivity].
  rewrite (format_column_name_abbreviations_lost "user_id"); [| discriminate].
  vm_compute; reflexivity.
Defined.

(* ----------------------------------------------------------------- *)
(** ** Chart types *)

Lemma startswith_refl (s : string) : startswith s s = true.
Proof.
  induction s as [| c s IH]; [reflexivity |].
  cbn [startswith]. now rewrite Ascii.eqb_refl, IH.
Qed.

Lemma contains_refl (s : string) : contains s s = true.
Proof. destruct s; cbn [contains]; now rewrite startswith_refl. Qed.

(** [create_chart] on a chart type and on the name it holds. *)
Lemma create_chart_family (lib : Plotting) (chart_data : pyval)
  (t title : string) :
  create_chart lib chart_data (PStr t) title
  = match chart_family t with
    | Some name => create_chart lib chart_data (PStr name) title
    | None => None
    end.
Proof.
  unfold chart_family, chart_families, create_chart.
  cbn [py_lower bind ret List.find].
  set (n := strip (lower t)).
  destruct (contains "scatter" n) eqn:E1.
  { change (strip (lower "scatter")) with "scatter". reflexivity. }
  destruct (contains "bar" n) eqn:E2.
  { change (strip (lower "bar")) with "bar". reflexivity. }
  destruct (contains "pie" n) eqn:E3.
  { change (strip (lower "pie")) with "pie". reflexivity. }
  destruct (contains "line" n) eqn:E4.
  { change (strip (lower "line")) with "line". reflexivity. }
  destruct (contains "candlestick" n) eqn:E5.
  { change (strip (lower "candlestick")) with "candlestick". reflexivity. }
  replace (mem n supported_types) with false; [reflexivity |].
  symmetry. unfold mem, supported_types. cbn [existsb].
  repeat match goal with
         | |- (String.eqb n ?name || _)%bool = false =>
             destruct (String.eqb_spec n name) as [Heq | _];
             [exfalso; pose proof (contains_refl n) as Hc;
              rewrite Heq in Hc at 1; congruence |]; cbn [orb]
         end.
  reflexivity.
Qed.

(** X8. [create_chart] reads a chart type through the first of the
    names scatter, bar, pie, line and candlestick that it holds, in
    that order and whatever the case and the white space around: the
    chart is the one of that name ("Line and Bar" is a bar chart), and a
    chart type that holds none of them gives no chart. *)
Theorem create_chart_reads_chart_family :
  forall (lib : Plotting) (chart_data : pyval) (chart_type title : string),
    (forall name,
        chart_family chart_type = Some name ->
        create_chart lib chart_data (PStr chart_type) title
        = create_chart lib chart_data (PStr name) title)
    /\ (chart_family chart_type = None ->
        create_chart lib chart_data (PStr chart_type) title = None).
Proof.
  intros lib chart_data t title. split.
  - intros name H. rewrite create_chart_family, H. reflexivity.
  - intros H. rewrite create_chart_family, H. reflexivity.
Qed.

Lemma create_chart_reads_chart_family_witness :
  chart_family " Line and Bar " = Some "bar"
  /\ create_chart plain_plotting (PDict sales_chart_xy)
       (PStr " Line and Bar ") "Sales"
     = create_chart plain_plotting (PDict sales_chart_xy) (PStr "bar") "Sales"
  /\ create_chart plain_plotting (PDict sales_chart_xy) (PStr "bar") "Sales"
     = Some (PList [PDict [("region", PStr "North"); ("sales", PInt 10)]],
             PStr "sales").
Proof.
  split; [vm_compute; reflexivity |].
  split; [| vm_compute; reflexivity].
  apply (proj1 (create_chart_reads_chart_family plain_plotting
                  (PDict sales_chart_xy) " Line and Bar " "Sales") "bar").
  vm_compute; reflexivity.
Defined.

(* ----------------------------------------------------------------- *)
(** ** Columns given as a list *)

(** A declared y list too short for a candlestick is left as it is. *)
Lemma resolve_columns_short_list (data x_col x' y' : pyval)
  (ys : list pyval) :
  1 <= List.length ys < 4 ->
  resolve_columns data x_col (PList ys) = inr (Some (x', y')) ->
  y' = PList ys.
Proof.
  intros Hlen. unfold resolve_columns.
  destruct (getitem0 data) as [e | data0]; cbn [bind ret]; [discriminate |].
  destruct (if truthy data0 && isinstance_dict data0
            then py_keys data0 else ret []) as [e | columns];
    cbn [bind ret]; [discriminate |].
  assert (Hc : Nat.leb 4 (List.length ys) = false) by (apply Nat.leb_gt; lia).
  rewrite Hc.
  assert (Hty : truthy (PList ys) = true).
  { destruct ys; [cbn in Hlen; lia | reflexivity]. }
  rewrite Hty. cbn [negb andb].
  destruct columns; intros H; inversion H; reflexivity.
Qed.

(** What [_process_chart_data] answers for a chart that holds data and
    declares such a list. *)
Lemma process_chart_data_keeps_short_list (d processed : dict)
  (ys : list pyval) :
  truthy (dict_get_default "data" PNone d) = true ->
  dict_get "y" d = Some (PList ys) ->
  1 <= List.length ys < 4 ->
  _process_chart_data (PDict d) = Some processed ->
  exists data x_col columns,
    processed = [("data", data); ("x_col", x_col); ("y_col", PList ys);
                 ("columns", columns)].
Proof.
  intros Hdata Hy Hlen. unfold _process_chart_data, read_chart_data.
  assert (Hhas : dict_has "data" d = true).
  { unfold dict_has, dict_get_default in *.
    destruct (dict_get "data" d); [reflexivity | discriminate]. }
  rewrite Hhas, Hdata. cbn [andb].
  set (data := dict_get_default "data" PNone d) in *.
  assert (Hyd : dict_get_default "y" (PStr "") d = PList ys).
  { unfold dict_get_default. rewrite Hy. reflexivity. }
  rewrite Hyd.
  destruct (py_len data) as [e | n]; cbn [bind ret]; [discriminate |].
  rewrite Hdata. cbn [negb].
  destruct (isinstance_list data); cbn [negb]; [| discriminate].
  destruct (resolve_columns data (dict_get_default "x" (PStr "") d) (PList ys))
    as [e | [[x' y'] |]] eqn:Hres; cbn [bind ret]; try discriminate.
  rewrite (resolve_columns_short_list _ _ _ _ _ Hlen Hres).
  destruct (negb (truthy x') || negb (truthy (PList ys))); [discriminate |].
  destruct (getitem0 data) as [e | data0]; cbn [bind ret]; [discriminate |].
  destruct (if isinstance_dict data0 then py_keys data0 else ret [])
    as [e | columns]; cbn [bind ret]; [discriminate |].
  intros H. inversion H. eauto.
Qed.

(** A list has no [replace]. *)
Lemma format_column_name_list (l : list pyval) :
  l <> [] -> _format_column_name (PList l) = inl AttributeError.
Proof. destruct l; [congruence | reflexivity]. Qed.

(** A chart with labelled axes raises when its y column is a list,
    whatever the libraries do. *)
Lemma labelled_chart_list_y (lib : Plotting)
  (figure : DataFrame lib -> pyval -> pyval -> option string ->
            option string -> option string -> M (Figure lib))
  (data x_col columns : pyval) (ys : list pyval) (title : option string) :
  ys <> [] ->
  exists e,
    labelled_chart lib figure
      [("data", data); ("x_col", x_col); ("y_col", PList ys);
       ("columns", columns)] title = inl e.
Proof.
  intros Hys. unfold labelled_chart.
  cbn [getitem_str dict_get String.eqb Ascii.eqb Bool.eqb bind ret].
  destruct (pd_DataFrame lib data) as [e | df]; cbn [bind]; [eauto |].
  destruct (_format_column_name x_col) as [e | x_label]; cbn [bind]; [eauto |].
  rewrite (format_column_name_list ys Hys). cbn [bind]. eauto.
Qed.

(** Evaluation of the tests [create_chart] makes on a chart type that
    is one of the five names. *)
Ltac named_chart_type name :=
  cbn [py_lower bind ret];
  let n := eval vm_compute in (strip (lower name)) in
  change (strip (lower name)) with n;
  repeat match goal with
         | |- context [contains ?a name] =>
             let b := eval vm_compute in (contains a name) in
             change (contains a name) with b
         end;
  cbn iota;
  let m := eval vm_compute in (mem name supported_types) in
  change (mem name supported_types) with m;
  repeat match goal with
         | |- context [String.eqb name ?a] =>
             let b := eval vm_compute in (String.eqb name a) in
             change (String.eqb name a) with b
         end;
  cbn [negb truthy]; cbn iota.

(** The three chart types with labelled axes, by name. *)
Lemma named_chart_list_y (lib : Plotting) (d : dict) (ys : list pyval)
  (name title : string) :
  truthy (dict_get_default "data" PNone d) = true ->
  dict_get "y" d = Some (PList ys) ->
  1 <= List.length ys < 4 ->
  In name ["bar"; "line"; "scatter"] ->
  create_chart lib (PDict d) (PStr name) title = None.
Proof.
  intros Hdata Hy Hlen Hname.
  assert (Hys : ys <> []) by (destruct ys; [cbn in Hlen; lia | discriminate]).
  unfold create_chart.
  destruct (_process_chart_data (PDict d)) as [processed |] eqn:Hp.
  - destruct (process_chart_data_keeps_short_list d processed ys
                Hdata Hy Hlen Hp) as (data & x_col & columns & ->).
    destruct Hname as [<- | [<- | [<- | []]]].
    + named_chart_type "bar". unfold _create_bar_chart.
      match goal with |- context [labelled_chart lib ?f ?p ?ti] =>
        destruct (labelled_chart_list_y lib f data x_col columns ys ti Hys)
          as [e ->] end.
      reflexivity.
    + named_chart_type "line". unfold _create_line_chart.
      match goal with |- context [labelled_chart lib ?f ?p ?ti] =>
        destruct (labelled_chart_list_y lib f data x_col columns ys ti Hys)
          as [e ->] end.
      reflexivity.
    + named_chart_type "scatter". unfold _create_scatter_chart.
      match goal with |- context [labelled_chart lib ?f ?p ?ti] =>
        destruct (labelled_chart_list_y lib f data x_col columns ys ti Hys)
          as [e ->] end.
      reflexivity.
  - destruct Hname as [<- | [<- | [<- | []]]].
    + named_chart_type "bar". reflexivity.
    + named_chart_type "line". reflexivity.
    + named_chart_type "scatter". reflexivity.
Qed.

(** X9. A chart that holds data and gives its y column as a list of
    one, two or three entries is never drawn as a bar, line or scatter
    chart: [_process_chart_data] passes the list on as the y column,
    [_format_column_name] raises on it when the axis is labelled, and
    [create_chart] answers None, whatever pandas and plotly do. *)
Theorem list_y_is_not_drawn :
  forall (lib : Plotting) (chart_data : dict) (ys : list pyval)
         (chart_type title : string),
    truthy (dict_get_default "data" PNone chart_data) = true ->
    dict_get "y" chart_data = Some (PList ys) ->
    1 <= List.length ys < 4 ->
    In (chart_family chart_type) [Some "bar"; Some "line"; Some "scatter"] ->
    create_chart lib (PDict chart_data) (PStr chart_type) title = None.
Proof.
  intros lib d ys t title Hdata Hy Hlen Hfam. rewrite create_chart_family.
  destruct Hfam as [<- | [<- | [<- | []]]];
    apply (named_chart_list_y lib d ys); try assumption; cbn; tauto.
Qed.

Lemma list_y_is_not_drawn_witness :
  create_chart plain_plotting (PDict sales_chart_list_y)
    (PStr "Stacked Bar Chart") "" = None
  /\ create_chart plain_plotting (PDict sales_chart_xy)
       (PStr "Stacked Bar Chart") ""
     = Some (PList [PDict [("region", PStr "North"); ("sales", PInt 10)]],
             PStr "sales").
Proof.
  split; [| vm_compute; reflexivity].
  apply (list_y_is_not_drawn plain_plotting sales_chart_list_y [PStr "sales"]).
  - reflexivity.
  - reflexivity.
  - cbn; lia.
  - vm_compute; auto.
Defined.

(* ----------------------------------------------------------------- *)
(** ** From the parser to the chart *)

(** The y columns detected for a bar, line or scatter chart: two at
    most. *)
Lemma detect_y_columns_short (self : RobustJSONParser.RobustJSONParser)
  (records : pyval) (ct : string) (ys : list string) :
  In ct ["bar"; "line"; "scatter"] ->
  _detect_y_columns self records (PStr ct) = inr ys ->
  List.length ys <= 2.
Proof.
  intros Hct. unfold _detect_y_columns.
  destruct (truthy records); cbn [negb].
  2: { intros H. inversion H. cbn. lia. }
  destruct (getitem0 records) as [e | sample]; cbn [bind ret]; [discriminate |].
  destruct (py_items sample) as [e | items]; cbn [bind ret]; [discriminate |].
  set (numeric_fields := map fst (filter _ items)).
  destruct Hct as [<- | [<- | [<- | []]]];
    cbn [eq_str String.eqb Ascii.eqb Bool.eqb orb];
    intros H; apply ret_inr in H; subst ys.
  - destruct numeric_fields; cbn; lia.
  - destruct numeric_fields; cbn; lia.
  - destruct (Nat.leb 2 (List.length numeric_fields)) eqn:E.
    + rewrite length_firstn. lia.
    + apply Nat.leb_gt in E. lia.
Qed.

(** X10. A bar, line or scatter chart that [parse_response] builds
    from the patterns (on a response that names no character beyond the
    alphabet, is not error-shaped and gets no chart from the direct
    parse) with a y column or more (the numeric columns it detects in
    the first record) is not drawn: [create_chart] on the parser's
    answer and its chart type gives None.  The truncated scatter
    response of the specification is such a chart. *)
Theorem pattern_chart_with_y_columns_is_not_drawn :
  forall (lib : Plotting) (response_text : string) (chart : dict)
         (chart_type title : string),
    Json.names_wide_char response_text = false ->
    _is_error_response parser response_text = false ->
    direct_parse_silent parser response_text ->
    parse_response parser response_text = Some chart ->
    dict_get "chart_type" chart = Some (PStr chart_type) ->
    In chart_type ["bar"; "line"; "scatter"] ->
    dict_get "y" chart <> Some (PList []) ->
    create_chart lib (PDict chart) (PStr chart_type) title = None.
Proof.
  intros lib s r ct title _ Herr Hsilent Hr Hct Hin Hy.
  destruct (pattern_parse_some parser s r
              (parse_response_from_patterns parser s r Herr Hsilent Hr))
    as (m & rec0 & recs & x & ys & _ & _ & _ & _ & Hys & ->).
  assert (Hm : group 1 m = ct) by (cbn in Hct; congruence).
  clear Hct. rewrite Hm in *.
  assert (Hlen : 1 <= List.length (map PStr ys) < 4).
  { rewrite length_map. split.
    - destruct ys; [exfalso; apply Hy; reflexivity | cbn; lia].
    - pose proof (detect_y_columns_short parser _ ct ys Hin Hys). lia. }
  match goal with |- create_chart lib (PDict ?d) _ _ = _ =>
    exact (named_chart_list_y lib d (map PStr ys) ct title
             eq_refl eq_refl Hlen Hin) end.
Qed.

Lemma pattern_chart_with_y_columns_is_not_drawn_witness :
  exists chart,
    parse_response parser truncated_scatter = Some chart
    /\ dict_get "y" chart = Some (PStrs ["Open"; "Close"])
    /\ create_chart plain_plotting (PDict chart) (PStr "scatter")
         "Open and Close" = None.
Proof.
  eexists. split; [vm_compute; reflexivity |].
  split; [reflexivity |].
  apply (pattern_chart_with_y_columns_is_not_drawn plain_plotting
           truncated_scatter).
  - vm_compute; reflexivity.
  - vm_compute; reflexivity.
  - intros r H. vm_compute in H. discriminate.
  - vm_compute; reflexivity.
  - reflexivity.
  - cbn; tauto.
  - discriminate.
Defined.

(** X11. A candlestick chart that [parse_response] builds from the
    patterns (on a response that names no character beyond the
    alphabet, is not error-shaped and gets no chart from the direct
    parse) is accepted by [_process_chart_data], which resolves x to
    "Date" and y to "Close" and lists the columns of the first
    record. *)
Theorem pattern_candlestick_is_processed :
  forall (response_text : string) (chart : dict),
    Json.names_wide_char response_text = false ->
    _is_error_response parser response_text = false ->
    direct_parse_silent parser response_text ->
    parse_response parser response_text = Some chart ->
    dict_get "chart_type" chart = Some (PStr "candlestick") ->
    exists d0 recs,
      dict_get "data" chart = Some (PList (PDict d0 :: recs))
      /\ _process_chart_data (PDict chart)
         = Some [("data", PList (PDict d0 :: recs)); ("x_col", PStr "Date");
                 ("y_col", PStr "Close"); ("columns", PStrs (dict_keys d0))].
Proof.
  intros s r _ Herr Hsilent Hr Hct.
  destruct (pattern_parse_some parser s r
              (parse_response_from_patterns parser s r Herr Hsilent Hr))
    as (m & rec0 & recs & x & ys & _ & _ & Hrecs & Hx & Hys & ->).
  assert (Hm : group 1 m = "candlestick") by (cbn in Hct; congruence).
  clear Hct. rewrite Hm in *.
  destruct (validate_record_inv parser rec0 "candlestick") as (d0 & -> & Hreq).
  { apply (extract_data_records_valid parser s "candlestick").
    rewrite Hrecs. left. reflexivity. }
  destruct (detect_x_column_first_record parser d0 recs x Hx) as [_ HxDate].
  rewrite (HxDate (Hreq "Date" ltac:(cbn; tauto))).
  destruct (detect_y_columns_first_record parser d0 recs "candlestick" ys Hys)
    as [Hcandle _].
  rewrite (Hcandle eq_refl).
  exists d0, recs.
  split; [reflexivity |].
  unfold _process_chart_data, read_chart_data.
  cbn [dict_has dict_get dict_get_default String.eqb Ascii.eqb Bool.eqb
       truthy andb py_len bind ret negb isinstance_list].
  unfold resolve_columns. cbn [getitem0 bind ret].
  assert (Hd0 : truthy (PDict d0) = true).
  { pose proof (Hreq "Date" ltac:(cbn; tauto)) as H.
    destruct d0; [discriminate H | reflexivity]. }
  rewrite Hd0. cbn [isinstance_dict andb py_keys bind ret].
  assert (Hmem : forall col, In col candlestick_cols ->
                             mem col (dict_keys d0) = true).
  { intros col Hcol. rewrite <- dict_has_mem_keys. apply Hreq.
    cbn in Hcol |- *. tauto. }
  unfold OHLC, PStrs, candlestick_cols in *.
  cbn [map List.length Nat.leb filter].
  rewrite !Hmem by (cbn; tauto). cbn [negb].
  destruct (dict_keys d0) as [| c0 cols] eqn:Hk.
  { destruct d0; [discriminate Hd0 | discriminate Hk]. }
  cbn [truthy String.eqb negb andb orb bind ret List.length Nat.ltb Nat.leb nth].
  reflexivity.
Qed.

Lemma pattern_candlestick_is_processed_witness :
  exists chart d0 recs,
    parse_response parser truncated_candlestick = Some chart
    /\ dict_get "data" chart = Some (PList (PDict d0 :: recs))
    /\ _process_chart_data (PDict chart)
       = Some [("data", PList (PDict d0 :: recs)); ("x_col", PStr "Date");
               ("y_col", PStr "Close"); ("columns", PStrs (dict_keys d0))].
Proof.
  destruct (pattern_candlestick_is_processed truncated_candlestick _
              ltac:(vm_compute; reflexivity)
              ltac:(vm_compute; reflexivity)
              ltac:(intros r H; vm_compute in H; discriminate)
              ltac:(vm_compute; reflexivity)
              ltac:(reflexivity)) as (d0 & recs & Hdata & Hp).
  eexists. exists d0, recs. split; [vm_compute; reflexivity |].
  split; [exact Hdata | exact Hp].
Defined.

(** The y columns the enhancement detects. *)
Lemma enhance_chart_data_detects_y (self : RobustJSONParser.RobustJSONParser)
  (d e : dict) :
  _enhance_chart_data self d = inr e ->
  truthy (dict_get_default "data" PNone d) = true ->
  dict_has "y" d = false ->
  exists ys,
    _detect_y_columns self (dict_get_default "data" PNone d)
      (dict_get_default "chart_type" (PStr "line") e) = inr ys
    /\ dict_get "y" e = Some (PStrs ys)
    /\ dict_get "data" e = dict_get "data" d.
Proof.
  unfold _enhance_chart_data. intros H Hdata Hy.
  assert (Hhas : dict_has "data" d = true).
  { unfold dict_has, dict_get_default in *.
    destruct (dict_get "data" d); [reflexivity | discriminate]. }
  set (e1 := if negb (dict_has "status" d)
             then dict_set "status" (PStr "success") d else d) in H.
  assert (G1 : forall k, k <> "status" -> dict_get k e1 = dict_get k d).
  { intros k Hk. subst e1. destruct (dict_has "status" d); cbn [negb];
      [reflexivity |].
    rewrite dict_get_set. destruct (String.eqb_spec k "status"); congruence. }
  assert (Ed : dict_get_default "data" PNone e1 = dict_get_default "data" PNone d).
  { unfold dict_get_default. rewrite G1 by discriminate. reflexivity. }
  rewrite Ed in H. clearbody e1.
  set (data := dict_get_default "data" PNone d) in *.
  bind_step H e2 H2. bind_step H e3 H3. bind_step H e4 H4.
  apply ret_inr in H. subst e.
  assert (G2 : dict_get "y" e2 = dict_get "y" d
               /\ dict_get "data" e2 = dict_get "data" d).
  { destruct (negb (dict_has "chart_type" e1) && dict_has "data" e1).
    - bind_step H2 detected Hd. apply ret_inr in H2. subst e2.
      rewrite !dict_get_set. cbn. split; apply G1; discriminate.
    - apply ret_inr in H2. subst e2. split; apply G1; discriminate. }
  destruct G2 as [Y2 D2].
  assert (Hhas2 : dict_has "data" e2 = true).
  { unfold dict_has in *. rewrite D2. exact Hhas. }
  rewrite Hhas2, Hdata in H3. cbn [andb] in H3.
  bind_step H3 e_x Hx.
  assert (Gx : dict_get "y" e_x = dict_get "y" e2
               /\ dict_get "data" e_x = dict_get "data" e2).
  { destruct (dict_has "x" e2); cbn [negb] in Hx.
    - apply ret_inr in Hx. subst e_x. split; reflexivity.
    - bind_step Hx x Hdx. apply ret_inr in Hx. subst e_x.
      rewrite !dict_get_set. cbn. split; reflexivity. }
  destruct Gx as [Yx Dx].
  assert (Hyx : dict_has "y" e_x = false).
  { unfold dict_has in *. rewrite Yx, Y2. exact Hy. }
  rewrite Hyx in H3. cbn [negb] in H3.
  bind_step H3 ys Hys. apply ret_inr in H3. subst e3.
  assert (Hhas3 : dict_has "data" (dict_set "y" (PStrs ys) e_x) = true).
  { rewrite dict_has_set. cbn. unfold dict_has in *. rewrite Dx. exact Hhas2. }
  rewrite Hhas3 in H4.
  bind_step H4 n Hn. apply ret_inr in H4. subst e4.
  exists ys. split; [| split].
  - unfold dict_get_default in *. rewrite !dict_get_set. cbn. exact Hys.
  - rewrite !dict_get_set. reflexivity.
  - rewrite !dict_get_set. cbn. rewrite Dx. exact D2.
Qed.

(** X22. A chart that holds data and declares no y gets its y from
    [_enhance_chart_data] as a list; when that list is not empty and
    the chart type is bar, line or scatter, [create_chart] on the
    enhanced chart gives None, whatever pandas and plotly do: the
    enhancement takes away what [_process_chart_data] would have
    resolved by itself. *)
Theorem detected_y_is_not_drawn :
  forall (lib : Plotting) (d e : dict) (chart_type title : string),
    _enhance_chart_data parser d = inr e ->
    truthy (dict_get_default "data" PNone d) = true ->
    dict_has "y" d = false ->
    dict_get "chart_type" e = Some (PStr chart_type) ->
    In chart_type ["bar"; "line"; "scatter"] ->
    dict_get "y" e <> Some (PList []) ->
    create_chart lib (PDict e) (PStr chart_type) title = None.
Proof.
  intros lib d e ct title He Hdata Hy Hct Hin Hne.
  destruct (enhance_chart_data_detects_y parser d e He Hdata Hy)
    as (ys & Hys & Hye & Hde).
  assert (Hcte : dict_get_default "chart_type" (PStr "line") e = PStr ct).
  { unfold dict_get_default. rewrite Hct. reflexivity. }
  rewrite Hcte in Hys.
  assert (Hlen : 1 <= List.length (map PStr ys) < 4).
  { rewrite length_map. split.
    - destruct ys; [exfalso; apply Hne; exact Hye | cbn; lia].
    - pose proof (detect_y_columns_short parser _ ct ys Hin Hys). lia. }
  apply (named_chart_list_y lib e (map PStr ys) ct title); try assumption.
  unfold dict_get_default in *. rewrite Hde. exact Hdata.
Qed.

Lemma detected_y_is_not_drawn_witness :
  exists e,
    _enhance_chart_data parser undeclared_columns_chart = inr e
    /\ dict_get "y" e = Some (PStrs ["sales"])
    /\ create_chart plain_plotting (PDict e) (PStr "bar") "" = None
    /\ create_chart plain_plotting (PDict undeclared_columns_chart)
         (PStr "bar") ""
       = Some (PList [PDict [("region", PStr "North"); ("sales", PInt 10)]],
               PStr "sales").
Proof.
  eexists. split; [vm_compute; reflexivity |].
  split; [reflexivity |]. split; [| vm_compute; reflexivity].
  apply (detected_y_is_not_drawn plain_plotting undeclared_columns_chart).
  - vm_compute; reflexivity.
  - reflexivity.
  - reflexivity.
  - reflexivity.
  - cbn; tauto.
  - discriminate.
Defined.

(* ----------------------------------------------------------------- *)
(** ** Data fit for a chart *)

(** Induction on a value and on the values it holds. *)
Lemma pyval_nested_ind (P : pyval -> Prop) :
  P PNone -> (forall b, P (PBool b)) -> (forall z, P (PInt z)) ->
  (forall f, P (PFloat f)) -> (forall s, P (PStr s)) ->
  (forall l, Forall P l -> P (PList l)) ->
  (forall d, Forall (fun kv => P (snd kv)) d -> P (PDict d)) ->
  forall v, P v.
Proof.
  intros HN HB HI HF HS HL HD. fix IH 1. intros [| b | z | f | s | l | d].
  - exact HN.
  - apply HB.
  - apply HI.
  - apply HF.
  - apply HS.
  - apply HL. induction l as [| x l IHl]; constructor; [apply IH | exact IHl].
  - apply HD.
    induction d as [| [k x] d IHd]; constructor; [apply IH | exact IHd].
Qed.

(** [validate_chart_data] on a dict: the answer on its data. *)
Lemma validate_chart_data_dict (d : dict) :
  validate_chart_data (PDict d)
  = match dict_get "data" d with
    | Some v => validate_chart_data v
    | None => false
    end.
Proof.
  destruct d as [| [k v] d]; [reflexivity |].
  cbn [validate_chart_data truthy negb dict_get].
  destruct (String.eqb "data" k); [reflexivity |].
  induction d as [| [k' v'] d IH]; [reflexivity |].
  cbn [dict_get]. destruct (String.eqb "data" k'); [reflexivity | exact IH].
Qed.

Lemma dict_get_in (k : string) (v : pyval) (d : dict) :
  dict_get k d = Some v -> exists k', In (k', v) d.
Proof.
  induction d as [| [k' v'] d IH]; [discriminate |].
  cbn [dict_get]. destruct (String.eqb k k').
  - intros E. inversion E. subst. exists k'. left. reflexivity.
  - intros E. destruct (IH E) as [k0 Hk]. exists k0. right. exact Hk.
Qed.

(** X12. [validate_chart_data] accepts exactly the lists whose first
    element is a dict of two fields or more, and the dicts that hold
    accepted data under "data", at any depth.  Only the first record
    is looked at: what follows it may be anything. *)
Theorem validate_chart_data_accepts :
  forall data : pyval,
    validate_chart_data data = true <-> chartable data.
Proof.
  intros data. split.
  - induction data as [| b | z | f | s | l IH | d IH] using pyval_nested_ind;
      try (cbn [validate_chart_data];
           match goal with
           | |- (if ?c then _ else _) = _ -> _ => destruct c
           end;
           discriminate).
    + destruct l as [| [| | | | | | first_record] rest]; try discriminate.
      cbn [validate_chart_data truthy negb]. intros H.
      constructor. apply Nat.leb_le. exact H.
    + rewrite validate_chart_data_dict.
      destruct (dict_get "data" d) as [v |] eqn:E; [| discriminate].
      intros H. apply (chartable_wrapped d v E).
      destruct (dict_get_in _ _ _ E) as [k Hk].
      exact (proj1 (Forall_forall _ _) IH (k, v) Hk H).
  - induction 1 as [first_record rest Hlen | d v E _ IH].
    + cbn [validate_chart_data truthy negb]. apply Nat.leb_le. exact Hlen.
    + rewrite validate_chart_data_dict, E. exact IH.
Qed.

(* ----------------------------------------------------------------- *)
(** ** The API client *)

Import APIClient.

(** What the loop over the fields finds. *)
Lemma embedded_json_some (fields : list string) (result parsed : pyval) :
  embedded_json fields result = inr (Some parsed) ->
  exists field text d,
    In field fields
    /\ getitem_str field result = inr (PStr text)
    /\ Json.loads text = inr (PDict d)
    /\ dict_has "status" d = true
    /\ parsed = PDict d.
Proof.
  induction fields as [| field rest IH]; cbn [embedded_json]; [discriminate |].
  destruct (py_in field result) as [e | has_field]; cbn [bind ret];
    [discriminate |].
  assert (Hrest : embedded_json rest result = inr (Some parsed) ->
                  exists field0 text d,
                    In field0 (field :: rest)
                    /\ getitem_str field0 result = inr (PStr text)
                    /\ Json.loads text = inr (PDict d)
                    /\ dict_has "status" d = true
                    /\ parsed = PDict d).
  { intros H. destruct (IH H) as (f & t & d & Hin & Hrest).
    exists f, t, d. split; [right; exact Hin | exact Hrest]. }
  destruct has_field; cbn [bind ret]; [| exact Hrest].
  destruct (getitem_str field result) as [e | v] eqn:Hget; cbn [bind ret];
    [discriminate |].
  destruct v as [| | | | text | |]; cbn [bind ret]; try exact Hrest.
  destruct (Json.loads text) as [e | parsed_json] eqn:Hload;
    cbn [bind ret catch].
  - destruct (is_JSONDecodeError e); cbn [bind ret];
      [exact Hrest | discriminate].
  - destruct parsed_json as [| | | | | | d];
      cbn [isinstance_dict py_in bind ret catch]; try exact Hrest.
    destruct (dict_has "status" d) eqn:Hs; cbn [bind ret]; [| exact Hrest].
    intros H. inversion H. subst parsed.
    exists field, text, d. repeat split; try assumption. left. reflexivity.
Qed.

(** X13. [_process_json_generator_response] answers the result it is
    given, or a dict that has a status and is the JSON text of one of
    the fields response, message, content, data and result of that
    result.  It never raises and never builds anything else. *)
Theorem processed_json_is_input_or_embedded :
  forall result : pyval,
    _process_json_generator_response result = result
    \/ exists field text d,
         In field possible_fields
         /\ getitem_str field result = inr (PStr text)
         /\ Json.loads text = inr (PDict d)
         /\ dict_has "status" d = true
         /\ _process_json_generator_response result = PDict d.
Proof.
  intros result. unfold _process_json_generator_response.
  match goal with |- context [bind ?c _] =>
    destruct c as [e | is_chart] end; cbn [bind ret]; [left; reflexivity |].
  destruct is_chart; [left; reflexivity |].
  destruct (embedded_json possible_fields result) as [e | [parsed |]] eqn:E;
    cbn [bind ret]; try (left; reflexivity).
  right.
  destruct (embedded_json_some _ _ _ E) as (f & t & d & H1 & H2 & H3 & H4 & ->).
  exists f, t, d. auto.
Qed.

(** The three answers of the router. *)
Lemma classify_query_values (query : string) :
  In (_classify_query query) ["dashboard"; "json_generator"; "main"].
Proof.
  unfold _classify_query.
  destruct (first_keyword _ _); [cbn; tauto |].
  destruct (first_keyword _ _); [cbn; tauto |].
  destruct (first_keyword _ _); cbn; tauto.
Qed.

(** What a request answers, or leaves to [send_query]. *)
Lemma send_to_shape (net : Services) (self : BlueverseAPIClient)
  (api : Config.space) (name api_used : string) (process : pyval -> pyval)
  (query : string) :
  (exists data, send_to net self api name api_used process query
                = inr (succeeded data api_used))
  \/ (exists error, send_to net self api name api_used process query
                    = inr (failed error))
  \/ (exists message, send_to net self api name api_used process query
                      = inl (OtherException message)).
Proof.
  unfold send_to.
  destruct (requests_post net _ _ _ _) as [[message | message] | response].
  - right. left. eauto.
  - right. right. eauto.
  - destruct (Z.eqb (status_code response) 200).
    + destruct (json response) as [[message | message] | result].
      * right. left. eauto.
      * right. right. eauto.
      * left. eauto.
    + right. left. eauto.
Qed.

(** The two shapes of an answer of [send_query]. *)
Lemma send_query_shape (net : Services) (self : BlueverseAPIClient)
  (query : string) :
  (exists data,
      send_query net self query = succeeded data (_classify_query query))
  \/ (exists error, send_query net self query = failed error).
Proof.
  unfold send_query.
  destruct (classify_query_values query) as [E | [E | [E | []]]];
    rewrite <- E; cbn [String.eqb Ascii.eqb Bool.eqb].
  - unfold _create_live_dashboard.
    destruct (create_dashboard_from_query net query) as [e | [data | error]];
      eauto.
  - unfold _send_to_json_generator.
    destruct (send_to_shape net self Config.json_generator "JSON Generator API"
                "json_generator" _process_json_generator_response query)
      as [[data ->] | [[error ->] | [message ->]]]; eauto.
  - unfold _send_to_main_api.
    destruct (send_to_shape net self Config.main_api "Main API" "main"
                (fun result => result) query)
      as [[data ->] | [[error ->] | [message ->]]]; eauto.
Qed.

(** X14. Whatever the network and the dashboard manager answer or
    raise, [send_query] answers one of two dicts: success, data and
    api_used, where api_used is what [_classify_query] says of the
    query; or success False and an error text. *)
Theorem send_query_answer_shape :
  forall (net : Services) (self : BlueverseAPIClient) (query : string),
    (exists data,
        send_query net self query
        = [("success", PBool true); ("data", data);
           ("api_used", PStr (_classify_query query))])
    \/ (exists error,
           send_query net self query
           = [("success", PBool false); ("error", PStr error)]).
Proof. intros net self query. exact (send_query_shape net self query). Qed.

(** X15. [send_query] uses one service for a query: a dashboard query
    is answered from the dashboard manager's answer to it and sends no
    request; any other query is answered from the network and does not
    reach the dashboard manager. *)
Theorem send_query_uses_one_service :
  forall (net net' : Services) (self : BlueverseAPIClient) (query : string),
    (if String.eqb (_classify_query query) "dashboard"
     then create_dashboard_from_query net query
          = create_dashboard_from_query net' query
     else forall url h p t,
         requests_post net url h p t = requests_post net' url h p t) ->
    send_query net self query = send_query net' self query.
Proof.
  intros net net' self query.
  unfold send_query, _create_live_dashboard, _send_to_json_generator,
    _send_to_main_api, send_to.
  destruct (classify_query_values query) as [E | [E | [E | []]]];
    rewrite <- E; cbn [String.eqb Ascii.eqb Bool.eqb]; intros H;
    rewrite H; reflexivity.
Qed.

Lemma send_query_uses_one_service_witness :
  send_query offline_services (__init__ "token") "create dashboard of sales"
  = send_query online_services (__init__ "token") "create dashboard of sales"
  /\ send_query offline_services (__init__ "token") "sales by region"
     <> send_query online_services (__init__ "token") "sales by region".
Proof.
  split; [| vm_compute; discriminate].
  apply (send_query_uses_one_service offline_services online_services).
  vm_compute; reflexivity.
Defined.

(** X16. On an answer of [send_query], [ResponseProcessor] finds no
    dashboard response and no chart response, and finds an error
    response exactly when success is False: [process_response] on it
    formats an error or a general response, never a dashboard or a
    chart. *)
Theorem send_query_answer_kind :
  forall (net : Services) (self : BlueverseAPIClient) (query : string),
    let answer := PDict (send_query net self query) in
    ResponseProcessor._is_dashboard_response answer = inr false
    /\ ResponseProcessor._is_chart_response answer = inr false
    /\ ResponseProcessor._is_error_response answer
       = inr (ResponseProcessor.is_False
                (dict_get_default "success" PNone
                   (send_query net self query))).
Proof.
  intros net self query. cbn zeta.
  destruct (send_query_shape net self query)
    as [[data ->] | [error ->]]; repeat split; reflexivity.
Qed.

(* ----------------------------------------------------------------- *)
(** ** File names *)

Import Utils.

Section CharClass.

Variable f : ascii -> bool.

(** Where a search for one character of the class stops. *)
Lemma search_from_Cls (s : string) :
  forall i,
    match search_from (Cls f) s i with
    | Some m =>
        exists pre a,
          s = pre ++ String a (m_rest m)
          /\ m_start m = i + String.length pre
          /\ all_chars (fun c => negb (f c)) pre = true
          /\ f a = true
          /\ m_group0 m = String a EmptyString
    | None => all_chars (fun c => negb (f c)) s = true
    end.
Proof.
  induction s as [| c s IH]; intros i; cbn [search_from run].
  - reflexivity.
  - destruct (f c) eqn:E.
    + exists EmptyString, c. cbn [append String.length m_rest m_start m_group0].
      repeat split; try assumption; [lia |].
      cbn [String.length].
      replace (S (String.length s) - String.length s) with 1 by lia.
      reflexivity.
    + specialize (IH (S i)).
      destruct (search_from (Cls f) s (S i)) as [m |].
      * destruct IH as (pre & a & Hs & Hstart & Hpre & Ha & Hg).
        exists (String c pre), a. cbn [append String.length all_chars].
        rewrite E, Hpre. repeat split; try assumption; [congruence | lia].
      * cbn [all_chars]. rewrite E. exact IH.
Qed.

Lemma take_app_length (pre r : string) :
  take (String.length pre) (pre ++ r) = pre.
Proof.
  induction pre as [| c pre IH]; [destruct r; reflexivity |].
  cbn. now rewrite IH.
Qed.

Lemma remove_chars_none (s : string) :
  all_chars (fun c => negb (f c)) s = true -> remove_chars f s = s.
Proof.
  induction s as [| c s IH]; [reflexivity |]. cbn [all_chars remove_chars].
  destruct (f c); [discriminate |]. cbn [negb andb]. intros H. now rewrite IH.
Qed.

Lemma remove_chars_app (a b : string) :
  remove_chars f (a ++ b) = remove_chars f a ++ remove_chars f b.
Proof.
  induction a as [| c a IH]; [reflexivity |]. cbn [append remove_chars].
  destruct (f c); [exact IH | cbn [append]; now rewrite IH].
Qed.

(** [re.sub] of one character of a class by nothing. *)
Lemma re_sub_Cls (n : nat) :
  forall s, String.length s < n ->
    sub_matches "" s (finditer_fuel n (Cls f) s) = remove_chars f s.
Proof.
  induction n as [| n IH]; intros s Hn; [lia |].
  cbn [finditer_fuel]. unfold search.
  pose proof (search_from_Cls s 0) as Hs.
  destruct (search_from (Cls f) s 0) as [m |].
  - destruct Hs as (pre & a & Hs & Hstart & Hpre & Ha & Hg).
    rewrite Hg.
    assert (Hlen : String.length (m_rest m) < n).
    { rewrite Hs, length_append in Hn. cbn [String.length] in Hn. lia. }
    cbn [sub_matches]. rewrite (IH _ Hlen), Hstart. cbn [Nat.add append].
    rewrite Hs. rewrite take_app_length, remove_chars_app.
    cbn [remove_chars]. rewrite Ha, (remove_chars_none pre Hpre). reflexivity.
  - cbn [sub_matches]. symmetry. apply remove_chars_none. exact Hs.
Qed.

(** The longest run of the class at the head of a text. *)
Lemma star_loop_Cls (n : nat) :
  forall s g,
    String.length s < n ->
    star_loop (run (Cls f)) n s g (fun s' g' => Some (s', g'))
    = Some (drop_while f s, g).
Proof.
  induction n as [| n IH]; intros s g Hn; [lia |].
  cbn [star_loop run]. destruct s as [| c s]; [reflexivity |].
  cbn [drop_while]. destruct (f c); [| reflexivity].
  cbn [String.length] in *.
  replace (Nat.ltb (String.length s) (S (String.length s))) with true
    by (symmetry; apply Nat.ltb_lt; lia).
  rewrite IH by lia. reflexivity.
Qed.

Lemma drop_while_length (s : string) :
  String.length (drop_while f s) <= String.length s.
Proof.
  induction s as [| c s IH]; [cbn; lia |]. cbn [drop_while].
  destruct (f c); cbn [String.length]; lia.
Qed.

(** Where a search for a run of the class stops. *)
Lemma search_from_Plus_Cls (s : string) :
  forall i,
    match search_from (Plus (Cls f)) s i with
    | Some m =>
        exists pre a s',
          s = pre ++ String a s'
          /\ m_start m = i + String.length pre
          /\ all_chars (fun c => negb (f c)) pre = true
          /\ f a = true
          /\ m_rest m = drop_while f s'
          /\ m_group0 m <> EmptyString
    | None => all_chars (fun c => negb (f c)) s = true
    end.
Proof.
  induction s as [| c s IH]; intros i; unfold Plus; cbn [search_from run].
  - reflexivity.
  - destruct (f c) eqn:E.
    + rewrite star_loop_Cls by lia.
      exists EmptyString, c, s.
      cbn [append String.length m_rest m_start m_group0].
      repeat split; try assumption; [lia |].
      pose proof (drop_while_length s).
      replace (S (String.length s) - String.length (drop_while f s))
        with (S (String.length s - String.length (drop_while f s))) by lia.
      discriminate.
    + specialize (IH (S i)). unfold Plus in IH.
      destruct (search_from (Seq (Cls f) (Star (Cls f))) s (S i)) as [m |].
      * destruct IH as (pre & a & s' & Hs & Hstart & Hpre & Ha & Hr & Hg).
        exists (String c pre), a, s'. cbn [append String.length all_chars].
        rewrite E, Hpre. repeat split; try assumption; [congruence | lia].
      * cbn [all_chars]. rewrite E. exact IH.
Qed.

Lemma squeeze_none (repl s : string) :
  all_chars (fun c => negb (f c)) s = true -> squeeze f repl s = s.
Proof.
  induction s as [| c s IH]; [reflexivity |]. cbn [all_chars squeeze].
  destruct (f c); [discriminate |]. cbn [negb andb]. intros H. now rewrite IH.
Qed.

Lemma squeeze_app (repl pre r : string) :
  all_chars (fun c => negb (f c)) pre = true ->
  squeeze f repl (pre ++ r) = pre ++ squeeze f repl r.
Proof.
  induction pre as [| c pre IH]; [reflexivity |].
  cbn [all_chars append squeeze].
  destruct (f c); [discriminate |]. cbn [negb andb]. intros H. now rewrite IH.
Qed.

Lemma squeeze_run (repl : string) (s : string) :
  forall a, f a = true ->
    squeeze f repl (String a s) = repl ++ squeeze f repl (drop_while f s).
Proof.
  induction s as [| c s IH]; intros a Ha.
  - cbn [squeeze drop_while]. rewrite Ha. now rewrite append_empty_r.
  - change (squeeze f repl (String a (String c s)))
      with (if f a
            then if f c then squeeze f repl (String c s)
                 else repl ++ squeeze f repl (String c s)
            else String a (squeeze f repl (String c s))).
    rewrite Ha. cbn [drop_while]. destruct (f c) eqn:E.
    + exact (IH c E).
    + reflexivity.
Qed.

(** [re.sub] of the runs of a class. *)
Lemma re_sub_Plus_Cls (repl : string) (n : nat) :
  forall s, String.length s < n ->
    sub_matches repl s (finditer_fuel n (Plus (Cls f)) s) = squeeze f repl s.
Proof.
  induction n as [| n IH]; intros s Hn; [lia |].
  cbn [finditer_fuel]. unfold search.
  pose proof (search_from_Plus_Cls s 0) as Hs.
  destruct (search_from (Plus (Cls f)) s 0) as [m |].
  - destruct Hs as (pre & a & s' & Hs & Hstart & Hpre & Ha & Hr & Hg).
    assert (Hlen : String.length (m_rest m) < n).
    { rewrite Hr. pose proof (drop_while_length s').
      rewrite Hs, length_append in Hn. cbn [String.length] in Hn. lia. }
    destruct (m_group0 m) as [| g0 gs]; [congruence |].
    cbn [sub_matches]. rewrite (IH _ Hlen), Hstart, Hr. cbn [Nat.add].
    rewrite Hs, take_app_length, (squeeze_app repl pre _ Hpre),
      (squeeze_run repl s' a Ha).
    reflexivity.
  - cbn [sub_matches]. symmetry. apply squeeze_none. exact Hs.
Qed.

End CharClass.

Lemma re_sub_class (f : ascii -> bool) (s : string) :
  re_sub (Cls f) "" s = remove_chars f s.
Proof. apply re_sub_Cls. lia. Qed.

Lemma re_sub_runs (f : ascii -> bool) (repl s : string) :
  re_sub (Plus (Cls f)) repl s = squeeze f repl s.
Proof. apply re_sub_Plus_Cls. lia. Qed.

(** [clean_filename] without the patterns. *)
Lemma clean_filename_eq (text : string) :
  clean_filename text
  = lower (squeeze isspace "_" (remove_chars invalid_char text)).
Proof. unfold clean_filename. now rewrite re_sub_class, re_sub_runs. Qed.

Lemma all_chars_remove (f : ascii -> bool) (s : string) :
  all_chars (fun c => negb (f c)) (remove_chars f s) = true.
Proof.
  induction s as [| c s IH]; [reflexivity |]. cbn [remove_chars].
  destruct (f c) eqn:E; [exact IH |]. cbn [all_chars]. now rewrite E, IH.
Qed.

Lemma all_chars_squeeze (p f : ascii -> bool) (repl s : string) :
  all_chars p s = true ->
  all_chars (fun c => p c && negb (f c)) repl = true ->
  all_chars (fun c => p c && negb (f c)) (squeeze f repl s) = true.
Proof.
  intros Hs Hrepl'.
  assert (Happ : forall a b,
             all_chars (fun c => p c && negb (f c)) a = true ->
             all_chars (fun c => p c && negb (f c)) b = true ->
             all_chars (fun c => p c && negb (f c)) (a ++ b) = true).
  { induction a as [| c a IH]; intros b Ha Hb; [exact Hb |].
    cbn [append all_chars] in *. apply andb_true_iff in Ha.
    destruct Ha as [Hc Ha]. now rewrite Hc, IH. }
  induction s as [| c s IH]; [reflexivity |].
  cbn [all_chars] in Hs. apply andb_true_iff in Hs. destruct Hs as [Hc Hs].
  specialize (IH Hs). cbn [squeeze]. destruct (f c) eqn:E.
  - destruct s as [| c' s']; [exact Hrepl' |].
    destruct (f c'); [exact IH | apply Happ; assumption].
  - cbn [all_chars]. now rewrite Hc, E, IH.
Qed.

Lemma all_chars_impl (p q : ascii -> bool) (s : string) :
  (forall c, p c = true -> q c = true) ->
  all_chars p s = true -> all_chars q s = true.
Proof.
  intros Hpq. induction s as [| c s IH]; [reflexivity |]. cbn [all_chars].
  intros H. apply andb_true_iff in H. destruct H as [Hc Hs].
  now rewrite (Hpq c Hc), IH.
Qed.

Lemma all_chars_lower (p : ascii -> bool) (s : string) :
  (forall c, p (lower_char c) = p c) ->
  all_chars p (lower s) = all_chars p s.
Proof.
  intros Hp. unfold lower. induction s as [| c s IH]; [reflexivity |].
  cbn [map_chars all_chars]. now rewrite Hp, IH.
Qed.

Lemma invalid_lower_char (c : ascii) :
  invalid_char (lower_char c) = invalid_char c.
Proof. destruct c as [[] [] [] [] [] [] [] []]; reflexivity. Qed.


(** X17. A name cleaned by [clean_filename] holds none of the nine
    characters the function removes and no white space, is in lower
    case, and is left as it is by a second cleaning. *)
Theorem clean_filename_is_clean :
  forall text : string,
    all_chars clean_char (clean_filename text) = true
    /\ lower (clean_filename text) = clean_filename text
    /\ clean_filename (clean_filename text) = clean_filename text.
Proof.
  intros text.
  assert (Hclean : all_chars clean_char (clean_filename text) = true).
  { rewrite clean_filename_eq, all_chars_lower.
    - apply (all_chars_squeeze (fun c => negb (invalid_char c)) isspace);
        [apply all_chars_remove | reflexivity].
    - intros c. unfold clean_char.
      now rewrite invalid_lower_char, isspace_lower_char. }
  assert (Hlower : lower (clean_filename text) = clean_filename text).
  { rewrite clean_filename_eq. apply lower_idempotent. }
  split; [exact Hclean |]. split; [exact Hlower |].
  rewrite (clean_filename_eq (clean_filename text)).
  rewrite remove_chars_none, squeeze_none; [exact Hlower | |].
  - revert Hclean. apply all_chars_impl. intros c. unfold clean_char.
    intros H. apply andb_true_iff in H. tauto.
  - revert Hclean. apply all_chars_impl. intros c. unfold clean_char.
    intros H. apply andb_true_iff in H. tauto.
Qed.

(* ----------------------------------------------------------------- *)
(** ** Dashboard configurations *)

(** The loop over the charts does not raise, and finds an invalid
    chart unless every chart is valid. *)
Lemma invalid_chart_spec (charts : list pyval) :
  exists b, invalid_chart charts = inr b
            /\ (b = false <-> Forall valid_chart charts).
Proof.
  induction charts as [| chart charts (b & IH & Hb)]; cbn [invalid_chart].
  - exists false. split; [reflexivity |]. split; [constructor | reflexivity].
  - destruct chart as [| | | | | | c]; cbn [isinstance_dict negb];
      try (exists true; split; [reflexivity |];
           split; [discriminate |];
           intros H; inversion H as [| ? ? (c & Hc & _) _]; discriminate).
    cbn [missing_field py_in bind ret].
    destruct (dict_has "type" c) eqn:E1; cbn [bind ret].
    2: { exists true. split; [reflexivity |]. split; [discriminate |].
         intros H. inversion H as [| ? ? (c' & Hc & H1 & _) _].
         inversion Hc. subst c'. congruence. }
    destruct (dict_has "title" c) eqn:E2; cbn [bind ret].
    2: { exists true. split; [reflexivity |]. split; [discriminate |].
         intros H. inversion H as [| ? ? (c' & Hc & _ & H2 & _) _].
         inversion Hc. subst c'. congruence. }
    destruct (dict_has "query" c) eqn:E3; cbn [bind ret].
    2: { exists true. split; [reflexivity |]. split; [discriminate |].
         intros H. inversion H as [| ? ? (c' & Hc & _ & _ & H3) _].
         inversion Hc. subst c'. congruence. }
    exists b. split; [exact IH |]. rewrite Hb. split.
    + intros H. constructor; [| exact H]. exists c. auto.
    + intros H. inversion H. assumption.
Qed.

(** X18. On a dict, [validate_dashboard_config] does not raise, and
    accepts exactly the configurations that have a title and, under
    "charts", a list that is not empty of dicts that each have a type,
    a title and a query.  The values of these fields are not looked
    at. *)
Theorem validate_dashboard_config_accepts :
  forall config : dict,
    exists b,
      validate_dashboard_config (PDict config) = inr b
      /\ (b = true <->
          dict_has "title" config = true
          /\ exists chart charts,
               dict_get "charts" config = Some (PList (chart :: charts))
               /\ Forall valid_chart (chart :: charts)).
Proof.
  intros config.
  unfold validate_dashboard_config. cbn [missing_field py_in bind ret].
  destruct (dict_has "title" config) eqn:Et; cbn [bind ret].
  2: { exists false. split; [reflexivity |]. split; [discriminate |].
       intros [H _]. discriminate. }
  unfold dict_has, getitem_str.
  destruct (dict_get "charts" config) as [charts |] eqn:Ec; cbn [bind ret].
  2: { exists false. split; [reflexivity |]. split; [discriminate |].
       intros [_ (chart & charts & H & _)]. discriminate. }
  destruct charts as [| | | | | [| chart charts] |];
    try (exists false; split; [reflexivity |]; split; [discriminate |];
         intros [_ (chart' & charts' & H & _)]; discriminate).
  destruct (invalid_chart_spec (chart :: charts)) as (b & -> & Hb).
  cbn [bind ret]. exists (negb b). split; [reflexivity |]. split.
  - intros H. split; [reflexivity |]. exists chart, charts.
    split; [reflexivity |]. apply Hb. destruct b; [discriminate | reflexivity].
  - intros [_ (chart' & charts' & H & Hall)]. inversion H. subst.
    apply Hb in Hall. subst b. reflexivity.
Qed.

(* ----------------------------------------------------------------- *)
(** ** What the application extracts from an answer *)

(** What the text of a field gives. *)
Lemma chart_of_text_some (text : string) (chart_data : dict) :
  MainApp.chart_of_text text = inr (Some chart_data) ->
  extracted_chart chart_data.
Proof.
  unfold MainApp.chart_of_text.
  destruct (Json.loads text) as [e | parsed_json]; cbn [bind catch].
  { destruct (is_JSONDecodeError e); discriminate. }
  destruct parsed_json as [| | | | | | p]; cbn [catch ret]; try discriminate.
  destruct (dict_has "charts" p
            && isinstance_list (dict_get_default "charts" PNone p)).
  - destruct (dict_get_default "charts" PNone p)
      as [| | | | | [| first_chart others] |]; cbn [catch ret];
      try discriminate.
    destruct first_chart as [| | | | | | c];
      cbn [MainApp.py_setitem bind raise ret catch is_JSONDecodeError];
      try discriminate.
    intros H. inversion H. subst chart_data.
    exists (dict_set "status" (PStr "success") c). split.
    + rewrite dict_get_set. reflexivity.
    + right. exists others. reflexivity.
  - destruct (dict_has "status" p
              && eq_str (dict_get_default "status" PNone p) "success") eqn:Hs;
      cbn [catch ret]; [| discriminate].
    destruct (dict_has "data" p); cbn [catch ret]; [| discriminate].
    intros H. inversion H. subst chart_data.
    exists p. split; [| left; reflexivity].
    apply andb_prop in Hs. destruct Hs as [_ Hs].
    exact (eq_str_default_get _ _ _ Hs).
Qed.

Lemma scan_nested_some (fields : list string) (nested chart_data : dict) :
  MainApp.scan_nested fields nested = inr (Some chart_data) ->
  extracted_chart chart_data.
Proof.
  induction fields as [| field rest IH]; cbn [MainApp.scan_nested];
    [discriminate |].
  destruct (dict_get field nested) as [[| | | | text | |] |]; try exact IH.
  destruct (MainApp.chart_of_text text) as [e | [hit |]] eqn:E;
    cbn [bind ret]; [discriminate | | exact IH].
  intros H. inversion H. subst hit. exact (chart_of_text_some text _ E).
Qed.

Lemma scan_fields_some (fields : list string) (api_response chart_data : dict) :
  MainApp.scan_fields fields api_response = inr (Some chart_data) ->
  extracted_chart chart_data.
Proof.
  induction fields as [| field rest IH]; cbn [MainApp.scan_fields];
    [discriminate |].
  destruct (dict_get field api_response) as [[| | | | text | | nested] |];
    try exact IH.
  - destruct (MainApp.chart_of_text text) as [e | [hit |]] eqn:E;
      cbn [bind ret]; [discriminate | | exact IH].
    intros H. inversion H. subst hit. exact (chart_of_text_some text _ E).
  - destruct (MainApp.scan_nested MainApp.chart_fields nested)
      as [e | [hit |]] eqn:E; cbn [bind ret]; [discriminate | | exact IH].
    intros H. inversion H. subst hit. exact (scan_nested_some _ _ _ E).
Qed.

(** X23. Whatever [extract_chart_data] of the application returns holds
    under [json_generator_data] a dict with the status "success", and
    nothing else, or the list of all charts under [multiple_charts] as
    well; the first chart of that list is the one under
    [json_generator_data], with the status it was given. *)
Theorem extracted_chart_data_shape :
  forall (api_response : pyval) (chart_data : dict),
    MainApp.extract_chart_data api_response = Some chart_data ->
    exists chart,
      dict_get "status" chart = Some (PStr "success")
      /\ (chart_data = [("json_generator_data", PDict chart)]
          \/ exists others,
               chart_data
               = [("json_generator_data", PDict chart);
                  ("multiple_charts", PList (PDict chart :: others))]).
Proof.
  intros api_response chart_data. unfold MainApp.extract_chart_data.
  destruct api_response as [| | | | | | d]; try discriminate.
  destruct ((dict_has "status" d
             && eq_str (dict_get_default "status" PNone d) "success")
            && (dict_has "data" d && truthy (dict_get_default "data" PNone d)))
    eqn:Hd.
  - intros H. inversion H. subst chart_data. exists d.
    split; [| left; reflexivity].
    apply andb_prop in Hd. destruct Hd as [Hs _].
    apply andb_prop in Hs. destruct Hs as [_ Hs].
    exact (eq_str_default_get _ _ _ Hs).
  - destruct (MainApp.scan_fields MainApp.chart_fields d)
      as [e | [hit |]] eqn:E; try discriminate.
    intros H. inversion H. subst hit. exact (scan_fields_some _ _ _ E).
Qed.

Lemma extracted_chart_data_shape_witness :
  exists chart others,
    MainApp.extract_chart_data (PDict [("response", PStr dashboard_text)])
    = Some [("json_generator_data", PDict chart);
            ("multiple_charts", PList (PDict chart :: others))]
    /\ dict_get "status" chart = Some (PStr "success").
Proof.
  destruct (extracted_chart_data_shape
              (PDict [("response", PStr dashboard_text)]) _
              ltac:(vm_compute; reflexivity))
    as (chart & Hs & [H | (others & H)]); [discriminate H |].
  exists chart, others. split; [| exact Hs].
  inversion H. vm_compute; reflexivity.
Defined.

(* ----------------------------------------------------------------- *)
(** ** The patterns of the dashboard manager *)

Import ReAlt DashboardManager.

Section Loops.

Context {R : Type}.
Variable body : string -> groups -> (string -> groups -> option R) -> option R.

Hypothesis body_ext :
  forall s g k1 k2,
    (forall s' g', k1 s' g' = k2 s' g') -> body s g k1 = body s g k2.

Lemma alt_star_loop_ext (n : nat) :
  forall s g k1 k2,
    (forall s' g', k1 s' g' = k2 s' g') ->
    star_loop body n s g k1 = star_loop body n s g k2.
Proof.
  induction n as [| n IH]; intros s g k1 k2 H; cbn [star_loop]; [apply H |].
  rewrite (body_ext s g _
             (fun s1 g1 =>
                if Nat.ltb (String.length s1) (String.length s)
                then star_loop body n s1 g1 k2 else None)).
  - rewrite H. reflexivity.
  - intros s' g'. destruct (Nat.ltb _ _); [apply IH, H | reflexivity].
Qed.

Lemma lazy_loop_ext (n : nat) :
  forall s g k1 k2,
    (forall s' g', k1 s' g' = k2 s' g') ->
    lazy_loop body n s g k1 = lazy_loop body n s g k2.
Proof.
  induction n as [| n IH]; intros s g k1 k2 H; cbn [lazy_loop]; [apply H |].
  rewrite H.
  rewrite (body_ext s g _
             (fun s1 g1 =>
                if Nat.ltb (String.length s1) (String.length s)
                then lazy_loop body n s1 g1 k2 else None)); [reflexivity |].
  intros s' g'. destruct (Nat.ltb _ _); [apply IH, H | reflexivity].
Qed.

(** More rounds than the text has characters are never run. *)
Lemma alt_star_loop_fuel (n : nat) :
  forall m s g k,
    String.length s < n -> String.length s < m ->
    star_loop body n s g k = star_loop body m s g k.
Proof.
  induction n as [| n IH]; intros m s g k Hn Hm; [lia |].
  destruct m as [| m]; [lia |]. cbn [star_loop].
  rewrite (body_ext s g _
             (fun s1 g1 =>
                if Nat.ltb (String.length s1) (String.length s)
                then star_loop body m s1 g1 k else None)); [reflexivity |].
  intros s' g'. destruct (Nat.ltb _ _) eqn:E; [| reflexivity].
  apply Nat.ltb_lt in E. apply IH; lia.
Qed.

Lemma lazy_loop_fuel (n : nat) :
  forall m s g k,
    String.length s < n -> String.length s < m ->
    lazy_loop body n s g k = lazy_loop body m s g k.
Proof.
  induction n as [| n IH]; intros m s g k Hn Hm; [lia |].
  destruct m as [| m]; [lia |]. cbn [lazy_loop].
  rewrite (body_ext s g _
             (fun s1 g1 =>
                if Nat.ltb (String.length s1) (String.length s)
                then lazy_loop body m s1 g1 k else None)); [reflexivity |].
  intros s' g'. destruct (Nat.ltb _ _) eqn:E; [| reflexivity].
  apply Nat.ltb_lt in E. apply IH; lia.
Qed.

(** A repetition ends in a call of the continuation, on a text that is
    not longer. *)
Hypothesis body_some :
  forall s g k x,
    body s g k = Some x ->
    exists s' g', String.length s' <= String.length s /\ k s' g' = Some x.

Lemma alt_star_loop_some (n : nat) :
  forall s g k x,
    star_loop body n s g k = Some x ->
    exists s' g', String.length s' <= String.length s /\ k s' g' = Some x.
Proof.
  induction n as [| n IH]; intros s g k x; cbn [star_loop].
  - intros H. exists s, g. split; [lia | exact H].
  - destruct (body s g _) as [y |] eqn:E.
    + intros Hy. inversion Hy; subst y.
      destruct (body_some _ _ _ _ E) as (s1 & g1 & Hlen & Hk).
      destruct (Nat.ltb _ _) eqn:Hlt; [| discriminate].
      destruct (IH _ _ _ _ Hk) as (s' & g' & Hlen' & Hk').
      exists s', g'. split; [lia | exact Hk'].
    + intros H. exists s, g. split; [lia | exact H].
Qed.

Lemma lazy_loop_some (n : nat) :
  forall s g k x,
    lazy_loop body n s g k = Some x ->
    exists s' g', String.length s' <= String.length s /\ k s' g' = Some x.
Proof.
  induction n as [| n IH]; intros s g k x; cbn [lazy_loop].
  - intros H. exists s, g. split; [lia | exact H].
  - destruct (k s g) as [y |] eqn:E.
    + intros Hy. inversion Hy; subst y. exists s, g. split; [lia | exact E].
    + intros H.
      destruct (body_some _ _ _ _ H) as (s1 & g1 & Hlen & Hk).
      destruct (Nat.ltb _ _) eqn:Hlt; [| discriminate].
      destruct (IH _ _ _ _ Hk) as (s' & g' & Hlen' & Hk').
      exists s', g'. split; [lia | exact Hk'].
Qed.

End Loops.

Lemma alt_run_ext {R : Type} (r : regex) :
  forall s g (k1 k2 : string -> groups -> option R),
    (forall s' g', k1 s' g' = k2 s' g') -> run r s g k1 = run r s g k2.
Proof.
  induction r as [| c | f | a IHa b IHb | a IHa b IHb | a IHa | a IHa | a IHa |];
    intros s g k1 k2 H; cbn [run].
  - apply H.
  - destruct s as [| x s]; [reflexivity |]. now rewrite H.
  - destruct s as [| x s]; [reflexivity |]. now rewrite H.
  - apply IHa. intros s' g'. apply IHb, H.
  - rewrite (IHa s g k1 k2 H), (IHb s g k1 k2 H). reflexivity.
  - apply alt_star_loop_ext; assumption.
  - apply lazy_loop_ext; assumption.
  - apply IHa. intros s' g'. apply H.
  - destruct s as [| x [| y s]]; now rewrite ?H.
Qed.

(** The rounds [run] allows a repetition, greedy or lazy, are enough. *)
Theorem alt_star_fuel_adequate {R : Type} (a : regex) (n : nat) (s : string)
  (g : groups) (k : string -> groups -> option R) :
  String.length s < n ->
  star_loop (run a) n s g k = star_loop (run a) (S (String.length s)) s g k
  /\ lazy_loop (run a) n s g k
     = lazy_loop (run a) (S (String.length s)) s g k.
Proof.
  intros H. split.
  - apply alt_star_loop_fuel; [apply alt_run_ext | exact H | lia].
  - apply lazy_loop_fuel; [apply alt_run_ext | exact H | lia].
Qed.

(** A match takes [min_length] characters at least. *)
Lemma alt_run_some {R : Type} (r : regex) :
  forall s g (k : string -> groups -> option R) x,
    run r s g k = Some x ->
    exists s' g',
      String.length s' + min_length r <= String.length s
      /\ k s' g' = Some x.
Proof.
  induction r as [| c | f | a IHa b IHb | a IHa b IHb | a IHa | a IHa | a IHa |];
    intros s g k x; cbn [run min_length].
  - intros H. exists s, g. split; [lia | exact H].
  - destruct s as [| y s]; [discriminate |].
    destruct (Ascii.eqb y c); [| discriminate].
    intros H. exists s, g. split; [cbn; lia | exact H].
  - destruct s as [| y s]; [discriminate |].
    destruct (f y); [| discriminate].
    intros H. exists s, g. split; [cbn; lia | exact H].
  - intros H. destruct (IHa _ _ _ _ H) as (s1 & g1 & Hlen1 & H1).
    destruct (IHb _ _ _ _ H1) as (s' & g' & Hlen' & Hk).
    exists s', g'. split; [lia | exact Hk].
  - destruct (run a s g k) as [y |] eqn:E.
    + intros Hy. inversion Hy; subst y.
      destruct (IHa _ _ _ _ E) as (s' & g' & Hlen & Hk).
      exists s', g'. split; [lia | exact Hk].
    + intros H. destruct (IHb _ _ _ _ H) as (s' & g' & Hlen & Hk).
      exists s', g'. split; [lia | exact Hk].
  - intros H.
    assert (Hbody : forall s g (k : string -> groups -> option R) x,
               run a s g k = Some x ->
               exists s' g',
                 String.length s' <= String.length s /\ k s' g' = Some x).
    { intros s0 g0 k0 x0 H0.
      destruct (IHa _ _ _ _ H0) as (s1 & g1 & Hlen1 & H1).
      exists s1, g1. split; [lia | exact H1]. }
    destruct (alt_star_loop_some (run a) Hbody _ _ _ _ _ H) as (s' & g' & Hlen & Hk).
    exists s', g'. split; [lia | exact Hk].
  - intros H.
    assert (Hbody : forall s g (k : string -> groups -> option R) x,
               run a s g k = Some x ->
               exists s' g',
                 String.length s' <= String.length s /\ k s' g' = Some x).
    { intros s0 g0 k0 x0 H0.
      destruct (IHa _ _ _ _ H0) as (s1 & g1 & Hlen1 & H1).
      exists s1, g1. split; [lia | exact H1]. }
    destruct (lazy_loop_some (run a) Hbody _ _ _ _ _ H) as (s' & g' & Hlen & Hk).
    exists s', g'. split; [lia | exact Hk].
  - intros H. destruct (IHa _ _ _ _ H) as (s1 & g1 & Hlen1 & H1).
    eexists s1, _. split; [exact Hlen1 | exact H1].
  - destruct s as [| y [| z s]].
    + intros H. exists "", g. split; [cbn; lia | exact H].
    + destruct (Ascii.eqb y newline); [| discriminate].
      intros H. eexists _, g. split; [| exact H]. lia.
    + discriminate.
Qed.

(** What a search leaves is shorter than the text by the least length
    of a match. *)
Lemma alt_search_from_rest (r : regex) (s : string) :
  forall i m, search_from r s i = Some m ->
    String.length (m_rest m) + min_length r <= String.length s.
Proof.
  induction s as [| c s IH]; intros i m; cbn [search_from].
  - destruct (run r "" None _) as [[s' g] |] eqn:E; [| discriminate].
    intros H. inversion H; subst m. cbn [m_rest].
    destruct (alt_run_some _ _ _ _ _ E) as (s1 & g1 & Hlen & Hk).
    inversion Hk; subst. exact Hlen.
  - destruct (run r (String c s) None _) as [[s' g] |] eqn:E.
    + intros H. inversion H; subst m. cbn [m_rest].
      destruct (alt_run_some _ _ _ _ _ E) as (s1 & g1 & Hlen & Hk).
      inversion Hk; subst. exact Hlen.
    + intros H. specialize (IH _ _ H). cbn [String.length]. lia.
Qed.

(** The rounds [split] allows are enough for a pattern that matches no
    empty text, as the separator of the sentences. *)
Theorem alt_split_fuel_adequate (r : regex) (n : nat) :
  0 < min_length r ->
  forall m s,
    String.length s < n -> String.length s < m ->
    split_fuel n r s = split_fuel m r s.
Proof.
  intros Hr. induction n as [| n IH]; intros m s Hn Hm; [lia |].
  destruct m as [| m]; [lia |]. cbn [split_fuel]. unfold search.
  destruct (search_from r s 0) as [mo |] eqn:E; [| reflexivity].
  pose proof (alt_search_from_rest r s 0 mo E).
  f_equal. apply IH; lia.
Qed.

(** The rounds [split] allows for the separator of the sentences are
    enough. *)
Lemma separator_fuel_adequate (n : nat) (s : string) :
  String.length s < n ->
  split_fuel n separator s = split separator s.
Proof.
  intros H. apply alt_split_fuel_adequate; [cbn; lia | exact H | lia].
Qed.

(** A match keeps the group it has, and sets it where the pattern
    does. *)
Lemma star_loop_groups (R : Type)
  (body : string -> groups -> (string -> groups -> option R) -> option R) :
  (forall s g k x,
      body s g k = Some x ->
      exists s' g', k s' g' = Some x /\ (g <> None -> g' <> None)) ->
  forall n s g k x,
    star_loop body n s g k = Some x ->
    exists s' g', k s' g' = Some x /\ (g <> None -> g' <> None).
Proof.
  intros Hbody. induction n as [| n IH]; intros s g k x; cbn [star_loop].
  - intros H. exists s, g. auto.
  - destruct (body s g _) as [y |] eqn:E.
    + intros H. inversion H. subst y.
      destruct (Hbody _ _ _ _ E) as (s1 & g1 & H1 & Hg1).
      destruct (Nat.ltb (String.length s1) (String.length s)); [| discriminate].
      destruct (IH _ _ _ _ H1) as (s' & g' & H' & Hg').
      exists s', g'. auto.
    + intros H. exists s, g. auto.
Qed.

Lemma lazy_loop_groups (R : Type)
  (body : string -> groups -> (string -> groups -> option R) -> option R) :
  (forall s g k x,
      body s g k = Some x ->
      exists s' g', k s' g' = Some x /\ (g <> None -> g' <> None)) ->
  forall n s g k x,
    lazy_loop body n s g k = Some x ->
    exists s' g', k s' g' = Some x /\ (g <> None -> g' <> None).
Proof.
  intros Hbody. induction n as [| n IH]; intros s g k x; cbn [lazy_loop].
  - intros H. exists s, g. auto.
  - destruct (k s g) as [y |] eqn:E.
    + intros H. inversion H. subst y. exists s, g. auto.
    + intros H.
      destruct (Hbody _ _ _ _ H) as (s1 & g1 & H1 & Hg1).
      destruct (Nat.ltb (String.length s1) (String.length s)); [| discriminate].
      destruct (IH _ _ _ _ H1) as (s' & g' & H' & Hg').
      exists s', g'. auto.
Qed.

Lemma run_groups (r : regex) :
  forall (R : Type) s g (k : string -> groups -> option R) x,
    run r s g k = Some x ->
    exists s' g',
      k s' g' = Some x
      /\ (g <> None -> g' <> None)
      /\ (sets_group r = true -> g' <> None).
Proof.
  induction r as [| c | f | a IHa b IHb | a IHa b IHb | a IHa | a IHa | a IHa |];
    intros R s g k x; cbn [run sets_group].
  - intros H. exists s, g. repeat split; auto; discriminate.
  - destruct s as [| c0 s]; [discriminate |].
    destruct (Ascii.eqb c0 c); [| discriminate].
    intros H. exists s, g. repeat split; auto; discriminate.
  - destruct s as [| c0 s]; [discriminate |].
    destruct (f c0); [| discriminate].
    intros H. exists s, g. repeat split; auto; discriminate.
  - intros H.
    destruct (IHa _ _ _ _ _ H) as (s1 & g1 & H1 & Hg1 & Ha).
    destruct (IHb _ _ _ _ _ H1) as (s' & g' & H' & Hg' & Hb).
    exists s', g'. repeat split; auto.
    intros Hs. apply orb_true_iff in Hs. destruct Hs; auto.
  - destruct (run a s g k) as [y |] eqn:E.
    + intros H. inversion H. subst y.
      destruct (IHa _ _ _ _ _ E) as (s' & g' & H' & Hg' & Ha).
      exists s', g'. repeat split; auto.
      intros Hs. apply andb_true_iff in Hs. destruct Hs; auto.
    + intros H.
      destruct (IHb _ _ _ _ _ H) as (s' & g' & H' & Hg' & Hb).
      exists s', g'. repeat split; auto.
      intros Hs. apply andb_true_iff in Hs. destruct Hs; auto.
  - intros H.
    assert (Hbody : forall s g (k : string -> groups -> option R) x,
               run a s g k = Some x ->
               exists s' g', k s' g' = Some x /\ (g <> None -> g' <> None)).
    { intros s0 g0 k0 x0 Hx.
      destruct (IHa _ _ _ _ _ Hx) as (s' & g' & H1 & H2 & _).
      exists s', g'. auto. }
    destruct (star_loop_groups R (run a) Hbody _ _ _ _ _ H)
      as (s' & g' & H' & Hg').
    exists s', g'. repeat split; auto; discriminate.
  - intros H.
    assert (Hbody : forall s g (k : string -> groups -> option R) x,
               run a s g k = Some x ->
               exists s' g', k s' g' = Some x /\ (g <> None -> g' <> None)).
    { intros s0 g0 k0 x0 Hx.
      destruct (IHa _ _ _ _ _ Hx) as (s' & g' & H1 & H2 & _).
      exists s', g'. auto. }
    destruct (lazy_loop_groups R (run a) Hbody _ _ _ _ _ H)
      as (s' & g' & H' & Hg').
    exists s', g'. repeat split; auto; discriminate.
  - intros H.
    destruct (IHa _ _ _ _ _ H) as (s1 & g1 & H1 & _).
    eexists _, _. split; [exact H1 |]. split; discriminate.
  - intros H.
    assert (Hk : k s g = Some x).
    { destruct s as [| c [| c' s]]; [exact H | | discriminate].
      destruct (Ascii.eqb c newline); [exact H | discriminate]. }
    exists s, g. repeat split; auto; discriminate.
Qed.

(* ----------------------------------------------------------------- *)
(** ** Dashboards from queries *)


(** A match of a pattern that sets its group has one. *)
Lemma search_from_group (r : regex) (s : string) :
  sets_group r = true ->
  forall i m, search_from r s i = Some m -> m_group1 m <> None.
Proof.
  intros Hr.
  assert (Hhere : forall s s' g,
             run r s None (fun s' g => Some (s', g)) = Some (s', g) ->
             g <> None).
  { intros s0 s' g E.
    destruct (run_groups r _ _ _ _ _ E) as (s1 & g1 & H1 & _ & Hg).
    inversion H1. subst. auto. }
  induction s as [| c s IH]; intros i m; cbn [search_from].
  - destruct (run r _ None _) as [[s' g] |] eqn:E; [| discriminate].
    intros H. inversion H. cbn [m_group1]. exact (Hhere _ _ _ E).
  - destruct (run r _ None _) as [[s' g] |] eqn:E; [| apply IH].
    intros H. inversion H. cbn [m_group1]. exact (Hhere _ _ _ E).
Qed.

Lemma first_match_in (patterns : list regex) (sentence : string)
  (pattern : regex) (m : match_obj) :
  first_match patterns sentence = Some (pattern, m) ->
  In pattern patterns /\ search pattern sentence = Some m.
Proof.
  induction patterns as [| p rest IH]; cbn [first_match]; [discriminate |].
  destruct (search p sentence) as [m0 |] eqn:E.
  - intros H. inversion H. subst. split; [left; reflexivity | exact E].
  - intros H. destruct (IH H). split; [right |]; assumption.
Qed.

(** The patterns of the three chart types are of that kind. *)
Lemma chart_patterns_known : known_patterns chart_patterns.
Proof.
  unfold known_patterns, chart_patterns.
  repeat (constructor; cbn [fst snd]);
    try (cbn; tauto); reflexivity.
Qed.

(** The description of a match of a known pattern does not raise. *)
Lemma describe_returns (chart_type sentence : string) (pattern : regex)
  (m : match_obj) :
  has_groups pattern = sets_group pattern ->
  search pattern sentence = Some m ->
  exists description, describe chart_type sentence pattern m = inr description.
Proof.
  intros Hp Hm. unfold describe.
  destruct (has_groups pattern) eqn:Hg.
  - pose proof (search_from_group pattern sentence (eq_sym Hp) 0 m Hm) as Hg1.
    destruct (m_group1 m) as [text |]; [| congruence].
    cbn [bind ret]. eauto.
  - destruct (_ && _); [cbn [bind ret]; eauto |].
    destruct (_ && _); cbn [bind ret]; eauto.
Qed.

(** The search for a duplicate among charts of the manager. *)
Lemma is_duplicate_spec (keys : list (string * string)) (charts : list pyval)
  (description chart_type : string) :
  Forall2 dashboard_chart keys charts ->
  is_duplicate charts description chart_type
  = inr (existsb (same_key description chart_type) keys).
Proof.
  induction 1 as [| key chart keys charts [chart_title ->] _ IH];
    [reflexivity |].
  cbn [is_duplicate getitem_str dict_get String.eqb Ascii.eqb Bool.eqb
       bind ret eq_str existsb].
  unfold same_key at 1.
  destruct (String.eqb (snd key) description); cbn [bind ret andb orb].
  - destruct (String.eqb (fst key) chart_type); cbn [orb]; [reflexivity |].
    exact IH.
  - exact IH.
Qed.

Lemma existsb_same_key (keys : list (string * string))
  (description chart_type : string) :
  existsb (same_key description chart_type) keys = false ->
  ~ In (chart_type, description) keys.
Proof.
  intros H Hin.
  assert (Ht : existsb (same_key description chart_type) keys = true).
  { apply existsb_exists. exists (chart_type, description).
    split; [exact Hin |]. unfold same_key. cbn [fst snd].
    now rewrite !String.eqb_refl. }
  congruence.
Qed.

(** A chart more keeps the charts what they are. *)
Lemma add_chart_inv (keys : list (string * string)) (charts : list pyval)
  (chart_type description : string) :
  dashboard_charts keys charts ->
  In chart_type chart_types ->
  exists answer,
    add_chart charts chart_type description = inr answer
    /\ forall charts', answer = Some charts' ->
                       exists keys', dashboard_charts keys' charts'.
Proof.
  intros (Hcharts & Hnodup & Hkeys) Htype. unfold add_chart.
  destruct (String.eqb_spec description "") as [-> | Hd].
  { eexists. split; [reflexivity |]. intros charts' H. inversion H. subst.
    exists keys. repeat split; assumption. }
  destruct (title chart_type) as [type_title |];
    [| eexists; split; [reflexivity | discriminate]].
  destruct (title description) as [description_title |];
    [| eexists; split; [reflexivity | discriminate]].
  rewrite (is_duplicate_spec keys charts description chart_type Hcharts).
  cbn [bind ret].
  destruct (existsb (same_key description chart_type) keys) eqn:E.
  { eexists. split; [reflexivity |]. intros charts' H. inversion H. subst.
    exists keys. repeat split; assumption. }
  eexists. split; [reflexivity |]. intros charts' H. inversion H. subst.
  exists (keys ++ [(chart_type, description)])%list. repeat split.
  - apply Forall2_app; [exact Hcharts |]. constructor; [| constructor].
    eexists. reflexivity.
  - apply NoDup_app; [exact Hnodup | repeat constructor; intros [] | ].
    intros key Hin [<- | []]. exact (existsb_same_key _ _ _ E Hin).
  - apply Forall_app. split; [exact Hkeys |].
    constructor; [| constructor]. split; assumption.
Qed.

Lemma scan_chart_types_inv (types : list (string * list regex))
  (sentence : string) :
  known_patterns types ->
  forall keys charts,
    dashboard_charts keys charts ->
    exists answer,
      scan_chart_types types sentence charts = inr answer
      /\ forall charts', answer = Some charts' ->
                         exists keys', dashboard_charts keys' charts'.
Proof.
  induction 1 as [| [chart_type patterns] types [Htype Hpatterns] _ IH];
    intros keys charts Hcharts; cbn [scan_chart_types].
  - eexists. split; [reflexivity |]. intros charts' H. inversion H. subst.
    exists keys. exact Hcharts.
  - cbn [fst snd] in *.
    assert (Hstep : exists answer,
               match first_match patterns sentence with
               | Some (pattern, m) =>
                   description <- describe chart_type sentence pattern m ;;
                   add_chart charts chart_type description
               | None => ret (Some charts)
               end = inr answer
               /\ forall charts', answer = Some charts' ->
                                  exists keys', dashboard_charts keys' charts').
    { destruct (first_match patterns sentence) as [[pattern m] |] eqn:E.
      - destruct (first_match_in _ _ _ _ E) as [Hin Hm].
        destruct (describe_returns chart_type sentence pattern m
                    (proj1 (Forall_forall _ _) Hpatterns _ Hin) Hm)
          as [description ->].
        cbn [bind]. exact (add_chart_inv keys charts _ _ Hcharts Htype).
      - eexists. split; [reflexivity |]. intros charts' H. inversion H. subst.
        exists keys. exact Hcharts. }
    destruct Hstep as (answer & -> & Hanswer). cbn [bind].
    destruct answer as [charts1 |].
    + destruct (Hanswer charts1 eq_refl) as [keys1 H1].
      exact (IH keys1 charts1 H1).
    + eexists. split; [reflexivity | discriminate].
Qed.

Lemma scan_sentences_inv (sentences : list string) :
  forall keys charts,
    dashboard_charts keys charts ->
    exists answer,
      scan_sentences sentences charts = inr answer
      /\ forall charts', answer = Some charts' ->
                         exists keys', dashboard_charts keys' charts'.
Proof.
  induction sentences as [| sentence rest IH]; intros keys charts Hcharts;
    cbn [scan_sentences].
  - eexists. split; [reflexivity |]. intros charts' H. inversion H. subst.
    exists keys. exact Hcharts.
  - destruct (_ || _)%bool; [exact (IH keys charts Hcharts) |].
    destruct (scan_chart_types_inv chart_patterns (strip sentence)
                chart_patterns_known keys charts Hcharts)
      as (answer & -> & Hanswer).
    cbn [bind]. destruct answer as [charts1 |].
    + destruct (Hanswer charts1 eq_refl) as [keys1 H1].
      exact (IH keys1 charts1 H1).
    + eexists. split; [reflexivity | discriminate].
Qed.

Lemma fallback_charts (query_lower : string) :
  exists keys, dashboard_charts keys (fallback query_lower).
Proof.
  unfold fallback.
  assert (H1 : dashboard_chart ("bar", "top 10 customers by spend")
                 customers_chart) by (eexists; reflexivity).
  assert (H2 : dashboard_chart ("pie", "product categories")
                 categories_chart) by (eexists; reflexivity).
  destruct (_ && _); destruct (_ && _); cbn [app].
  - exists [("bar", "top 10 customers by spend"); ("pie", "product categories")].
    repeat split.
    + repeat constructor; assumption.
    + repeat constructor; cbn; intuition discriminate.
    + repeat constructor; cbn; try tauto; discriminate.
  - exists [("bar", "top 10 customers by spend")]. repeat split.
    + repeat constructor; assumption.
    + repeat constructor; cbn; intuition discriminate.
    + repeat constructor; cbn; try tauto; discriminate.
  - exists [("pie", "product categories")]. repeat split.
    + repeat constructor; assumption.
    + repeat constructor; cbn; intuition discriminate.
    + repeat constructor; cbn; try tauto; discriminate.
  - exists []. repeat split; constructor.
Qed.

(** What [_parse_dashboard_query] answers. *)
Lemma parse_dashboard_query_inv (query : string) :
  exists answer,
    _parse_dashboard_query query = inr answer
    /\ forall config,
        answer = Some (Some config) ->
        exists keys chart charts,
          config = [("title", PStr "Live Dashboard");
                    ("charts", PList (chart :: charts))]
          /\ dashboard_charts keys (chart :: charts).
Proof.
  unfold _parse_dashboard_query.
  destruct (scan_sentences_inv (split separator (lower query)) [] [])
    as (answer & -> & Hanswer).
  { repeat split; constructor. }
  cbn [bind]. destruct answer as [charts |];
    [| eexists; split; [reflexivity | discriminate]].
  destruct (Hanswer charts eq_refl) as [keys Hkeys].
  destruct charts as [| chart charts].
  - destruct (fallback_charts (lower query)) as [keys' Hkeys'].
    destruct (fallback (lower query)) as [| chart charts];
      eexists; (split; [reflexivity |]); intros config H; [discriminate |].
    inversion H. subst. exists keys', chart, charts. split; [reflexivity |].
    exact Hkeys'.
  - eexists. split; [reflexivity |]. intros config H. inversion H. subst.
    exists keys, chart, charts. split; [reflexivity | exact Hkeys].
Qed.

(** X19. [_parse_dashboard_query] does not raise: a pattern with a
    group sets it in every match, and the charts it compares are its
    own.  A configuration it answers has the title "Live Dashboard"
    and a list of charts that is not empty; each chart has a type
    among bar, pie and line, a title, a description that is not empty
    and the query "Create a <type> chart for <description>"; no two
    charts have the same type and description. *)
Theorem parse_dashboard_query_answer :
  forall query : string,
  exists answer,
    _parse_dashboard_query query = inr answer
    /\ forall config,
        answer = Some (Some config) ->
        exists keys chart charts,
          config = [("title", PStr "Live Dashboard");
                    ("charts", PList (chart :: charts))]
          /\ dashboard_charts keys (chart :: charts).
Proof. exact parse_dashboard_query_inv. Qed.

(** No chart of the manager is invalid. *)
Lemma dashboard_charts_valid (keys : list (string * string))
  (charts : list pyval) :
  Forall2 dashboard_chart keys charts -> invalid_chart charts = inr false.
Proof.
  induction 1 as [| key chart keys charts [chart_title ->] _ IH];
    [reflexivity |].
  cbn [invalid_chart isinstance_dict negb missing_field py_in dict_has
       dict_get String.eqb Ascii.eqb Bool.eqb bind ret].
  exact IH.
Qed.

(** X20. Every configuration [_parse_dashboard_query] answers is
    accepted by [validate_dashboard_config]. *)
Theorem parsed_dashboard_is_valid :
  forall (query : string) (config : dict),
    _parse_dashboard_query query = inr (Some (Some config)) ->
    validate_dashboard_config (PDict config) = inr true.
Proof.
  intros query config H.
  destruct (parse_dashboard_query_inv query) as (answer & Ha & Hconfig).
  rewrite Ha in H. inversion H. subst answer.
  destruct (Hconfig config eq_refl) as (keys & chart & charts & -> & Hc & _).
  unfold validate_dashboard_config.
  cbn [missing_field py_in dict_has dict_get String.eqb Ascii.eqb Bool.eqb
       bind ret getitem_str].
  rewrite (dashboard_charts_valid keys (chart :: charts) Hc).
  reflexivity.
Qed.

Lemma parsed_dashboard_is_valid_witness :
  exists config,
    _parse_dashboard_query two_chart_query = inr (Some (Some config))
    /\ validate_dashboard_config (PDict config) = inr true.
Proof.
  eexists. split; [vm_compute; reflexivity |].
  apply (parsed_dashboard_is_valid two_chart_query).
  vm_compute; reflexivity.
Defined.

(** X21. A query that names a customer and a spend, or a product and
    a category or categories, in any case, is never left without a
    configuration: when no sentence gives a chart, the fallback gives
    one. *)
Theorem customers_and_spend_give_a_dashboard :
  forall query : string,
    (contains "customer" (lower query) && contains "spend" (lower query)
     || (contains "categories" (lower query)
         || contains "category" (lower query))
        && contains "product" (lower query))%bool = true ->
    _parse_dashboard_query query <> inr (Some None).
Proof.
  intros query Hq. unfold _parse_dashboard_query.
  destruct (scan_sentences _ []) as [e | [[| chart charts] |]];
    cbn [bind ret]; try discriminate.
  unfold fallback.
  destruct (contains "customer" (lower query) && contains "spend" (lower query));
    cbn [app orb] in *; [discriminate |].
  rewrite Hq. discriminate.
Qed.

Lemma customers_and_spend_give_a_dashboard_witness :
  _parse_dashboard_query "Customer spend dashboard" <> inr (Some None)
  /\ _parse_dashboard_query "Build a dashboard" = inr (Some None).
Proof.
  split; [| vm_compute; reflexivity].
  apply (customers_and_spend_give_a_dashboard "Customer spend dashboard").
  vm_compute; reflexivity.
Defined.
